(** * add_captures.py: the capture sync script, embedded and verified

    The script reconciles the PDFs of one capture folder with the
    [captures] table: every file is resolved to a document (through
    mapping.json or an interactive prompt), hashed, and upserted.

    The embedding follows scripts/add_captures.py function by function.
    Python's [str] is modelled by [string], every character standing for
    the code point of the same number (0..255); dictionaries with string
    keys are [gmap string _]; the console, the mapping file, the capture
    folder and the database are fields of an explicit [world] that a small
    state-and-exception monad threads through the code. *)

From Stdlib Require Import ZArith Ascii String List Lia Bool.
From Stdlib Require Import Sorting.Sorted Sorting.Permutation.
From stdpp Require Import base option list strings gmap sorting.

Local Open Scope Z_scope.

(* ===================================================================== *)
(** ** Python built-ins used by the script *)
(* ===================================================================== *)

Module Py.

(** [str.isspace] on one character, for code points below 256. *)
Definition isspace (c : ascii) : bool :=
  let n := N_of_ascii c in
  ((9 <=? n) && (n <=? 13) || (28 <=? n) && (n <=? 32)
   || (n =? 133) || (n =? 160))%N.

Fixpoint lstrip (s : string) : string :=
  match s with
  | EmptyString => EmptyString
  | String c s' => if isspace c then lstrip s' else s
  end.

Fixpoint rstrip (s : string) : string :=
  match s with
  | EmptyString => EmptyString
  | String c s' =>
      match rstrip s' with
      | EmptyString => if isspace c then EmptyString else String c EmptyString
      | r => String c r
      end
  end.

(** [s.strip()] *)
Definition strip (s : string) : string := rstrip (lstrip s).

Definition lower_char (c : ascii) : ascii :=
  let n := N_of_ascii c in
  if ((65 <=? n) && (n <=? 90)
      || (192 <=? n) && (n <=? 222) && negb (n =? 215))%N
  then ascii_of_N (n + 32) else c.

Fixpoint map_str (f : ascii -> ascii) (s : string) : string :=
  match s with
  | EmptyString => EmptyString
  | String c s' => String (f c) (map_str f s')
  end.

(** [s.lower()] *)
Definition lower (s : string) : string := map_str lower_char s.

(** [s.upper()], on the alphabet of a hexadecimal digest (ASCII). *)
Definition upper_char (c : ascii) : ascii :=
  let n := N_of_ascii c in
  if ((97 <=? n) && (n <=? 122))%N then ascii_of_N (n - 32) else c.

Definition upper (s : string) : string := map_str upper_char s.

(** [s.replace(a, b)] for one-character [a] and [b]. *)
Definition replace_char (a b : ascii) (s : string) : string :=
  map_str (fun c => if Ascii.eqb c a then b else c) s.

Definition digit_value (c : ascii) : option Z :=
  let n := N_of_ascii c in
  if ((48 <=? n) && (n <=? 57))%N then Some (Z.of_N n - 48) else None.

(** CPython refuses to convert decimal strings with more digits than
    this (sys.get_int_max_str_digits()). *)
Definition int_max_str_digits : nat := 4300.

(** The digits of an integer literal after its sign: a digit, then
    digits each optionally preceded by one underscore.  [prev] tells
    whether the previous character was a digit; [acc] is the value and
    [n] the number of digits read so far. *)
Fixpoint int_digits (prev : bool) (acc : Z) (n : nat) (s : string)
  : option (Z * nat) :=
  match s with
  | EmptyString => if prev then Some (acc, n) else None
  | String c s' =>
      match digit_value c with
      | Some d => int_digits true (10 * acc + d) (S n) s'
      | None =>
          if Ascii.eqb c "_" && prev then int_digits false acc n s'
          else None
      end
  end.

(** [int(s)]: [None] stands for ValueError. *)
Definition int (s : string) : option Z :=
  let body (sign : Z) (t : string) :=
    match int_digits false 0 0%nat t with
    | Some (v, n) =>
        if (int_max_str_digits <? n)%nat then None else Some (sign * v)
    | None => None
    end in
  match strip s with
  | String "+" t => body 1 t
  | String "-" t => body (-1) t
  | t => body 1 t
  end.

(** [l[i]] with Python's negative indices: [None] stands for IndexError. *)
Definition getitem {A} (l : list A) (i : Z) : option A :=
  let n := Z.of_nat (length l) in
  let j := if i <? 0 then i + n else i in
  if (j <? 0) || (n <=? j) then None else l !! Z.to_nat j.

(** Truth value of an optional string ([None] and [''] are falsy). *)
Definition truthy (o : option string) : bool :=
  match o with
  | Some (String _ _) => true
  | _ => false
  end.

End Py.


(* ===================================================================== *)
(** ** json.dump(mapping, f, indent=2, sort_keys=True) *)
(* ===================================================================== *)

Module Json.

(** The double quote character. *)
Definition quote : ascii := ascii_of_N 34.

Definition hex_digit (n : N) : ascii :=
  if (n <? 10)%N then ascii_of_N (48 + n) else ascii_of_N (87 + n).

(** One character of a string literal with ensure_ascii: the short
    escapes, then \u00xx for everything outside [' ', '~']. *)
Definition escape_char (c : ascii) : string :=
  let n := N_of_ascii c in
  if (n =? 34)%N then String "\" (String quote EmptyString)
  else if (n =? 92)%N then "\\"
  else if (n =? 8)%N then "\b"
  else if (n =? 12)%N then "\f"
  else if (n =? 10)%N then "\n"
  else if (n =? 13)%N then "\r"
  else if (n =? 9)%N then "\t"
  else if ((n <? 32) || (126 <? n))%N
       then "\u00" +:+ String (hex_digit (n / 16))
                         (String (hex_digit (n mod 16)) EmptyString)
  else String c EmptyString.

Fixpoint escape (s : string) : string :=
  match s with
  | EmptyString => EmptyString
  | String c s' => escape_char c +:+ escape s'
  end.

Definition encode_str (s : string) : string :=
  String quote (escape s +:+ String quote EmptyString).

(** [sorted(dct.items())]: keys are unique, so the pairs are ordered by
    key, in code-point order. *)
Definition sorted_items (m : gmap string string) : list (string * string) :=
  merge_sort (fun a b => String.le a.1 b.1) (map_to_list m).

Definition newline : string := String (ascii_of_N 10) EmptyString.

Fixpoint item_chunks (first : bool) (items : list (string * string))
  : list string :=
  match items with
  | [] => []
  | (k, v) :: rest =>
      (if first then [] else ["," +:+ newline +:+ "  "])
      ++ [encode_str k; ": "; encode_str v]
      ++ item_chunks false rest
  end.

(** The chunks the encoder yields, each of which json.dump hands to
    [f.write] in turn. *)
Definition chunks (m : gmap string string) : list string :=
  match sorted_items m with
  | [] => ["{}"]
  | items =>
      ["{"; newline +:+ "  "] ++ item_chunks true items ++ [newline; "}"]
  end.

End Json.

Arguments Json.chunks : simpl never.
Arguments Json.sorted_items : simpl never.

(* ===================================================================== *)
(** ** The world the script runs in *)
(* ===================================================================== *)

(** A row of the [sites] table, as far as the query reads it. *)
Record site_row := SiteRow {
  site_id : string;
  site_name : option string;
  official_site_url : option string;
}.

(** A row of the [documents] table, as far as the query reads it. *)
Record document_row := DocumentRow {
  document_id : string;
  d_site_id : string;
  url : string;
  title : option string;
  official_category : option string;
}.

(** A row of the [captures] table. *)
Record capture_row := CaptureRow {
  capture_id : string;
  c_document_id : string;
  captured_by : string;
  capture_ts : string;
  kind : string;
  http_status : Z;
  file_path : string;
  content_hash : string;
  notes : option string;
}.

(** The connection's view of the database: [committed] is the durable
    content of [captures]; [pending] is its content as seen inside the
    open transaction (autocommit is off). *)
Record database := Database {
  sites : list site_row;
  documents : list document_row;
  committed : list capture_row;
  pending : list capture_row;
}.

(** One entry of the date folder: its name, and its bytes when it can be
    read to the end ([None]: reading fails with an OSError). *)
Record dir_entry := DirEntry {
  entry_name : string;
  entry_bytes : option string;
}.

(** The dictionaries built by [get_site_documents]. *)
Record doc := Doc {
  doc_document_id : string;
  doc_url : string;
  doc_title : option string;
  doc_category : option string;
}.

(** What the script writes to the console, one constructor per print (or
    prompt) of the source. *)
Inductive output :=
| OutMappingSaved
| OutStaleWarning (url : string)
| OutUnrecognised (stem : string)
| OutAvailable
| OutMenuEntry (i : nat) (label : string) (cat : string)
| OutSkipOption
| OutPrompt
| OutMapped (stem url : string)
| OutInvalidChoice
| OutNoDatabaseUrl
| OutFolderNotFound
| OutNoPdfs
| OutFound (n : nat)
| OutDryRunBanner
| OutNoDocuments
| OutProcessing (dry : bool) (name : string)
| OutSkipped
| OutDetails (doc_id hash rel_path : string)
| OutInserted (capture_id : string)
| OutUpdated (capture_id : string)
| OutError
| OutDrySummary (inserted skipped : nat)
| OutSummary (inserted updated skipped : nat).

Record world := World {
  w_database_url : string;               (* DATABASE_URL, '' when unset *)
  w_date_dir : option (list dir_entry);  (* <site>/<date>/, None if absent *)
  w_mapping_file : option string;        (* <site>/mapping.json *)
  w_db : database;
  w_stdin : list string;                 (* the lines the user will type *)
  w_stdout : list output;                (* printed so far, oldest first *)
  w_uuid_draws : nat;                    (* calls of uuid.uuid4() so far *)
}.

Definition set_mapping_file (f : option string) (w : world) : world :=
  World (w_database_url w) (w_date_dir w) f (w_db w) (w_stdin w)
        (w_stdout w) (w_uuid_draws w).
Definition set_db (d : database) (w : world) : world :=
  World (w_database_url w) (w_date_dir w) (w_mapping_file w) d (w_stdin w)
        (w_stdout w) (w_uuid_draws w).
Definition set_stdin (i : list string) (w : world) : world :=
  World (w_database_url w) (w_date_dir w) (w_mapping_file w) (w_db w) i
        (w_stdout w) (w_uuid_draws w).
Definition set_stdout (o : list output) (w : world) : world :=
  World (w_database_url w) (w_date_dir w) (w_mapping_file w) (w_db w)
        (w_stdin w) o (w_uuid_draws w).
Definition set_uuid_draws (n : nat) (w : world) : world :=
  World (w_database_url w) (w_date_dir w) (w_mapping_file w) (w_db w)
        (w_stdin w) (w_stdout w) n.
Definition set_pending (rows : list capture_row) (d : database) : database :=
  Database (sites d) (documents d) (committed d) rows.
Definition set_committed (rows : list capture_row) (d : database) : database :=
  Database (sites d) (documents d) rows (pending d).

(** The exceptions that occur.  [SystemExit] is not an [Exception], so
    [except Exception] lets it through. *)
Inductive exn :=
| EOFError
| OSError
| JSONDecodeError
| SystemExit (code : Z).

Definition is_Exception (e : exn) : bool :=
  match e with SystemExit _ => false | _ => true end.

Inductive outcome (A : Type) :=
| Ok (a : A)
| Raise (e : exn).
Arguments Ok {A} a.
Arguments Raise {A} e.

(** Computations: a state monad over [world] with exceptions; the effects
    made before an exception is raised stay in the world. *)
Definition M (A : Type) : Type := world -> outcome A * world.

Definition ret {A} (a : A) : M A := fun w => (Ok a, w).
Definition bind {A B} (c : M A) (k : A -> M B) : M B :=
  fun w => match c w with
           | (Ok a, w') => k a w'
           | (Raise e, w') => (Raise e, w')
           end.
Definition raise {A} (e : exn) : M A := fun w => (Raise e, w).
Definition get : M world := fun w => (Ok w, w).
Definition modify (f : world -> world) : M unit := fun w => (Ok tt, f w).

Declare Scope py_scope.
Delimit Scope py_scope with py.
Notation "'let*' x ':=' c 'in' k" := (bind c (fun x => k))
  (at level 10, x pattern, c at level 100, k at level 200) : py_scope.
Notation "c ';;' k" := (bind c (fun _ => k))
  (at level 100, k at level 200, right associativity) : py_scope.
Local Open Scope py_scope.

(** try: c  except Exception: h *)
Definition try_except {A} (c : M A) (h : exn -> M A) : M A :=
  fun w => match c w with
           | (Raise e, w') => if is_Exception e then h e w' else (Raise e, w')
           | r => r
           end.

(** try: c  finally: f *)
Definition try_finally {A} (c : M A) (f : M unit) : M A :=
  fun w => match c w with
           | (r, w') => match f w' with
                        | (Ok _, w'') => (r, w'')
                        | (Raise e, w'') => (Raise e, w'')
                        end
           end.

Definition print (o : output) : M unit :=
  modify (fun w => set_stdout (w_stdout w ++ [o]) w).

(** input(prompt): shows the prompt, then reads one line; EOFError when
    the input is exhausted. *)
Definition input : M string :=
  print OutPrompt ;;
  let* w := get in
  match w_stdin w with
  | [] => raise EOFError
  | line :: rest => modify (set_stdin rest) ;; ret line
  end.

(** The library functions the script calls and the database's collation. *)
Class Libs := {
  (* hashlib.sha256(bytes).hexdigest() *)
  hexdigest : string -> string;
  (* str(uuid.uuid4()), for the n-th call of the run *)
  uuid4 : nat -> string;
  (* json.load on the text of a file in the documented format, an object
     of strings; None stands for JSONDecodeError *)
  json_loads : string -> option (gmap string string);
  (* x <= y for the collation of the text columns *)
  text_leb : string -> string -> bool;
}.

(* ===================================================================== *)
(** ** The parts of PostgreSQL the two statements rely on *)
(* ===================================================================== *)

Module Sql.

(** [s LIKE p]: % matches any run of characters, _ any one character, and
    a backslash takes the next character literally.  (A pattern ending in
    a lone backslash is refused by the server; the patterns built by the
    script end in %, so none does.) *)
Fixpoint like (p : string) : string -> bool :=
  match p with
  | EmptyString =>
      fun s => match s with EmptyString => true | _ => false end
  | String c p' =>
      if Ascii.eqb c "%" then
        fix any (s : string) : bool :=
          like p' s
          || match s with EmptyString => false | String _ s' => any s' end
      else if Ascii.eqb c "_" then
        fun s => match s with String _ s' => like p' s' | _ => false end
      else if Ascii.eqb c "\" then
        match p' with
        | String e p'' =>
            fun s => match s with
                     | String a s' => Ascii.eqb a e && like p'' s'
                     | _ => false
                     end
        | EmptyString => fun _ => false
        end
      else
        fun s => match s with
                 | String a s' => Ascii.eqb a c && like p' s'
                 | _ => false
                 end
  end.

(** [s ILIKE p] *)
Definition ilike (s p : string) : bool := like (Py.lower p) (Py.lower s).

(** [col ILIKE p] in a WHERE clause: NULL does not select the row. *)
Definition ilike_null (col : option string) (p : string) : bool :=
  match col with
  | Some s => ilike s p
  | None => false
  end.

(** INSERT ... ON CONFLICT (document_id, content_hash) DO UPDATE SET
    file_path = EXCLUDED.file_path, capture_ts = EXCLUDED.capture_ts
    RETURNING capture_id, (xmax = 0): the table after the statement, the
    identifier of the row it wrote and whether that row was inserted. *)
Definition conflicts (new old : capture_row) : bool :=
  String.eqb (c_document_id old) (c_document_id new)
  && String.eqb (content_hash old) (content_hash new).

Definition do_update (new old : capture_row) : capture_row :=
  CaptureRow (capture_id old) (c_document_id old) (captured_by old)
             (capture_ts new) (kind old) (http_status old)
             (file_path new) (content_hash old) (notes old).

Fixpoint upsert (new : capture_row) (rows : list capture_row)
  : list capture_row * (string * bool) :=
  match rows with
  | [] => ([new], (capture_id new, true))
  | old :: rest =>
      if conflicts new old
      then (do_update new old :: rest, (capture_id old, false))
      else let '(rest', r) := upsert new rest in (old :: rest', r)
  end.

End Sql.

(* ===================================================================== *)
(** ** scripts/add_captures.py *)
(* ===================================================================== *)

Definition RESEARCHER_ID : string := "36339282-36e1-41b8-ad8b-bba0fff72e64".

(** Path.home()-relative form of CAPTURES_BASE, with its separator. *)
Definition CAPTURES_BASE : string := "Documents/PhD/Captures/".

Record args := Args {
  arg_site : string;
  arg_date : string;
  arg_dry_run : bool;
}.

(** The writes of [save_mapping] on mapping.json, in order: opening the
    file in mode "w" empties it, then every chunk is appended. *)
Inductive file_op :=
| Truncate
| Write (chunk : string).

Definition apply_file_op (f : option string) (op : file_op) : option string :=
  match op with
  | Truncate => Some EmptyString
  | Write chunk => Some (default EmptyString f +:+ chunk)
  end.

Definition run_file_ops (ops : list file_op) (f : option string)
  : option string :=
  fold_left apply_file_op ops f.

Definition save_mapping_ops (mapping : gmap string string) : list file_op :=
  Truncate :: map Write (Json.chunks mapping).

(** The text of mapping.json after a completed [save_mapping]. *)
Definition mapping_text (mapping : gmap string string) : string :=
  fold_left String.append (Json.chunks mapping) EmptyString.

(** next((d for d in docs if d["url"] == url), None) *)
Definition first_with_url (u : string) (docs : list doc) : option doc :=
  List.find (fun d => String.eqb (doc_url d) u) docs.

(** The console line of candidate [d] under the number [i]:
    label = doc["title"] or doc["url"], then the category if there is one. *)
Definition menu_entry (i : nat) (d : doc) : output :=
  OutMenuEntry i
    (if Py.truthy (doc_title d)
     then default EmptyString (doc_title d) else doc_url d)
    (if Py.truthy (doc_category d)
     then "  [" +:+ default EmptyString (doc_category d) +:+ "]"
     else EmptyString).

(** The console lines of the menu, numbered from [i]. *)
Fixpoint menu_entries (i : nat) (docs : list doc) : list output :=
  match docs with
  | [] => []
  | d :: rest => menu_entry i d :: menu_entries (S i) rest
  end.

(** {"document_id": str(r[0]), "url": r[1], "title": r[2],
     "category": r[3]} *)
Definition to_doc (r : document_row) : doc :=
  Doc (document_id r) (url r) (title r) (official_category r).

Arguments mapping_text : simpl never.

Section Script.
Context `{Libs}.

(** ORDER BY d.official_category NULLS LAST, d.url *)
Definition order_leb (a b : document_row) : bool :=
  match official_category a, official_category b with
  | Some x, Some y =>
      if String.eqb x y then text_leb (url a) (url b) else text_leb x y
  | Some _, None => true
  | None, Some _ => false
  | None, None => text_leb (url a) (url b)
  end.

Definition site_matches (site_folder : string) (s : site_row) : bool :=
  Sql.ilike_null (site_name s)
    ("%" +:+ Py.replace_char "-" " " site_folder +:+ "%")
  || Sql.ilike_null (official_site_url s) ("%" +:+ site_folder +:+ "%").

(** FROM documents d JOIN sites s ON s.site_id = d.site_id WHERE ... *)
Definition select_documents (db : database) (site_folder : string)
  : list document_row :=
  flat_map (fun d =>
    flat_map (fun s =>
      if String.eqb (site_id s) (d_site_id d) && site_matches site_folder s
      then [d] else [])
      (sites db))
    (documents db).

Definition fetchall (db : database) (site_folder : string)
  : list document_row :=
  merge_sort (fun a b => order_leb a b) (select_documents db site_folder).

(** The list of dictionaries built from the rows. *)
Definition catalog (db : database) (site_folder : string) : list doc :=
  map to_doc (fetchall db site_folder).

Definition get_site_documents (site_folder : string) : M (list doc) :=
  let* w := get in
  ret (catalog (w_db w) site_folder).

Definition sha256 (pdf : dir_entry) : M string :=
  match entry_bytes pdf with
  | Some bytes => ret (Py.upper (hexdigest bytes))
  | None => raise OSError
  end.

(** The dictionary [load_mapping] finds in a file state: the empty one
    when the file does not exist; [None] when json.load fails. *)
Definition read_mapping (file : option string) : option (gmap string string) :=
  match file with
  | Some text => json_loads text
  | None => Some ∅
  end.

Definition load_mapping : M (gmap string string) :=
  let* w := get in
  match read_mapping (w_mapping_file w) with
  | Some m => ret m
  | None => raise JSONDecodeError
  end.

Definition save_mapping (mapping : gmap string string) : M unit :=
  modify (fun w =>
    set_mapping_file
      (run_file_ops (save_mapping_ops mapping) (w_mapping_file w)) w) ;;
  print OutMappingSaved.

(** [save_mapping] when the process or the device fails after the first
    [k] writes: the file is closed as it then is and OSError propagates. *)
Definition save_mapping_interrupted (k : nat) (mapping : gmap string string)
  : M unit :=
  modify (fun w =>
    set_mapping_file
      (run_file_ops (take k (save_mapping_ops mapping)) (w_mapping_file w))
      w) ;;
  raise OSError.

Fixpoint print_all (lines : list output) : M unit :=
  match lines with
  | [] => ret tt
  | o :: rest => print o ;; print_all rest
  end.

(** for i, doc in enumerate(docs): print(...) *)
Definition print_menu (docs : list doc) : M unit :=
  print_all (menu_entries 0 docs).

(** Lines 97-119 of the source: the interactive assignment.  The mapping
    dictionary is mutated in place by the source; here the dictionary
    after the call is returned next to the result. *)
Definition assign_interactively (stem : string) (docs : list doc)
    (mapping : gmap string string)
  : M (option string * gmap string string) :=
  print (OutUnrecognised stem) ;;
  print OutAvailable ;;
  print_menu docs ;;
  print OutSkipOption ;;
  let* line := input in
  let choice := Py.lower (Py.strip line) in
  if String.eqb choice "s" then ret (None, mapping)
  else
    match Py.int choice with
    | Some idx =>
        match Py.getitem docs idx with
        | Some d =>
            let mapping' := <[stem := doc_url d]> mapping in
            save_mapping mapping' ;;
            print (OutMapped stem (doc_url d)) ;;
            ret (Some (doc_document_id d), mapping')
        | None => print OutInvalidChoice ;; ret (None, mapping)
        end
    | None => print OutInvalidChoice ;; ret (None, mapping)
    end.

(** Lines 90-95 of the source, then the interactive assignment.  ([match]
    is a dictionary of four keys or None, so [if match] asks whether a
    candidate was found.) *)
Definition resolve_document (stem : string) (docs : list doc)
    (mapping : gmap string string)
  : M (option string * gmap string string) :=
  match mapping !! stem with
  | Some u =>
      match first_with_url u docs with
      | Some d => ret (Some (doc_document_id d), mapping)
      | None =>
          print (OutStaleWarning u) ;;
          assign_interactively stem docs mapping
      end
  | None => assign_interactively stem docs mapping
  end.

(** Path.glob("*.pdf") keeps the names that end in ".pdf". *)
Fixpoint ends_with (suffix s : string) : bool :=
  String.eqb s suffix
  || match s with
     | EmptyString => false
     | String _ s' => ends_with suffix s'
     end.

(** sorted(date_dir.glob("*.pdf")): paths of one folder compare by name. *)
Definition glob_pdfs (entries : list dir_entry) : list dir_entry :=
  merge_sort (fun a b => String.le (entry_name a) (entry_name b))
             (filter (fun e => ends_with ".pdf" (entry_name e)) entries).

(** name.rfind(".") *)
Fixpoint rfind_dot (s : string) : option nat :=
  match s with
  | EmptyString => None
  | String c s' =>
      match rfind_dot s' with
      | Some i => Some (S i)
      | None => if Ascii.eqb c "." then Some 0%nat else None
      end
  end.

(** Path.stem *)
Definition stem_of (name : string) : string :=
  match rfind_dot name with
  | Some i =>
      if ((0 <? i) && (i <? String.length name - 1))%nat
      then String.substring 0 i name else name
  | None => name
  end.

Record tally := Tally {
  inserted : nat;
  updated : nat;
  skipped : nat;
}.

Definition draw_uuid4 : M string :=
  let* w := get in
  modify (set_uuid_draws (S (w_uuid_draws w))) ;;
  ret (uuid4 (w_uuid_draws w)).

(** cur.execute(INSERT ... ON CONFLICT ...) and cur.fetchone() *)
Definition execute_upsert (row : capture_row) : M (string * bool) :=
  let* w := get in
  let '(rows, r) := Sql.upsert row (pending (w_db w)) in
  modify (set_db (set_pending rows (w_db w))) ;;
  ret r.

Definition commit : M unit :=
  modify (fun w => set_db (set_committed (pending (w_db w)) (w_db w)) w).

Definition rollback : M unit :=
  modify (fun w => set_db (set_pending (committed (w_db w)) (w_db w)) w).

(** conn.close() drops whatever the open transaction has not committed. *)
Definition close : M unit := rollback.

(** str(pdf.relative_to(Path.home())).replace("\\", "/") *)
Definition rel_path (a : args) (pdf : dir_entry) : string :=
  Py.replace_char "\" "/"
    (CAPTURES_BASE +:+ arg_site a +:+ "/" +:+ arg_date a +:+ "/"
     +:+ entry_name pdf).

(** The parameters of the INSERT, with the constants of its VALUES. *)
Definition new_row (id doc_id ts path hash_val : string) : capture_row :=
  CaptureRow id doc_id RESEARCHER_ID ts "pdf" 200 path hash_val None.

(** The world in which the resolver is called for a file. *)
Definition announced (a : args) (pdf : dir_entry) (w : world) : world :=
  set_stdout (w_stdout w ++ [OutProcessing (arg_dry_run a) (entry_name pdf)]) w.

(** The body of the loop over the PDFs (lines 181-232), from the mapping
    and the counters before the file to those after it. *)
Definition sync_file (a : args) (docs : list doc) (ts : string)
    (pdf : dir_entry) (st : gmap string string * tally)
  : M (gmap string string * tally) :=
  let '(mapping, t) := st in
  let stem := stem_of (entry_name pdf) in
  print (OutProcessing (arg_dry_run a) (entry_name pdf)) ;;
  let* (doc_id, mapping) := resolve_document stem docs mapping in
  if negb (Py.truthy doc_id) then
    print OutSkipped ;;
    ret (mapping, Tally (inserted t) (updated t) (S (skipped t)))
  else
    let doc_id := default EmptyString doc_id in
    let* hash_val := sha256 pdf in
    print (OutDetails doc_id hash_val (rel_path a pdf)) ;;
    if arg_dry_run a then
      ret (mapping, Tally (S (inserted t)) (updated t) (skipped t))
    else
      let* id := draw_uuid4 in
      let* (capture_id, was_inserted) :=
        execute_upsert (new_row id doc_id ts (rel_path a pdf) hash_val) in
      commit ;;
      if was_inserted : bool then
        print (OutInserted capture_id) ;;
        ret (mapping, Tally (S (inserted t)) (updated t) (skipped t))
      else
        print (OutUpdated capture_id) ;;
        ret (mapping, Tally (inserted t) (S (updated t)) (skipped t)).

(** for pdf in pdfs: ... *)
Fixpoint sync_files (a : args) (docs : list doc) (ts : string)
    (pdfs : list dir_entry) (st : gmap string string * tally)
  : M (gmap string string * tally) :=
  match pdfs with
  | [] => ret st
  | pdf :: rest =>
      let* st' := sync_file a docs ts pdf st in
      sync_files a docs ts rest st'
  end.

(** The try block of [main] (lines 167-232). *)
Definition main_try (a : args) (pdfs : list dir_entry) : M tally :=
  let* docs := get_site_documents (arg_site a) in
  let* mapping := load_mapping in
  match docs with
  | [] => print OutNoDocuments ;; raise (SystemExit 1)
  | _ =>
      let ts := arg_date a +:+ "T12:00:00+00:00" in
      let* (_, t) := sync_files a docs ts pdfs (mapping, Tally 0 0 0) in
      ret t
  end.

(** psycopg2.connect: a new session sees the committed rows only. *)
Definition connect : M unit := rollback.

(** Lines 138-164 of [main]: the checks of the environment and of the
    folder, the file list, the connection.  ([w_database_url] is what
    os.getenv returns; rewriting its scheme prefix does not change whether
    it is empty.) *)
Definition main_setup (a : args) : M (list dir_entry) :=
  let* w := get in
  match w_database_url w with
  | EmptyString => print OutNoDatabaseUrl ;; raise (SystemExit 1)
  | _ =>
      match w_date_dir w with
      | None => print OutFolderNotFound ;; raise (SystemExit 1)
      | Some entries =>
          match glob_pdfs entries with
          | [] => print OutNoPdfs ;; raise (SystemExit 0)
          | pdfs =>
              print (OutFound (length pdfs)) ;;
              (if arg_dry_run a then print OutDryRunBanner else ret tt) ;;
              connect ;;
              ret pdfs
          end
      end
  end.

(** except Exception as e: ... *)
Definition main_except (e : exn) : M tally :=
  rollback ;; print OutError ;; raise (SystemExit 1).

Definition main (a : args) : M unit :=
  let* pdfs := main_setup a in
  let* t := try_finally (try_except (main_try a pdfs) main_except) close in
  if arg_dry_run a
  then print (OutDrySummary (inserted t) (skipped t))
  else print (OutSummary (inserted t) (updated t) (skipped t)).

(** Running the script: the exit status of the process and the world it
    leaves.  An exception that reaches the top level ends the process
    with status 1. *)
Definition run (a : args) (w : world) : Z * world :=
  match main a w with
  | (Ok _, w') => (0, w')
  | (Raise (SystemExit code), w') => (code, w')
  | (Raise _, w') => (1, w')
  end.

(** The world once the open transaction is dropped. *)
Definition dropped (w : world) : world :=
  set_db (set_pending (committed (w_db w)) (w_db w)) w.

(** The world in which the try block starts, for a folder that holds
    PDFs. *)
Definition started (a : args) (pdfs : list dir_entry) (w : world) : world :=
  dropped
    (set_stdout
       (w_stdout w ++ OutFound (length pdfs)
          :: (if arg_dry_run a then [OutDryRunBanner] else []))
       w).

(** The last line of a completed run. *)
Definition summary (a : args) (t : tally) : output :=
  if arg_dry_run a then OutDrySummary (inserted t) (skipped t)
  else OutSummary (inserted t) (updated t) (skipped t).

(** The exit status an exception gives the process. *)
Definition exit_code (e : exn) : Z :=
  match e with
  | SystemExit code => code
  | _ => 1
  end.

End Script.

(* ===================================================================== *)
(** ** Notions used in the statements *)
(* ===================================================================== *)

Fixpoint str_all (P : ascii -> bool) (s : string) : bool :=
  match s with
  | EmptyString => true
  | String c s' => P c && str_all P s'
  end.

(** [str.isalpha] on one character, for code points below 256. *)
Definition isalpha (c : ascii) : bool :=
  let n := N_of_ascii c in
  ((65 <=? n) && (n <=? 90) || (97 <=? n) && (n <=? 122)
   || (n =? 170) || (n =? 181) || (n =? 186)
   || (192 <=? n) && (n <=? 214) || (216 <=? n) && (n <=? 246)
   || (248 <=? n))%N.

(** Everything [resolve_document] prints from "Unrecognised file" to the
    prompt. *)
Definition prompt_lines (stem : string) (docs : list doc) : list output :=
  [OutUnrecognised stem; OutAvailable] ++ menu_entries 0 docs
  ++ [OutSkipOption; OutPrompt].

Arguments prompt_lines : simpl never.

(** The number of capture rows stored for a (document, digest) pair. *)
Definition count_key (d h : string) (rows : list capture_row) : nat :=
  length (List.filter (fun r => String.eqb (c_document_id r) d
                                && String.eqb (content_hash r) h) rows).

(** The uniqueness constraint the ON CONFLICT clause names. *)
Definition unique_keys (rows : list capture_row) : Prop :=
  forall d h, (count_key d h rows <= 1)%nat.

(** The candidate the first lines of [resolve_document] find for a stem:
    the first one carrying the locator the stem is mapped to. *)
Definition fast_path (docs : list doc) (mapping : gmap string string)
    (stem : string) : option doc :=
  match mapping !! stem with
  | Some u => first_with_url u docs
  | None => None
  end.

(** The warning printed when the stem is mapped to a locator that no
    candidate carries. *)
Definition stale_warning (mapping : gmap string string) (stem : string)
  : list output :=
  match mapping !! stem with
  | Some u => [OutStaleWarning u]
  | None => []
  end.

(** The candidate a typed line selects, if any. *)
Definition selection (docs : list doc) (line : string) : option doc :=
  match Py.int (Py.lower (Py.strip line)) with
  | Some idx => Py.getitem docs idx
  | None => None
  end.

(** The file is resolved from mapping.json to a candidate whose identifier
    is not empty, and its bytes can be read. *)
Definition ready (docs : list doc) (mapping : gmap string string)
    (stem : string) (pdf : dir_entry) : bool :=
  match fast_path docs mapping stem, entry_bytes pdf with
  | Some d, Some _ => Py.truthy (Some (doc_document_id d))
  | _, _ => false
  end.

Section Notions.
Context `{Libs}.

(** The state of the table between two files: nothing is pending, and
    the constraint holds. *)
Definition settled (w : world) : Prop :=
  pending (w_db w) = committed (w_db w)
  /\ unique_keys (committed (w_db w)).

(** The file is resolved from mapping.json and readable, and the table
    [rows] holds a row for its document and digest. *)
Definition stored (docs : list doc) (mapping : gmap string string)
    (rows : list capture_row) (pdf : dir_entry) : Prop :=
  exists d bytes,
    fast_path docs mapping (stem_of (entry_name pdf)) = Some d
    /\ entry_bytes pdf = Some bytes
    /\ (1 <= count_key (doc_document_id d) (Py.upper (hexdigest bytes))
                       rows)%nat.

(** The same command line with the --dry-run flag set or cleared. *)
Definition with_dry_run (dry : bool) (a : args) : args :=
  Args (arg_site a) (arg_date a) dry.

(** Two worlds that offer the resolver the same: the same lines to read,
    the same mapping.json, the same catalog. *)
Definition same_io (w1 w2 : world) : Prop :=
  w_stdin w1 = w_stdin w2
  /\ w_mapping_file w1 = w_mapping_file w2
  /\ sites (w_db w1) = sites (w_db w2)
  /\ documents (w_db w1) = documents (w_db w2).

(** The counters of a dry run against those of the real run: the same
    skips, and one would-be insert per insert or update. *)
Definition tally_rel (t1 t2 : tally) : Prop :=
  skipped t1 = skipped t2
  /\ inserted t1 = (inserted t2 + updated t2)%nat.

(** A dry run and a real run end alike: with the same exception, or with
    the same dictionary and matching counters. *)
Definition agree {A} (rel : A -> A -> Prop)
    (x1 x2 : outcome A * world) : Prop :=
  same_io x1.2 x2.2
  /\ match x1.1, x2.1 with
     | Ok v1, Ok v2 => rel v1 v2
     | Raise e1, Raise e2 => e1 = e2
     | _, _ => False
     end.

End Notions.

(** A concrete instance of the libraries, to run the script on examples:
    a toy digest, identifiers id0, id1, ..., a loader that knows two
    files, and code-point order for the collation. *)
Definition demo_libs : Libs := {|
  hexdigest := fun bytes => "0a" +:+ bytes;
  uuid4 := fun n => "id" +:+ String (ascii_of_nat (48 + n)) EmptyString;
  json_loads := fun text =>
    if String.eqb text "{}" then Some ∅
    else if String.eqb text (mapping_text {[ "a" := "u1" ]})
    then Some {[ "a" := "u1" ]}
    else if String.eqb text
              (mapping_text (<[ "b" := "u2" ]> {[ "a" := "u1" ]}))
    then Some (<[ "b" := "u2" ]> {[ "a" := "u1" ]})
    else None;
  text_leb := String.leb;
|}.

(** Sample data for the examples. *)
Definition demo_docs : list doc :=
  [Doc "d1" "u1" (Some "North tower") (Some "plans");
   Doc "d2" "u2" None None].


(** A site with two documents, and a capture folder for it. *)
Definition demo_db (rows : list capture_row) : database :=
  Database
    [SiteRow "s1" (Some "Trans-Allegheny Lunatic Asylum")
             (Some "https://trans-alleghenylunaticasylum.com")]
    [DocumentRow "d2" "s1" "u2" None None;
     DocumentRow "d1" "s1" "u1" (Some "North tower") (Some "plans")]
    rows rows.

Definition demo_args (dry : bool) : args :=
  Args "trans-allegheny" "2026-02-16" dry.

(** The folder holds a.pdf and b.pdf (and a text file), mapping.json holds
    [mapping_file], and the user will type [lines]. *)
Definition sync_world (a b : option string) (mapping_file : option string)
    (rows : list capture_row) (lines : list string) : world :=
  World "postgres://localhost/asylum"
        (Some [DirEntry "b.pdf" b; DirEntry "notes.txt" None;
               DirEntry "a.pdf" a])
        mapping_file (demo_db rows) lines [] 0.

(** mapping.json with both stems mapped. *)
Definition both_mapped : option string :=
  Some (mapping_text (<[ "b" := "u2" ]> {[ "a" := "u1" ]})).

(** A world with an empty site folder and database, in which the user
    will type [lines]. *)
Definition demo_world (lines : list string) : world :=
  World "postgres://localhost/asylum" None None (Database [] [] [] [])
        lines [] 0.


(* ===================================================================== *)
(** ** Notions used in the further properties *)
(* ===================================================================== *)

(** [needle] occurs somewhere in [s]. *)
Definition occurs_in (needle s : string) : Prop :=
  exists pre post, s = pre +:+ needle +:+ post.

(** A character that stands for itself in a LIKE pattern. *)
Definition like_plain (c : ascii) : bool :=
  negb (Ascii.eqb c "%" || Ascii.eqb c "_" || Ascii.eqb c "\").

(** The digits of a hexadecimal digest, as hashlib prints them and as the
    script stores them. *)
Definition is_lower_hex (c : ascii) : bool :=
  let n := N_of_ascii c in
  ((48 <=? n) && (n <=? 57) || (97 <=? n) && (n <=? 102))%N.

Definition is_upper_hex (c : ascii) : bool :=
  let n := N_of_ascii c in
  ((48 <=? n) && (n <=? 57) || (65 <=? n) && (n <=? 70))%N.

(** The columns of a capture row that the ON CONFLICT clause leaves as
    they are: all but [file_path] and [capture_ts]. *)
Definition fixed_columns (r : capture_row)
  : string * string * string * string * Z * string * option string :=
  (capture_id r, c_document_id r, captured_by r, kind r, http_status r,
   content_hash r, notes r).





(** The stems of the files a run processes. *)
Definition stems (pdfs : list dir_entry) : list string :=
  map (fun pdf => stem_of (entry_name pdf)) pdfs.


(** What the conflict branch of the upsert of [new] makes of a row of the
    table. *)
Definition touch (new r : capture_row) : capture_row :=
  if Sql.conflicts new r then Sql.do_update new r else r.

(** What the upserts of [news], in order, make of a row that is in the
    table throughout. *)
Definition touches (news : list capture_row) (r : capture_row) : capture_row :=
  fold_left (fun r new => touch new r) news r.

(** The table after the upserts of [news], in order. *)
Definition upserts (news rows : list capture_row) : list capture_row :=
  fold_left (fun rows new => (Sql.upsert new rows).1) news rows.

(** Two rows offered to the upsert with the same parameters, but for the
    identifier drawn for them. *)
Definition same_request (u u' : capture_row) : Prop :=
  c_document_id u = c_document_id u' /\ content_hash u = content_hash u'
  /\ file_path u = file_path u' /\ capture_ts u = capture_ts u'.

Section Requests.
Context `{Libs}.

(** The row [u] carries the parameters the loop passes to the INSERT for
    the file [pdf], when mapping.json resolves it and it can be read. *)
Definition request_for (a : args) (docs : list doc)
    (mapping : gmap string string) (ts : string) (pdf : dir_entry)
    (u : capture_row) : Prop :=
  exists d bytes,
    fast_path docs mapping (stem_of (entry_name pdf)) = Some d
    /\ entry_bytes pdf = Some bytes
    /\ c_document_id u = doc_document_id d
    /\ content_hash u = Py.upper (hexdigest bytes)
    /\ file_path u = rel_path a pdf
    /\ capture_ts u = ts.

End Requests.

(** Reading a field of a world that was written field by field. *)
Ltac world_simpl :=
  cbn [w_database_url w_date_dir w_mapping_file w_db w_stdin w_stdout
       w_uuid_draws set_mapping_file set_db set_stdin set_stdout
       set_uuid_draws set_pending set_committed
       sites documents committed pending] in *.

(* ===================================================================== *)
(** ** Facts about the built-ins *)
(* ===================================================================== *)

Example int_of_minus_one : Py.int "-1" = Some (-1).
Proof. reflexivity. Qed.

Example int_with_underscore : Py.int " 1_0 " = Some 10.
Proof. reflexivity. Qed.

Example int_of_letters : Py.int "abc" = None.
Proof. reflexivity. Qed.

Example strip_then_lower : Py.lower (Py.strip "  S ") = "s".
Proof. reflexivity. Qed.

Example getitem_past_the_end : Py.getitem [10; 20; 30] 3 = None.
Proof. reflexivity. Qed.

Example getitem_from_the_end : Py.getitem [10; 20; 30] (-3) = Some 10.
Proof. reflexivity. Qed.

Example stem_of_pdf : stem_of "north-tower.v2.pdf" = "north-tower.v2".
Proof. reflexivity. Qed.

Example ilike_site_url :
  Sql.ilike "https://Trans-AlleghenyLunaticAsylum.com" "%trans-allegheny%"
  = true.
Proof. reflexivity. Qed.

Example ilike_site_name :
  Sql.ilike "Trans-Allegheny Lunatic Asylum" "%trans allegheny%" = false.
Proof. reflexivity. Qed.

Lemma str_all_lstrip P s : str_all P s = true -> str_all P (Py.lstrip s) = true.
Proof.
  induction s as [|c s IH]; simpl; [done|].
  intros [Hc Hs]%andb_prop.
  destruct (Py.isspace c); [auto|]. simpl. by rewrite Hc, Hs.
Qed.

Lemma str_all_rstrip P s : str_all P s = true -> str_all P (Py.rstrip s) = true.
Proof.
  induction s as [|c s IH]; simpl; [done|].
  intros [Hc Hs]%andb_prop. specialize (IH Hs).
  destruct (Py.rstrip s) as [|c' r].
  - destruct (Py.isspace c); simpl; [done|]. by rewrite Hc.
  - change (P c && str_all P (String c' r) = true). by rewrite Hc, IH.
Qed.

Lemma str_all_strip P s : str_all P s = true -> str_all P (Py.strip s) = true.
Proof. intros. by apply str_all_rstrip, str_all_lstrip. Qed.

Lemma isalpha_not_digit c : isalpha c = true -> Py.digit_value c = None.
Proof. destruct c as [[] [] [] [] [] [] [] []]; by vm_compute. Qed.

Lemma isalpha_not_sign c : isalpha c = true -> c <> "+"%char /\ c <> "-"%char.
Proof. destruct c as [[] [] [] [] [] [] [] []]; by vm_compute. Qed.

(** A string that starts with no digit is not an integer literal body. *)
Lemma int_digits_no_leading_digit acc n s :
  match s with
  | EmptyString => True
  | String c _ => Py.digit_value c = None
  end ->
  Py.int_digits false acc n s = None.
Proof.
  destruct s as [|c s]; simpl; [done|]. intros ->.
  by rewrite andb_false_r.
Qed.

(** [int] raises ValueError on every string of letters. *)
Lemma int_letters_ValueError s : str_all isalpha s = true -> Py.int s = None.
Proof.
  intros Hs%(str_all_strip isalpha). unfold Py.int.
  destruct (Py.strip s) as [|c t]; [done|].
  simpl in Hs. apply andb_prop in Hs as [Hc Ht].
  destruct (isalpha_not_sign c Hc) as [Hplus Hminus].
  assert (Hd : Py.int_digits false 0 0 (String c t) = None).
  { apply int_digits_no_leading_digit. by apply isalpha_not_digit. }
  destruct c as [[] [] [] [] [] [] [] []]; try done; by rewrite Hd.
Qed.

(** Python's negative indices: [-1] is the last element. *)
Lemma getitem_minus_one {A} (l : list A) : Py.getitem l (-1) = last l.
Proof.
  unfold Py.getitem. destruct l as [|x l] using rev_ind; [done|].
  rewrite last_snoc, length_app. simpl.
  replace (-1 <? 0) with true by done.
  replace (-1 + Z.of_nat (length l + 1)) with (Z.of_nat (length l)) by lia.
  destruct (Z.ltb_spec (Z.of_nat (length l)) 0); [lia|].
  destruct (Z.leb_spec (Z.of_nat (length l + 1)) (Z.of_nat (length l))); [lia|].
  simpl. rewrite Nat2Z.id. by rewrite list_lookup_middle.
Qed.

(** An index the valid range does not contain, on either side of zero,
    raises IndexError. *)
Lemma getitem_out_of_range {A} (l : list A) i :
  i < - Z.of_nat (length l) \/ Z.of_nat (length l) <= i ->
  Py.getitem l i = None.
Proof.
  intros Hi. unfold Py.getitem.
  destruct (Z.ltb_spec i 0).
  - destruct (Z.ltb_spec (i + Z.of_nat (length l)) 0); [done|lia].
  - destruct (Z.ltb_spec i 0); [lia|].
    destruct (Z.leb_spec (Z.of_nat (length l)) i); [done|lia].
Qed.

Lemma getitem_in_range {A} (l : list A) i :
  0 <= i < Z.of_nat (length l) -> Py.getitem l i = l !! Z.to_nat i.
Proof.
  intros Hi. unfold Py.getitem.
  destruct (Z.ltb_spec i 0); [lia|].
  destruct (Z.ltb_spec i 0); [lia|].
  destruct (Z.leb_spec (Z.of_nat (length l)) i); [lia|done].
Qed.

Lemma getitem_elem_of {A} (l : list A) i x : Py.getitem l i = Some x -> In x l.
Proof.
  unfold Py.getitem.
  destruct (_ || _); [done|]. intros Hx.
  apply list_elem_of_In. eapply list_elem_of_lookup_2, Hx.
Qed.

(* ===================================================================== *)
(** ** The mapping store and the resolver, step by step *)
(* ===================================================================== *)

Section ResolverFacts.
Context `{Libs}.

Local Arguments save_mapping : simpl never.

Lemma print_all_run lines w :
  print_all lines w = (Ok tt, set_stdout (w_stdout w ++ lines) w).
Proof.
  revert w. induction lines as [|o lines IH]; intros [] ; cbn [print_all].
  - unfold ret, set_stdout. simpl. by rewrite app_nil_r.
  - unfold bind, print, modify. simpl. rewrite IH.
    unfold set_stdout. simpl. by rewrite <- app_assoc.
Qed.

Local Arguments print_all : simpl never.

Lemma write_chunks_text chunks acc :
  fold_left apply_file_op (map Write chunks) (Some acc)
  = Some (fold_left String.append chunks acc).
Proof.
  revert acc. induction chunks as [|c chunks IH]; intros acc; simpl; [done|].
  apply IH.
Qed.

(** A completed save leaves exactly the new text, whatever was there. *)
Lemma save_mapping_text mapping file :
  run_file_ops (save_mapping_ops mapping) file = Some (mapping_text mapping).
Proof. unfold run_file_ops, save_mapping_ops. simpl. apply write_chunks_text. Qed.

Lemma save_mapping_run mapping w :
  save_mapping mapping w
  = (Ok tt,
     set_stdout (w_stdout w ++ [OutMappingSaved])
       (set_mapping_file (Some (mapping_text mapping)) w)).
Proof.
  destruct w. unfold save_mapping, bind, modify, print.
  by rewrite save_mapping_text.
Qed.

Lemma assign_interactively_eof stem docs mapping w :
  w_stdin w = [] ->
  assign_interactively stem docs mapping w
  = (Raise EOFError, set_stdout (w_stdout w ++ prompt_lines stem docs) w).
Proof.
  destruct w as [a b c d i o n]. simpl. intros ->.
  unfold assign_interactively, print_menu, input, bind, print, modify, get.
  simpl. rewrite print_all_run. simpl.
  unfold raise, set_stdout, prompt_lines. simpl.
  by rewrite <- !app_assoc.
Qed.

Lemma assign_interactively_line stem docs mapping w line rest :
  w_stdin w = line :: rest ->
  assign_interactively stem docs mapping w
  = let w1 := set_stdin rest
                (set_stdout (w_stdout w ++ prompt_lines stem docs) w) in
    let choice := Py.lower (Py.strip line) in
    if String.eqb choice "s" then (Ok (None, mapping), w1)
    else
      match selection docs line with
      | Some d =>
          (Ok (Some (doc_document_id d), <[stem := doc_url d]> mapping),
           set_stdout
             (w_stdout w1 ++ [OutMappingSaved; OutMapped stem (doc_url d)])
             (set_mapping_file
                (Some (mapping_text (<[stem := doc_url d]> mapping))) w1))
      | None =>
          (Ok (None, mapping),
           set_stdout (w_stdout w1 ++ [OutInvalidChoice]) w1)
      end.
Proof.
  destruct w as [a b c d i o n]. simpl. intros ->.
  unfold assign_interactively, print_menu, input, bind, print, modify, get.
  simpl. rewrite print_all_run. simpl.
  assert (Ho : ((((o ++ [OutUnrecognised stem]) ++ [OutAvailable])
                 ++ menu_entries 0 docs) ++ [OutSkipOption]) ++ [OutPrompt]
               = o ++ prompt_lines stem docs).
  { unfold prompt_lines. by rewrite <- !app_assoc. }
  rewrite Ho.
  destruct (String.eqb _ "s"); [done|].
  unfold selection. destruct (Py.int _) as [idx|]; simpl; [|done].
  destruct (Py.getitem docs idx) as [d'|]; simpl; [|done].
  unfold run_file_ops. rewrite write_chunks_text.
  fold (mapping_text (<[stem := doc_url d']> mapping)).
  unfold ret. simpl. by rewrite <- !app_assoc.
Qed.

Lemma last_prompt_lines (out : list output) stem docs :
  last (out ++ prompt_lines stem docs) = Some OutPrompt.
Proof.
  unfold prompt_lines.
  change [OutSkipOption; OutPrompt] with ([OutSkipOption] ++ [OutPrompt]).
  rewrite !app_assoc. apply last_snoc.
Qed.

Lemma resolve_document_fast stem docs mapping d w :
  fast_path docs mapping stem = Some d ->
  resolve_document stem docs mapping w
  = (Ok (Some (doc_document_id d), mapping), w).
Proof.
  unfold fast_path, resolve_document.
  destruct (mapping !! stem) as [u|]; [|done]. by intros ->.
Qed.

Lemma resolve_document_prompt stem docs mapping w :
  fast_path docs mapping stem = None ->
  resolve_document stem docs mapping w
  = assign_interactively stem docs mapping
      (set_stdout (w_stdout w ++ stale_warning mapping stem) w).
Proof.
  unfold fast_path, resolve_document, stale_warning.
  destruct (mapping !! stem) as [u|].
  - by intros ->.
  - intros _. destruct w. unfold set_stdout. simpl. by rewrite app_nil_r.
Qed.


Lemma first_with_url_None u docs :
  first_with_url u docs = None <-> Forall (fun d => doc_url d <> u) docs.
Proof.
  unfold first_with_url. induction docs as [|d0 docs IH]; simpl.
  - split; [constructor|done].
  - destruct (String.eqb_spec (doc_url d0) u) as [Heq|Hne].
    + split; [done|]. by inversion 1.
    + rewrite IH. split; [by constructor|by inversion 1].
Qed.


End ResolverFacts.

(* ===================================================================== *)
(** ** The resolver *)
(* ===================================================================== *)

Section Resolver.
Context `{Libs}.

(** A line that selects nothing is answered by "Invalid choice": the
    result is the skip outcome and neither the dictionary nor
    mapping.json changes. *)
Lemma invalid_choice_skips stem docs mapping w line rest :
  fast_path docs mapping stem = None ->
  w_stdin w = line :: rest ->
  Py.lower (Py.strip line) <> "s" ->
  selection docs line = None ->
  exists w',
    resolve_document stem docs mapping w = (Ok (None, mapping), w')
    /\ w_mapping_file w' = w_mapping_file w
    /\ last (w_stdout w') = Some OutInvalidChoice.
Proof.
  intros Hfast Hin Hs Hsel.
  rewrite resolve_document_prompt by done.
  erewrite assign_interactively_line by (destruct w; exact Hin).
  cbv zeta. apply String.eqb_neq in Hs. rewrite Hs, Hsel.
  eexists. split; [done|]. destruct w. simpl. split; [done|].
  apply last_snoc.
Qed.

(** A line that is not an integer literal selects nothing, and neither
    does an integer outside [-len(docs), len(docs)). *)
Lemma selection_out_of_range docs line i :
  Py.int (Py.lower (Py.strip line)) = Some i ->
  i < - Z.of_nat (length docs) \/ Z.of_nat (length docs) <= i ->
  selection docs line = None.
Proof.
  intros Hi Hr. unfold selection. rewrite Hi. by apply getitem_out_of_range.
Qed.

(** The integers from [-len(docs)] to [-1] select from the end of the
    list: "-1" is the last candidate. *)
Lemma selection_minus_one docs : selection docs "-1" = last docs.
Proof. unfold selection. apply getitem_minus_one. Qed.

End Resolver.

(** C2 (the code departs from the claim): the response "-1" is an integer
    outside [0, len(candidates)), yet [resolve_document] does not skip: it
    assigns the stem to the last candidate, changes the dictionary and
    rewrites mapping.json. *)
Theorem negative_index_is_accepted :
  exists m' w',
    resolve_document "scan" demo_docs ∅ (demo_world ["-1"])
    = (Ok (Some "d2", m'), w')
    /\ (∅ : gmap string string) !! "scan" = None
    /\ m' !! "scan" = Some "u2"
    /\ w_mapping_file (demo_world ["-1"]) = None
    /\ w_mapping_file w' = Some (mapping_text m')
    /\ In OutMappingSaved (w_stdout w').
Proof.
  rewrite resolve_document_prompt by reflexivity.
  erewrite assign_interactively_line by reflexivity.
  cbv zeta.
  replace (String.eqb (Py.lower (Py.strip "-1")) "s") with false by reflexivity.
  rewrite selection_minus_one. simpl last.
  do 2 eexists. split; [reflexivity|]. simpl.
  split; [apply lookup_empty|]. split; [apply lookup_insert_eq|].
  split; [done|]. split; [done|]. apply in_or_app. right. by left.
Qed.

Section ResolverClaims.
Context `{Libs}.

(** C10: at the prompt, a line whose stripped, lower-cased form is "s"
    (for instance "S" or " s ") is the skip signal: the resolver returns
    the skip outcome, prints nothing after the prompt and leaves the
    dictionary and mapping.json as they were.  Any other string of
    letters is not a skip by letter: it is answered by "Invalid choice"
    (and then skipped, again without touching the mapping). *)
Theorem skip_signal_is_trimmed_and_case_folded
    stem docs mapping w line rest :
  fast_path docs mapping stem = None ->
  w_stdin w = line :: rest ->
  (Py.lower (Py.strip line) = "s" ->
   exists w',
     resolve_document stem docs mapping w = (Ok (None, mapping), w')
     /\ w_mapping_file w' = w_mapping_file w
     /\ last (w_stdout w') = Some OutPrompt)
  /\ (Py.lower (Py.strip line) <> "s" ->
      str_all isalpha (Py.lower (Py.strip line)) = true ->
      exists w',
        resolve_document stem docs mapping w = (Ok (None, mapping), w')
        /\ w_mapping_file w' = w_mapping_file w
        /\ last (w_stdout w') = Some OutInvalidChoice).
Proof.
  intros Hfast Hin. split.
  - intros Hs.
    rewrite resolve_document_prompt by done.
    erewrite assign_interactively_line by (destruct w; exact Hin).
    cbv zeta. rewrite Hs. simpl.
    eexists. split; [done|]. destruct w. simpl. split; [done|].
    apply last_prompt_lines.
  - intros Hs Hletters.
    apply invalid_choice_skips with (line := line) (rest := rest); try done.
    unfold selection. by rewrite int_letters_ValueError.
Qed.


End ResolverClaims.

Lemma skip_signal_witness :
  (exists w',
     resolve_document "scan" demo_docs ∅ (demo_world [" S "])
     = (Ok (None, ∅), w')
     /\ w_mapping_file w' = None
     /\ last (w_stdout w') = Some OutPrompt)
  /\ (exists w',
        resolve_document "scan" demo_docs ∅
          (demo_world ["Skip"])
        = (Ok (None, ∅), w')
        /\ w_mapping_file w' = None
        /\ last (w_stdout w') = Some OutInvalidChoice).
Proof.
  split.
  - apply (skip_signal_is_trimmed_and_case_folded
             "scan" demo_docs ∅ (demo_world [" S "]) " S " []);
      reflexivity.
  - apply (skip_signal_is_trimmed_and_case_folded
             "scan" demo_docs ∅ (demo_world ["Skip"]) "Skip" []);
      [reflexivity | reflexivity | discriminate | reflexivity].
Defined.


Section MappedStem.
Context `{Libs}.

Lemma first_with_url_of_candidate docs D :
  In D docs -> exists d, first_with_url (doc_url D) docs = Some d.
Proof.
  intros Hin. destruct (first_with_url (doc_url D) docs) as [d|] eqn:Hf.
  - by exists d.
  - apply first_with_url_None in Hf. rewrite Forall_forall in Hf.
    by destruct (Hf D (proj2 (list_elem_of_In _ _) Hin)).
Qed.


End MappedStem.



(* ===================================================================== *)
(** ** The upsert *)
(* ===================================================================== *)

Lemma upsert_inserted new rows rows' id :
  Sql.upsert new rows = (rows', (id, true)) ->
  Forall (fun r => Sql.conflicts new r = false) rows
  /\ rows' = rows ++ [new] /\ id = capture_id new.
Proof.
  revert rows'. induction rows as [|old rows IH]; intros rows'; simpl.
  - intros [= <- <-]. by repeat split.
  - destruct (Sql.conflicts new old) eqn:Hc; [done|].
    destruct (Sql.upsert new rows) as [rest' [id' ins]].
    intros [= <- <- ->]. destruct (IH _ eq_refl) as (Hall & -> & ->).
    split; [by constructor|done].
Qed.

Lemma upsert_updated new rows rows' id :
  Sql.upsert new rows = (rows', (id, false)) ->
  exists pre old post,
    rows = pre ++ old :: post
    /\ Forall (fun r => Sql.conflicts new r = false) pre
    /\ Sql.conflicts new old = true
    /\ rows' = pre ++ Sql.do_update new old :: post
    /\ id = capture_id old.
Proof.
  revert rows'. induction rows as [|old rows IH]; intros rows'; simpl; [done|].
  destruct (Sql.conflicts new old) eqn:Hc.
  - intros [= <- <-]. exists [], old, rows. by repeat split.
  - destruct (Sql.upsert new rows) as [rest' [id' ins]].
    intros [= <- <- ->].
    destruct (IH _ eq_refl) as (pre & o & post & -> & Hpre & Ho & -> & ->).
    exists (old :: pre), o, post.
    split; [done|]. split; [by constructor|done].
Qed.

Lemma upsert_indicator new rows :
  (Sql.upsert new rows).2.2 = negb (existsb (Sql.conflicts new) rows).
Proof.
  induction rows as [|old rows IH]; simpl; [done|].
  destruct (Sql.conflicts new old); [done|].
  by destruct (Sql.upsert new rows) as [rest' [id' ins]].
Qed.

(** C6: when the row to insert conflicts with a stored row on (document,
    digest), the statement rewrites that row's path and timestamp and
    nothing else: its identifier, actor, kind, status, digest and notes,
    and all other rows, stay as they were; without a conflict the new row
    is added.  The returned flag is true exactly in the second case, and
    the returned identifier is that of the row written. *)
Theorem upsert_conflict_updates_path_and_timestamp new rows :
  let '(rows', (id, was_inserted)) := Sql.upsert new rows in
  was_inserted = negb (existsb (Sql.conflicts new) rows)
  /\ (was_inserted = true -> rows' = rows ++ [new] /\ id = capture_id new)
  /\ (was_inserted = false ->
      exists pre old post row,
        rows = pre ++ old :: post
        /\ c_document_id old = c_document_id new
        /\ content_hash old = content_hash new
        /\ rows' = pre ++ row :: post
        /\ id = capture_id old
        /\ capture_id row = capture_id old
        /\ file_path row = file_path new
        /\ capture_ts row = capture_ts new
        /\ c_document_id row = c_document_id old
        /\ content_hash row = content_hash old
        /\ captured_by row = captured_by old
        /\ kind row = kind old
        /\ http_status row = http_status old
        /\ notes row = notes old).
Proof.
  pose proof (upsert_indicator new rows) as Hind.
  destruct (Sql.upsert new rows) as [rows' [id ins]] eqn:Hup.
  simpl in Hind. split; [done|]. split.
  - intros ->. by destruct (upsert_inserted _ _ _ _ Hup) as (_ & ? & ?).
  - intros ->.
    destruct (upsert_updated _ _ _ _ Hup)
      as (pre & old & post & -> & _ & Hc & -> & ->).
    exists pre, old, post, (Sql.do_update new old).
    unfold Sql.conflicts in Hc. apply andb_prop in Hc as [Hd Hh].
    apply String.eqb_eq in Hd, Hh. by repeat split.
Qed.

(* ===================================================================== *)
(** ** The mapping store *)
(* ===================================================================== *)

Section MappingStore.
Context `{Libs}.

Local Instance key_le_trans :
  Transitive (fun a b : string * string => String.le a.1 b.1).
Proof. intros a b c. apply (transitivity (R := String.le)). Qed.

Local Instance key_le_total :
  Total (fun a b : string * string => String.le a.1 b.1).
Proof. intros a b. apply (total String.le). Qed.

(** The items are written in ascending order of their keys, and they are
    the entries of the dictionary, each once. *)
Lemma sorted_items_sorted mapping :
  StronglySorted (fun a b => String.le a.1 b.1) (Json.sorted_items mapping).
Proof. apply StronglySorted_merge_sort; apply _. Qed.

Lemma sorted_items_entries mapping k v :
  In (k, v) (Json.sorted_items mapping) <-> mapping !! k = Some v.
Proof.
  unfold Json.sorted_items.
  rewrite <- list_elem_of_In, merge_sort_Permutation.
  apply elem_of_map_to_list.
Qed.

Lemma sorted_items_NoDup mapping : NoDup (Json.sorted_items mapping).
Proof.
  unfold Json.sorted_items. rewrite merge_sort_Permutation.
  apply NoDup_map_to_list.
Qed.

(** The file after the first [k] writes of a save, [k] at least 1: the
    chunks written so far, and nothing of what the file held. *)
Lemma interrupted_save_text mapping file k :
  run_file_ops (take (S k) (save_mapping_ops mapping)) file
  = Some (fold_left String.append (take k (Json.chunks mapping)) EmptyString).
Proof.
  unfold run_file_ops, save_mapping_ops. simpl.
  rewrite <- (fmap_take Write). apply write_chunks_text.
Qed.

Lemma save_mapping_interrupted_run k mapping w :
  save_mapping_interrupted k mapping w
  = (Raise OSError,
     set_mapping_file
       (run_file_ops (take k (save_mapping_ops mapping)) (w_mapping_file w))
       w).
Proof. done. Qed.

(** C8 (as amended): a completed save leaves in mapping.json the text of
    the whole table and nothing of the prior content, with the entries
    in ascending key order, each once.  The save is not atomic: opening
    the file empties it and the text then arrives chunk by chunk, so a
    save cut short after the file was opened leaves only the chunks
    written so far (possibly none), whatever the file held before; the
    prior content survives only if the failure precedes the opening. *)
Theorem save_overwrites_sorted_but_not_atomically mapping file :
  run_file_ops (save_mapping_ops mapping) file = Some (mapping_text mapping)
  /\ (forall w,
        w_mapping_file w = file ->
        exists w',
          save_mapping mapping w = (Ok tt, w')
          /\ w_mapping_file w' = Some (mapping_text mapping))
  /\ StronglySorted (fun a b => String.le a.1 b.1) (Json.sorted_items mapping)
  /\ NoDup (Json.sorted_items mapping)
  /\ (forall k v, In (k, v) (Json.sorted_items mapping) <-> mapping !! k = Some v)
  /\ run_file_ops (take 0 (save_mapping_ops mapping)) file = file
  /\ (forall k,
        run_file_ops (take (S k) (save_mapping_ops mapping)) file
        = Some (fold_left String.append (take k (Json.chunks mapping))
                          EmptyString))
  /\ (forall k w,
        w_mapping_file w = file ->
        exists w',
          save_mapping_interrupted (S k) mapping w = (Raise OSError, w')
          /\ w_mapping_file w'
             = Some (fold_left String.append (take k (Json.chunks mapping))
                               EmptyString)).
Proof.
  split; [apply save_mapping_text|].
  split.
  { intros w _. rewrite save_mapping_run. eexists. split; [done|].
    by destruct w. }
  split; [apply sorted_items_sorted|].
  split; [apply sorted_items_NoDup|].
  split; [apply sorted_items_entries|].
  split; [done|].
  split; [intros k; apply interrupted_save_text|].
  intros k w <-. rewrite save_mapping_interrupted_run.
  eexists. split; [done|]. destruct w. world_simpl.
  apply interrupted_save_text.
Qed.

End MappingStore.

(** C8 (as stated) fails: a save of two entries over a file that holds the
    first of them, cut short right after the file was opened, leaves an
    empty file: neither the new text nor the prior one. *)
Lemma save_is_not_atomic_counterexample :
  let prior := Some (mapping_text {[ "a" := "u1" ]}) in
  let table : gmap string string := <[ "b" := "u2" ]> {[ "a" := "u1" ]} in
  let after := run_file_ops (take 1 (save_mapping_ops table)) prior in
  after = Some EmptyString
  /\ ~ (after = Some (mapping_text table) \/ after = prior).
Proof.
  cbv zeta. split; [reflexivity|].
  change (run_file_ops (take 1 (save_mapping_ops _)) _) with (Some EmptyString).
  intros [Hnew|Hold].
  - vm_compute in Hnew. discriminate.
  - vm_compute in Hold. discriminate.
Qed.

(* ===================================================================== *)
(** ** The loop over the files, step by step *)
(* ===================================================================== *)

Section LoopFacts.
Context `{Libs}.

Lemma bind_Ok {A B} (c : M A) (k : A -> M B) w a w' :
  c w = (Ok a, w') -> bind c k w = k a w'.
Proof. unfold bind. by intros ->. Qed.

Lemma bind_Raise {A B} (c : M A) (k : A -> M B) w e w' :
  c w = (Raise e, w') -> bind c k w = (Raise e, w').
Proof. unfold bind. by intros ->. Qed.

Lemma print_run o w :
  print o w = (Ok tt, set_stdout (w_stdout w ++ [o]) w).
Proof. done. Qed.

Lemma sync_file_resolve_raises a docs ts pdf m t w e w1 :
  resolve_document (stem_of (entry_name pdf)) docs m (announced a pdf w)
  = (Raise e, w1) ->
  sync_file a docs ts pdf (m, t) w = (Raise e, w1).
Proof.
  intros Hres. unfold sync_file. cbv beta iota zeta.
  erewrite bind_Ok by apply print_run.
  by erewrite bind_Raise by exact Hres.
Qed.

Lemma sync_file_skipped a docs ts pdf m t w r m1 w1 :
  resolve_document (stem_of (entry_name pdf)) docs m (announced a pdf w)
  = (Ok (r, m1), w1) ->
  Py.truthy r = false ->
  sync_file a docs ts pdf (m, t) w
  = (Ok (m1, Tally (inserted t) (updated t) (S (skipped t))),
     set_stdout (w_stdout w1 ++ [OutSkipped]) w1).
Proof.
  intros Hres Hr. unfold sync_file. cbv beta iota zeta.
  erewrite bind_Ok by apply print_run.
  erewrite bind_Ok by exact Hres.
  cbv beta iota. rewrite Hr. cbn [negb]. cbv iota.
  by erewrite bind_Ok by apply print_run.
Qed.

Lemma sync_file_unreadable a docs ts pdf m t w r m1 w1 :
  resolve_document (stem_of (entry_name pdf)) docs m (announced a pdf w)
  = (Ok (r, m1), w1) ->
  Py.truthy r = true ->
  entry_bytes pdf = None ->
  sync_file a docs ts pdf (m, t) w = (Raise OSError, w1).
Proof.
  intros Hres Hr Hbytes. unfold sync_file. cbv beta iota zeta.
  erewrite bind_Ok by apply print_run.
  erewrite bind_Ok by exact Hres.
  cbv beta iota. rewrite Hr. cbn [negb]. cbv iota.
  unfold sha256. rewrite Hbytes. done.
Qed.

Lemma sync_file_dry_run a docs ts pdf m t w r m1 w1 bytes :
  resolve_document (stem_of (entry_name pdf)) docs m (announced a pdf w)
  = (Ok (r, m1), w1) ->
  Py.truthy r = true ->
  entry_bytes pdf = Some bytes ->
  arg_dry_run a = true ->
  sync_file a docs ts pdf (m, t) w
  = (Ok (m1, Tally (S (inserted t)) (updated t) (skipped t)),
     set_stdout
       (w_stdout w1
        ++ [OutDetails (default EmptyString r)
              (Py.upper (hexdigest bytes)) (rel_path a pdf)])
       w1).
Proof.
  intros Hres Hr Hbytes Hdry. unfold sync_file. cbv beta iota zeta.
  erewrite bind_Ok by apply print_run.
  erewrite bind_Ok by exact Hres.
  cbv beta iota. rewrite Hr. cbn [negb]. cbv iota.
  unfold sha256. rewrite Hbytes.
  erewrite bind_Ok by reflexivity.
  erewrite bind_Ok by apply print_run.
  by rewrite Hdry.
Qed.

Lemma sync_file_upsert a docs ts pdf m t w r m1 w1 bytes rows cid ins :
  resolve_document (stem_of (entry_name pdf)) docs m (announced a pdf w)
  = (Ok (r, m1), w1) ->
  Py.truthy r = true ->
  entry_bytes pdf = Some bytes ->
  arg_dry_run a = false ->
  Sql.upsert
    (new_row (uuid4 (w_uuid_draws w1)) (default EmptyString r) ts
             (rel_path a pdf) (Py.upper (hexdigest bytes)))
    (pending (w_db w1))
  = (rows, (cid, ins)) ->
  sync_file a docs ts pdf (m, t) w
  = (Ok (m1, if ins then Tally (S (inserted t)) (updated t) (skipped t)
             else Tally (inserted t) (S (updated t)) (skipped t)),
     World (w_database_url w1) (w_date_dir w1) (w_mapping_file w1)
           (Database (sites (w_db w1)) (documents (w_db w1)) rows rows)
           (w_stdin w1)
           (w_stdout w1
            ++ [OutDetails (default EmptyString r)
                  (Py.upper (hexdigest bytes)) (rel_path a pdf);
                if ins then OutInserted cid else OutUpdated cid])
           (S (w_uuid_draws w1))).
Proof.
  intros Hres Hr Hbytes Hdry Hup. unfold sync_file. cbv beta iota zeta.
  erewrite bind_Ok by apply print_run.
  erewrite bind_Ok by exact Hres.
  cbv beta iota. rewrite Hr. cbn [negb]. cbv iota.
  unfold sha256. rewrite Hbytes.
  erewrite bind_Ok by reflexivity.
  erewrite bind_Ok by apply print_run.
  rewrite Hdry.
  erewrite bind_Ok by reflexivity.
  unfold execute_upsert.
  destruct w1 as [u dd mf db i o n]. simpl in Hup.
  unfold bind, get, modify, commit, print, ret. simpl. rewrite Hup. simpl.
  destruct ins; simpl; unfold set_stdout; simpl;
    by rewrite <- app_assoc.
Qed.

(** What the resolver leaves alone. *)
Lemma resolve_document_frame stem docs m w r w' :
  resolve_document stem docs m w = (r, w') ->
  w_db w' = w_db w /\ w_uuid_draws w' = w_uuid_draws w
  /\ w_date_dir w' = w_date_dir w /\ w_database_url w' = w_database_url w.
Proof.
  destruct (fast_path docs m stem) as [d|] eqn:Hfast.
  - rewrite (resolve_document_fast _ _ _ d) by done. by intros [= <- <-].
  - rewrite resolve_document_prompt by done.
    destruct (w_stdin w) as [|line rest] eqn:Hin.
    + rewrite assign_interactively_eof by (by destruct w).
      intros [= <- <-]. by destruct w.
    + erewrite assign_interactively_line by (destruct w; exact Hin).
      cbv zeta. destruct (String.eqb _ "s").
      { intros [= <- <-]. by destruct w. }
      destruct (selection docs line); intros [= <- <-]; by destruct w.
Qed.

End LoopFacts.

(* ===================================================================== *)
(** ** The uniqueness constraint under the upsert *)
(* ===================================================================== *)

Lemma upsert_count d h new rows :
  count_key d h (Sql.upsert new rows).1
  = (count_key d h rows
     + if (Sql.upsert new rows).2.2
          && String.eqb (c_document_id new) d && String.eqb (content_hash new) h
       then 1 else 0)%nat.
Proof.
  unfold count_key. induction rows as [|old rows IH]; simpl.
  - by destruct (String.eqb (c_document_id new) d && String.eqb (content_hash new) h).
  - destruct (Sql.conflicts new old) eqn:Hc; simpl.
    + destruct (String.eqb (c_document_id old) d && String.eqb (content_hash old) h);
        simpl; lia.
    + destruct (Sql.upsert new rows) as [rest' [id' ins]]. simpl in *.
      destruct (String.eqb (c_document_id old) d && String.eqb (content_hash old) h);
        simpl; by rewrite IH.
Qed.

Lemma count_key_conflicts new rows :
  count_key (c_document_id new) (content_hash new) rows
  = length (List.filter (Sql.conflicts new) rows).
Proof. done. Qed.

(** The flag is true exactly when no stored row has the key. *)
Lemma upsert_inserted_iff new rows :
  (Sql.upsert new rows).2.2 = true
  <-> count_key (c_document_id new) (content_hash new) rows = 0%nat.
Proof.
  rewrite upsert_indicator, count_key_conflicts.
  induction rows as [|old rows IH]; simpl; [done|].
  destruct (Sql.conflicts new old); simpl; [done|apply IH].
Qed.

Lemma upsert_length new rows :
  length (Sql.upsert new rows).1
  = (length rows + if (Sql.upsert new rows).2.2 then 1 else 0)%nat.
Proof.
  induction rows as [|old rows IH]; simpl; [done|].
  destruct (Sql.conflicts new old); simpl; [lia|].
  destruct (Sql.upsert new rows) as [rest' [id' ins]]. simpl in *. lia.
Qed.

(** The upsert keeps the constraint, and afterwards the key is stored. *)
Lemma upsert_unique new rows :
  unique_keys rows -> unique_keys (Sql.upsert new rows).1.
Proof.
  intros Hu d h. rewrite upsert_count. specialize (Hu d h).
  destruct ((Sql.upsert new rows).2.2) eqn:Hins; simpl; [|lia].
  destruct (String.eqb_spec (c_document_id new) d) as [<-|]; simpl; [|lia].
  destruct (String.eqb_spec (content_hash new) h) as [<-|]; simpl; [|lia].
  apply upsert_inserted_iff in Hins. lia.
Qed.

Lemma upsert_stores_key new rows :
  (1 <= count_key (c_document_id new) (content_hash new)
          (Sql.upsert new rows).1)%nat.
Proof.
  rewrite upsert_count, !String.eqb_refl, !andb_true_r.
  destruct ((Sql.upsert new rows).2.2) eqn:Hins; [lia|].
  assert (count_key (c_document_id new) (content_hash new) rows <> 0%nat).
  { intros Hz%upsert_inserted_iff. congruence. }
  lia.
Qed.

Lemma upsert_keeps_keys d h new rows :
  (count_key d h rows <= count_key d h (Sql.upsert new rows).1)%nat.
Proof. rewrite upsert_count. lia. Qed.

(* ===================================================================== *)
(** ** A run, step by step *)
(* ===================================================================== *)

Section RunFacts.
Context `{Libs}.

Lemma main_setup_ok a w entries :
  w_database_url w <> EmptyString ->
  w_date_dir w = Some entries ->
  glob_pdfs entries <> [] ->
  main_setup a w = (Ok (glob_pdfs entries), started a (glob_pdfs entries) w).
Proof.
  intros Hurl Hdir Hpdfs. unfold main_setup, bind, get.
  destruct w as [u dd mf db i o n]. simpl in *. subst dd.
  destruct u as [|c u]; [done|].
  destruct (glob_pdfs entries) as [|pdf pdfs] eqn:Hglob; [done|].
  unfold started, dropped, print, modify, connect, rollback, ret.
  destruct (arg_dry_run a); simpl; unfold set_stdout, set_db; simpl;
    by rewrite <- ?app_assoc.
Qed.

(** Whatever [main_setup] does, it writes nothing but console lines and
    drops nothing that was committed. *)
Lemma main_setup_frame a w r w0 :
  main_setup a w = (r, w0) ->
  committed (w_db w0) = committed (w_db w)
  /\ sites (w_db w0) = sites (w_db w)
  /\ documents (w_db w0) = documents (w_db w)
  /\ w_mapping_file w0 = w_mapping_file w
  /\ w_stdin w0 = w_stdin w
  /\ w_uuid_draws w0 = w_uuid_draws w
  /\ w_date_dir w0 = w_date_dir w
  /\ w_database_url w0 = w_database_url w
  /\ match r with
     | Ok pdfs =>
         pending (w_db w0) = committed (w_db w)
         /\ exists entries,
              w_date_dir w = Some entries /\ pdfs = glob_pdfs entries
              /\ pdfs <> []
              /\ w_stdout w0
                 = w_stdout w ++ OutFound (length pdfs)
                     :: (if arg_dry_run a then [OutDryRunBanner] else [])
     | Raise e => exists code, e = SystemExit code
     end.
Proof.
  unfold main_setup, bind, get.
  destruct w as [u dd mf db i o n]. simpl.
  destruct u as [|c u].
  { intros [= <- <-]. simpl. repeat split; eauto. }
  destruct dd as [entries|].
  2:{ intros [= <- <-]. simpl. repeat split; eauto. }
  destruct (glob_pdfs entries) as [|pdf pdfs] eqn:Hglob.
  { intros [= <- <-]. simpl. repeat split; eauto. }
  unfold print, modify, connect, rollback, ret.
  destruct (arg_dry_run a); simpl; intros [= <- <-]; simpl;
    repeat split; try done; exists entries; rewrite Hglob;
    repeat split; try done; by rewrite <- ?app_assoc.
Qed.

Lemma main_try_eq a pdfs w0 :
  main_try a pdfs w0
  = match read_mapping (w_mapping_file w0) with
    | None => (Raise JSONDecodeError, w0)
    | Some m =>
        match catalog (w_db w0) (arg_site a) with
        | [] => (Raise (SystemExit 1),
                 set_stdout (w_stdout w0 ++ [OutNoDocuments]) w0)
        | docs =>
            match sync_files a docs (arg_date a +:+ "T12:00:00+00:00")
                    pdfs (m, Tally 0 0 0) w0 with
            | (Ok st, w1) => (Ok st.2, w1)
            | (Raise e, w1) => (Raise e, w1)
            end
        end
    end.
Proof.
  unfold main_try, get_site_documents, load_mapping, bind, get, ret.
  destruct (read_mapping (w_mapping_file w0)) as [m|]; [|done].
  destruct (catalog (w_db w0) (arg_site a)) as [|d docs]; [done|].
  destruct (sync_files _ _ _ _ _ _) as [[[m' t]|e] w1]; done.
Qed.

Lemma run_setup_fails a w e w0 :
  main_setup a w = (Raise e, w0) -> run a w = (exit_code e, w0).
Proof.
  intros Hs. unfold run, main. erewrite bind_Raise by exact Hs.
  by destruct e.
Qed.

Lemma run_completes a w pdfs w0 t w1 :
  main_setup a w = (Ok pdfs, w0) ->
  main_try a pdfs w0 = (Ok t, w1) ->
  run a w
  = (0, set_stdout (w_stdout w1 ++ [summary a t]) (dropped w1)).
Proof.
  intros Hs Ht. unfold run, main. erewrite bind_Ok by exact Hs.
  unfold try_finally, try_except, bind. rewrite Ht.
  unfold close, rollback, modify, summary, dropped.
  destruct (arg_dry_run a); done.
Qed.

Lemma run_exception a w pdfs w0 e w1 :
  main_setup a w = (Ok pdfs, w0) ->
  main_try a pdfs w0 = (Raise e, w1) ->
  is_Exception e = true ->
  run a w = (1, set_stdout (w_stdout w1 ++ [OutError]) (dropped w1)).
Proof.
  intros Hs Ht He. unfold run, main. erewrite bind_Ok by exact Hs.
  unfold try_finally, try_except, bind. rewrite Ht, He.
  unfold main_except, close, rollback, modify, dropped, bind, print, raise.
  by destruct w1 as [u dd mf [] i o n].
Qed.

Lemma run_exit a w pdfs w0 code w1 :
  main_setup a w = (Ok pdfs, w0) ->
  main_try a pdfs w0 = (Raise (SystemExit code), w1) ->
  run a w = (code, dropped w1).
Proof.
  intros Hs Ht. unfold run, main. erewrite bind_Ok by exact Hs.
  unfold try_finally, try_except, bind. rewrite Ht. done.
Qed.

Lemma sync_files_app a docs ts pre post st w :
  sync_files a docs ts (pre ++ post) st w
  = match sync_files a docs ts pre st w with
    | (Ok st', w') => sync_files a docs ts post st' w'
    | (Raise e, w') => (Raise e, w')
    end.
Proof.
  revert st w. induction pre as [|pdf pre IH]; intros st w; simpl; [done|].
  unfold bind. destruct (sync_file a docs ts pdf st w) as [[st'|e] w']; [|done].
  apply IH.
Qed.

End RunFacts.

(* ===================================================================== *)
(** ** What a file, and a whole loop, can do to the world *)
(* ===================================================================== *)

Section LoopInvariants.
Context `{Libs}.

(** The loop body in closed form, from the answer of the resolver. *)
Lemma sync_file_cases a docs ts pdf m t w :
  exists r0 w1,
    resolve_document (stem_of (entry_name pdf)) docs m (announced a pdf w)
    = (r0, w1)
    /\ sync_file a docs ts pdf (m, t) w
       = match r0 with
         | Raise e => (Raise e, w1)
         | Ok (r, m1) =>
             if Py.truthy r then
               match entry_bytes pdf with
               | None => (Raise OSError, w1)
               | Some bytes =>
                   let details :=
                     OutDetails (default EmptyString r)
                       (Py.upper (hexdigest bytes)) (rel_path a pdf) in
                   if arg_dry_run a then
                     (Ok (m1, Tally (S (inserted t)) (updated t) (skipped t)),
                      set_stdout (w_stdout w1 ++ [details]) w1)
                   else
                     let '(rows, (cid, ins)) :=
                       Sql.upsert
                         (new_row (uuid4 (w_uuid_draws w1))
                            (default EmptyString r) ts (rel_path a pdf)
                            (Py.upper (hexdigest bytes)))
                         (pending (w_db w1)) in
                     (Ok (m1,
                          if ins
                          then Tally (S (inserted t)) (updated t) (skipped t)
                          else Tally (inserted t) (S (updated t)) (skipped t)),
                      World (w_database_url w1) (w_date_dir w1)
                        (w_mapping_file w1)
                        (Database (sites (w_db w1)) (documents (w_db w1))
                                  rows rows)
                        (w_stdin w1)
                        (w_stdout w1
                         ++ [details;
                             if ins then OutInserted cid else OutUpdated cid])
                        (S (w_uuid_draws w1)))
               end
             else
               (Ok (m1, Tally (inserted t) (updated t) (S (skipped t))),
                set_stdout (w_stdout w1 ++ [OutSkipped]) w1)
         end.
Proof.
  destruct (resolve_document (stem_of (entry_name pdf)) docs m
              (announced a pdf w)) as [[[r m1]|e] w1] eqn:Hres.
  2:{ exists (Raise e), w1. split; [done|].
      by apply sync_file_resolve_raises. }
  exists (Ok (r, m1)), w1. split; [done|].
  destruct (Py.truthy r) eqn:Hr.
  2:{ exact (sync_file_skipped a docs ts pdf m t w r m1 w1 Hres Hr). }
  destruct (entry_bytes pdf) as [bytes|] eqn:Hbytes.
  2:{ exact (sync_file_unreadable a docs ts pdf m t w r m1 w1 Hres Hr Hbytes). }
  destruct (arg_dry_run a) eqn:Hdry.
  { exact (sync_file_dry_run a docs ts pdf m t w r m1 w1 bytes
             Hres Hr Hbytes Hdry). }
  cbv zeta.
  destruct (Sql.upsert _ (pending (w_db w1))) as [rows [cid ins]] eqn:Hup.
  exact (sync_file_upsert a docs ts pdf m t w r m1 w1 bytes rows cid ins
           Hres Hr Hbytes Hdry Hup).
Qed.

(** A file either leaves the database alone or runs one upsert and
    commits it; it never touches the catalog tables or the folder. *)
Lemma sync_file_db a docs ts pdf st w r w' :
  sync_file a docs ts pdf st w = (r, w') ->
  sites (w_db w') = sites (w_db w)
  /\ documents (w_db w') = documents (w_db w)
  /\ w_date_dir w' = w_date_dir w
  /\ w_database_url w' = w_database_url w
  /\ (w_db w' = w_db w /\ w_uuid_draws w' = w_uuid_draws w
      \/ arg_dry_run a = false
         /\ exists new,
              pending (w_db w') = (Sql.upsert new (pending (w_db w))).1
              /\ committed (w_db w') = pending (w_db w')).
Proof.
  destruct st as [m t].
  destruct (sync_file_cases a docs ts pdf m t w) as (r0 & w1 & Hres & ->).
  apply resolve_document_frame in Hres as (Hdb & Hn & Hdir & Hurl).
  assert (Hdb0 : w_db w1 = w_db w) by (by destruct w).
  assert (Hn0 : w_uuid_draws w1 = w_uuid_draws w) by (by destruct w).
  assert (Hdir0 : w_date_dir w1 = w_date_dir w) by (by destruct w).
  assert (Hurl0 : w_database_url w1 = w_database_url w) by (by destruct w).
  clear Hdb Hn Hdir Hurl.
  destruct r0 as [[r1 m1]|e].
  2:{ intros [= <- <-]. rewrite Hdb0. auto 10. }
  destruct (Py.truthy r1).
  2:{ intros [= <- <-]. destruct w1; simpl in *. subst. auto 10. }
  destruct (entry_bytes pdf) as [bytes|].
  2:{ intros [= <- <-]. rewrite Hdb0. auto 10. }
  destruct (arg_dry_run a).
  { intros [= <- <-]. destruct w1; simpl in *. subst. auto 10. }
  cbv zeta.
  destruct (Sql.upsert _ (pending (w_db w1))) as [rows [cid ins]] eqn:Hup.
  intros [= <- <-]. simpl. rewrite <- Hdb0.
  repeat split; try done. right. split; [done|].
  eexists. by rewrite Hup.
Qed.

Lemma sync_file_settled a docs ts pdf st w r w' :
  sync_file a docs ts pdf st w = (r, w') -> settled w -> settled w'.
Proof.
  unfold settled. intros Hf [Hpc Hu].
  apply sync_file_db in Hf as (_ & _ & _ & _ & [[Hdb _]|(_ & new & Hp & Hc)]).
  - by rewrite Hdb.
  - rewrite Hc, Hp. split; [done|]. apply upsert_unique. by rewrite Hpc.
Qed.

Lemma sync_files_settled a docs ts pdfs st w r w' :
  sync_files a docs ts pdfs st w = (r, w') -> settled w -> settled w'.
Proof.
  revert st w. induction pdfs as [|pdf pdfs IH]; intros st w; simpl.
  - by intros [= <- <-].
  - unfold bind.
    destruct (sync_file a docs ts pdf st w) as [[st'|e] w1] eqn:Hf.
    + intros Hrest Hs. eapply IH; [exact Hrest|].
      by eapply sync_file_settled.
    + intros [= <- <-] Hs. by eapply sync_file_settled.
Qed.

Lemma sync_files_catalog a docs ts pdfs st w r w' :
  sync_files a docs ts pdfs st w = (r, w') ->
  sites (w_db w') = sites (w_db w)
  /\ documents (w_db w') = documents (w_db w)
  /\ w_date_dir w' = w_date_dir w
  /\ w_database_url w' = w_database_url w.
Proof.
  revert st w. induction pdfs as [|pdf pdfs IH]; intros st w; simpl.
  - by intros [= <- <-].
  - unfold bind.
    destruct (sync_file a docs ts pdf st w) as [[st'|e] w1] eqn:Hf.
    + intros (-> & -> & -> & ->)%IH.
      by apply sync_file_db in Hf as (? & ? & ? & ? & _).
    + intros [= <- <-].
      by apply sync_file_db in Hf as (? & ? & ? & ? & _).
Qed.

End LoopInvariants.

(* ===================================================================== *)
(** ** Files that are resolved from mapping.json *)
(* ===================================================================== *)

Section ReadyFiles.
Context `{Libs}.

Lemma ready_inv docs m stem pdf :
  ready docs m stem pdf = true ->
  exists d bytes,
    fast_path docs m stem = Some d /\ entry_bytes pdf = Some bytes
    /\ Py.truthy (Some (doc_document_id d)) = true.
Proof.
  unfold ready. destruct (fast_path docs m stem) as [d|]; [|done].
  destruct (entry_bytes pdf) as [bytes|]; [|done]. eauto.
Qed.

(** A ready file in a dry run: two console lines and one more would-be
    insert. *)
Lemma sync_file_ready_dry a docs ts pdf m t w d bytes :
  fast_path docs m (stem_of (entry_name pdf)) = Some d ->
  entry_bytes pdf = Some bytes ->
  Py.truthy (Some (doc_document_id d)) = true ->
  arg_dry_run a = true ->
  sync_file a docs ts pdf (m, t) w
  = (Ok (m, Tally (S (inserted t)) (updated t) (skipped t)),
     set_stdout
       (w_stdout w
        ++ [OutProcessing true (entry_name pdf);
            OutDetails (doc_document_id d) (Py.upper (hexdigest bytes))
                       (rel_path a pdf)])
       w).
Proof.
  intros Hfast Hbytes Hid Hdry.
  rewrite (sync_file_dry_run a docs ts pdf m t w
             (Some (doc_document_id d)) m (announced a pdf w) bytes);
    [|by apply resolve_document_fast|done..].
  unfold announced. rewrite Hdry. destruct w. world_simpl. simpl default.
  by rewrite <- app_assoc.
Qed.

(** A ready file in a real run: one upsert, committed. *)
Lemma sync_file_ready_real a docs ts pdf m t w d bytes rows cid ins :
  fast_path docs m (stem_of (entry_name pdf)) = Some d ->
  entry_bytes pdf = Some bytes ->
  Py.truthy (Some (doc_document_id d)) = true ->
  arg_dry_run a = false ->
  Sql.upsert
    (new_row (uuid4 (w_uuid_draws w)) (doc_document_id d) ts
             (rel_path a pdf) (Py.upper (hexdigest bytes)))
    (pending (w_db w))
  = (rows, (cid, ins)) ->
  sync_file a docs ts pdf (m, t) w
  = (Ok (m, if ins then Tally (S (inserted t)) (updated t) (skipped t)
            else Tally (inserted t) (S (updated t)) (skipped t)),
     World (w_database_url w) (w_date_dir w) (w_mapping_file w)
           (Database (sites (w_db w)) (documents (w_db w)) rows rows)
           (w_stdin w)
           (w_stdout w
            ++ [OutProcessing false (entry_name pdf);
                OutDetails (doc_document_id d) (Py.upper (hexdigest bytes))
                           (rel_path a pdf);
                if ins then OutInserted cid else OutUpdated cid])
           (S (w_uuid_draws w))).
Proof.
  intros Hfast Hbytes Hid Hdry Hup.
  rewrite (sync_file_upsert a docs ts pdf m t w
             (Some (doc_document_id d)) m (announced a pdf w) bytes
             rows cid ins);
    [|by apply resolve_document_fast|done|done|done|exact Hup].
  unfold announced. rewrite Hdry. destruct w. world_simpl. simpl default.
  by rewrite <- app_assoc.
Qed.

Lemma sync_files_ready_dry a docs ts pdfs m t w :
  arg_dry_run a = true ->
  forallb (fun pdf => ready docs m (stem_of (entry_name pdf)) pdf) pdfs = true ->
  exists w',
    sync_files a docs ts pdfs (m, t) w
    = (Ok (m, Tally (inserted t + length pdfs) (updated t) (skipped t)), w')
    /\ w_mapping_file w' = w_mapping_file w
    /\ w_stdin w' = w_stdin w.
Proof.
  intros Hdry. revert t w.
  induction pdfs as [|pdf pdfs IH]; intros t w Hall; cbn [sync_files length].
  - exists w. rewrite Nat.add_0_r. by destruct t.
  - simpl in Hall. apply andb_prop in Hall as [Hpdf Hall].
    apply ready_inv in Hpdf as (d & bytes & Hfast & Hbytes & Hid).
    unfold bind. erewrite sync_file_ready_dry by done.
    destruct (IH (Tally (S (inserted t)) (updated t) (skipped t))
                (set_stdout
                   (w_stdout w
                    ++ [OutProcessing true (entry_name pdf);
                        OutDetails (doc_document_id d)
                          (Py.upper (hexdigest bytes)) (rel_path a pdf)])
                   w) Hall)
      as (w' & -> & Hfile & Hin).
    exists w'. simpl inserted. simpl updated. simpl skipped.
    replace (S (inserted t) + length pdfs)%nat
      with (inserted t + S (length pdfs))%nat by lia.
    split; [done|]. by destruct w.
Qed.

(** A real run over ready files: every file is upserted and committed;
    nothing is skipped; the table grows by the number of inserts; every
    key stays and every file's key is stored afterwards; and no file whose
    key was stored before is inserted. *)
Lemma sync_files_ready_real a docs ts pdfs m t w :
  arg_dry_run a = false ->
  pending (w_db w) = committed (w_db w) ->
  forallb (fun pdf => ready docs m (stem_of (entry_name pdf)) pdf) pdfs = true ->
  exists t' w',
    sync_files a docs ts pdfs (m, t) w = (Ok (m, t'), w')
    /\ skipped t' = skipped t
    /\ (inserted t' + updated t' = inserted t + updated t + length pdfs)%nat
    /\ (length (pending (w_db w')) + inserted t
        = length (pending (w_db w)) + inserted t')%nat
    /\ pending (w_db w') = committed (w_db w')
    /\ (forall d h, count_key d h (pending (w_db w))
                    <= count_key d h (pending (w_db w')))%nat
    /\ Forall (stored docs m (pending (w_db w'))) pdfs
    /\ (Forall (stored docs m (pending (w_db w))) pdfs ->
        inserted t' = inserted t)
    /\ w_mapping_file w' = w_mapping_file w
    /\ w_stdin w' = w_stdin w.
Proof.
  intros Hdry. revert t w.
  induction pdfs as [|pdf pdfs IH]; intros t w Hpc Hall;
    cbn [sync_files length].
  - exists t, w. split; [done|]. split; [done|]. split; [lia|].
    split; [lia|]. split; [done|]. split; [done|]. split; [constructor|done].
  - simpl in Hall. apply andb_prop in Hall as [Hpdf Hall].
    apply ready_inv in Hpdf as (d & bytes & Hfast & Hbytes & Hid).
    set (row := new_row (uuid4 (w_uuid_draws w)) (doc_document_id d) ts
                  (rel_path a pdf) (Py.upper (hexdigest bytes))).
    pose proof (upsert_length row (pending (w_db w))) as Hlen.
    pose proof (upsert_stores_key row (pending (w_db w))) as Hkey.
    pose proof (fun d h => upsert_keeps_keys d h row (pending (w_db w))) as Hmono.
    pose proof (upsert_inserted_iff row (pending (w_db w))) as Hins.
    destruct (Sql.upsert row (pending (w_db w))) as [rows [cid ins]] eqn:Hup.
    simpl in Hlen, Hkey, Hmono, Hins.
    unfold bind. erewrite sync_file_ready_real by done.
    match goal with
    | |- context [sync_files a docs ts pdfs (m, ?t1) ?w1] =>
        destruct (IH t1 w1 eq_refl Hall)
          as (t' & w' & -> & Hsk & Hcount & Hl & Hpc' & Hm & Hst & Hno
              & Hfile & Hin)
    end.
    world_simpl.
    exists t', w'. split; [done|].
    split; [by destruct ins|].
    split; [destruct ins; simpl in *; lia|].
    split; [destruct ins; simpl in *; lia|].
    split; [done|].
    split; [intros d0 h0; etrans; [apply Hmono|apply Hm]|].
    split.
    { constructor; [|done]. exists d, bytes.
      split; [done|]. split; [done|]. etrans; [exact Hkey|apply Hm]. }
    split; [|done].
    intros Hstored. apply Forall_cons in Hstored as [Hhd Htl].
    destruct Hhd as (d0 & bytes0 & Hfast0 & Hbytes0 & Hc0).
    assert (d0 = d) as -> by congruence.
    assert (bytes0 = bytes) as -> by congruence.
    assert (ins = false) as ->.
    { destruct ins; [|done]. apply proj1 in Hins. specialize (Hins eq_refl).
      simpl in Hins. lia. }
    simpl in Hno. apply Hno.
    eapply Forall_impl; [exact Htl|].
    intros pdf' (d' & b' & ? & ? & ?). exists d', b'.
    split; [done|]. split; [done|]. etrans; [done|apply Hmono].
Qed.

End ReadyFiles.

(* ===================================================================== *)
(** ** Whole runs *)
(* ===================================================================== *)

Section Runs.
Context `{Libs}.

(** The outcomes of a run, from those of its parts. *)
Lemma run_cases a w :
  (exists e w0, main_setup a w = (Raise e, w0) /\ run a w = (exit_code e, w0))
  \/ (exists pdfs w0 r w1,
        main_setup a w = (Ok pdfs, w0)
        /\ main_try a pdfs w0 = (r, w1)
        /\ match r with
           | Ok t =>
               run a w
               = (0, set_stdout (w_stdout w1 ++ [summary a t]) (dropped w1))
           | Raise (SystemExit code) => run a w = (code, dropped w1)
           | Raise _ =>
               run a w
               = (1, set_stdout (w_stdout w1 ++ [OutError]) (dropped w1))
           end).
Proof.
  destruct (main_setup a w) as [[pdfs|e] w0] eqn:Hs.
  2:{ left. exists e, w0. split; [done|]. by apply run_setup_fails. }
  right. destruct (main_try a pdfs w0) as [[t|e] w1] eqn:Ht.
  - exists pdfs, w0, (Ok t), w1. split; [done|]. split; [done|].
    by eapply run_completes.
  - exists pdfs, w0, (Raise e), w1. split; [done|]. split; [done|].
    destruct e; try (by eapply run_exception). by eapply run_exit.
Qed.

Lemma catalog_ext db db' site :
  sites db' = sites db -> documents db' = documents db ->
  catalog db' site = catalog db site.
Proof.
  intros Hs Hd. unfold catalog, fetchall, select_documents. by rewrite Hs, Hd.
Qed.

Lemma main_try_settled a pdfs w0 r w1 :
  main_try a pdfs w0 = (r, w1) -> settled w0 -> settled w1.
Proof.
  rewrite main_try_eq.
  destruct (read_mapping (w_mapping_file w0)) as [m|].
  2:{ by intros [= <- <-]. }
  destruct (catalog (w_db w0) (arg_site a)) as [|d docs].
  { intros [= <- <-]. by destruct w0. }
  destruct (sync_files _ _ _ _ _ _) as [[st|e] w'] eqn:Hsync.
  - intros [= <- <-]. by eapply sync_files_settled.
  - intros [= <- <-]. by eapply sync_files_settled.
Qed.

(** Whatever the run does, it leaves the uniqueness constraint in force. *)
Lemma run_unique a w :
  unique_keys (committed (w_db w)) ->
  unique_keys (committed (w_db (run a w).2)).
Proof.
  intros Hu.
  destruct (run_cases a w)
    as [(e & w0 & Hs & ->)|(pdfs & w0 & r & w1 & Hs & Ht & Hrun)].
  - apply main_setup_frame in Hs as (Hc & _). simpl. by rewrite Hc.
  - apply main_setup_frame in Hs as (Hc & _ & _ & _ & _ & _ & _ & _ & Hp & _).
    assert (Hw1 : settled w1).
    { eapply main_try_settled; [exact Ht|]. split; [congruence|].
      by rewrite Hc. }
    destruct Hw1 as [_ Hu1].
    destruct r as [t|[]]; rewrite Hrun; by destruct w1 as [? ? ? [] ? ? ?].
Qed.

(** A real run over a folder whose files are all ready. *)
Lemma run_ready_real a w entries mapping :
  arg_dry_run a = false ->
  w_database_url w <> EmptyString ->
  w_date_dir w = Some entries ->
  glob_pdfs entries <> [] ->
  read_mapping (w_mapping_file w) = Some mapping ->
  forallb (fun pdf => ready (catalog (w_db w) (arg_site a)) mapping
                        (stem_of (entry_name pdf)) pdf)
          (glob_pdfs entries) = true ->
  exists t w',
    run a w = (0, w')
    /\ skipped t = 0%nat
    /\ (inserted t + updated t = length (glob_pdfs entries))%nat
    /\ last (w_stdout w')
       = Some (OutSummary (inserted t) (updated t) (skipped t))
    /\ (length (committed (w_db w'))
        = length (committed (w_db w)) + inserted t)%nat
    /\ Forall (stored (catalog (w_db w) (arg_site a)) mapping
                 (committed (w_db w')))
              (glob_pdfs entries)
    /\ (Forall (stored (catalog (w_db w) (arg_site a)) mapping
                  (committed (w_db w)))
               (glob_pdfs entries) ->
        inserted t = 0%nat)
    /\ w_database_url w' = w_database_url w
    /\ w_date_dir w' = w_date_dir w
    /\ w_mapping_file w' = w_mapping_file w
    /\ sites (w_db w') = sites (w_db w)
    /\ documents (w_db w') = documents (w_db w).
Proof.
  intros Hdry Hurl Hdir Hpdfs Hmap Hready.
  set (pdfs := glob_pdfs entries) in *.
  set (docs := catalog (w_db w) (arg_site a)) in *.
  pose proof (main_setup_ok a w entries Hurl Hdir Hpdfs) as Hs. fold pdfs in Hs.
  set (w0 := started a pdfs w) in *.
  assert (Hfile0 : w_mapping_file w0 = w_mapping_file w) by (by destruct w).
  assert (Hdocs0 : catalog (w_db w0) (arg_site a) = docs).
  { apply catalog_ext; by destruct w as [? ? ? [] ? ? ?]. }
  assert (Hpc0 : pending (w_db w0) = committed (w_db w0))
    by (by destruct w as [? ? ? [] ? ? ?]).
  assert (Hc0 : committed (w_db w0) = committed (w_db w))
    by (by destruct w as [? ? ? [] ? ? ?]).
  assert (Hdocs : docs <> []).
  { destruct pdfs as [|pdf rest]; [done|]. simpl in Hready.
    apply andb_prop in Hready as [Hr _].
    apply ready_inv in Hr as (d & _ & Hfast & _).
    unfold fast_path in Hfast. destruct (mapping !! _); [|done].
    intros Hnil. rewrite Hnil in Hfast. done. }
  destruct (sync_files_ready_real a docs
              (arg_date a +:+ "T12:00:00+00:00") pdfs mapping (Tally 0 0 0)
              w0 Hdry Hpc0 Hready)
    as (t & w1 & Hsync & Hsk & Hcount & Hlen & Hpc1 & Hmono & Hst & Hno
        & Hfile1 & Hin1).
  assert (Ht : main_try a pdfs w0 = (Ok t, w1)).
  { rewrite main_try_eq, Hfile0, Hmap, Hdocs0.
    destruct docs as [|d0 docs']; [done|]. by rewrite Hsync. }
  pose proof (sync_files_catalog _ _ _ _ _ _ _ _ Hsync)
    as (Hsites & Hdocuments & Hdir1 & Hurl1).
  exists t, (set_stdout (w_stdout w1 ++ [summary a t]) (dropped w1)).
  split; [by eapply run_completes|].
  cbn [inserted updated skipped] in Hsk, Hcount, Hlen.
  split; [done|]. split; [lia|].
  split.
  { destruct w1. world_simpl. rewrite last_snoc. unfold summary.
    by rewrite Hdry. }
  assert (Hcw : committed
                  (w_db (set_stdout (w_stdout w1 ++ [summary a t]) (dropped w1)))
                = pending (w_db w1)).
  { destruct w1 as [? ? ? [] ? ? ?]. world_simpl. by simpl in Hpc1. }
  rewrite Hcw.
  split; [rewrite Hpc0, Hc0 in Hlen; lia|].
  split; [done|].
  split; [intros Hstored; apply Hno; by rewrite Hpc0, Hc0|].
  destruct w1 as [? ? ? [] ? ? ?], w as [? ? ? [] ? ? ?].
  world_simpl. simpl in *. by subst.
Qed.

End Runs.

(** C1: the runs keep at most one capture row per (document, digest) pair,
    whatever they are given; and when the sync is run twice over the same
    folder, with every stem mapped to a candidate and every file readable,
    the second run inserts nothing: it reports 0 inserted, every file as
    updated and none skipped, and the table has as many rows after it as
    before it. *)
Theorem second_run_inserts_nothing `{Libs} :
  (forall a w,
      unique_keys (committed (w_db w)) ->
      unique_keys (committed (w_db (run a w).2)))
  /\ (forall a w entries mapping,
        arg_dry_run a = false ->
        w_database_url w <> EmptyString ->
        w_date_dir w = Some entries ->
        glob_pdfs entries <> [] ->
        read_mapping (w_mapping_file w) = Some mapping ->
        forallb (fun pdf => ready (catalog (w_db w) (arg_site a)) mapping
                              (stem_of (entry_name pdf)) pdf)
                (glob_pdfs entries) = true ->
        exists w1 w2,
          run a w = (0, w1) /\ run a w1 = (0, w2)
          /\ w_date_dir w1 = w_date_dir w
          /\ w_mapping_file w1 = w_mapping_file w
          /\ last (w_stdout w2)
             = Some (OutSummary 0 (length (glob_pdfs entries)) 0)
          /\ length (committed (w_db w2)) = length (committed (w_db w1))).
Proof.
  split; [apply run_unique|].
  intros a w entries mapping Hdry Hurl Hdir Hpdfs Hmap Hready.
  destruct (run_ready_real a w entries mapping Hdry Hurl Hdir Hpdfs Hmap Hready)
    as (t1 & w1 & Hrun1 & _ & _ & _ & _ & Hstored & _
        & Hurl1 & Hdir1 & Hfile1 & Hsites1 & Hdocs1).
  assert (Hcat : catalog (w_db w1) (arg_site a) = catalog (w_db w) (arg_site a))
    by (by apply catalog_ext).
  destruct (run_ready_real a w1 entries mapping) as
    (t2 & w2 & Hrun2 & Hsk & Hcount & Hlast & Hlen & _ & Hno & _);
    [done|congruence|congruence|done|congruence|by rewrite Hcat|].
  rewrite Hcat in Hno. specialize (Hno Hstored).
  exists w1, w2. split; [done|]. split; [done|]. split; [done|].
  split; [done|]. split; [|lia].
  rewrite Hlast. f_equal. f_equal; lia.
Qed.

Lemma second_run_witness :
  exists w1 w2,
    run (H := demo_libs) (demo_args false)
        (sync_world (Some "x") (Some "y") both_mapped [] [])
    = (0, w1)
    /\ run (H := demo_libs) (demo_args false) w1 = (0, w2)
    /\ w_date_dir w1
       = w_date_dir (sync_world (Some "x") (Some "y") both_mapped [] [])
    /\ w_mapping_file w1 = both_mapped
    /\ last (w_stdout w2) = Some (OutSummary 0 2 0)
    /\ length (committed (w_db w2)) = length (committed (w_db w1)).
Proof.
  apply (proj2 (second_run_inserts_nothing (H := demo_libs))
           (demo_args false)
           (sync_world (Some "x") (Some "y") both_mapped [] [])
           [DirEntry "b.pdf" (Some "y"); DirEntry "notes.txt" None;
            DirEntry "a.pdf" (Some "x")]
           (<[ "b" := "u2" ]> {[ "a" := "u1" ]}));
    [reflexivity | discriminate | reflexivity | by vm_compute
    | by vm_compute | by vm_compute].
Defined.

(* ===================================================================== *)
(** ** A file that cannot be read *)
(* ===================================================================== *)

(** C3 (as amended): when the run reaches a file, resolves it to a
    document, and reading it for the digest fails with an I/O error, the
    error is fatal to the whole run: the script prints the error and exits
    with status 1; the files after it are not processed, no skip is
    counted for it and no summary is printed.  What was committed for the
    files before it, and every mapping entry saved so far, is kept. *)
Theorem hash_failure_aborts_the_run `{Libs}
    a w pre bad post w0 docs mapping st1 w1 r m2 w2 :
  main_setup a w = (Ok (pre ++ bad :: post), w0) ->
  read_mapping (w_mapping_file w0) = Some mapping ->
  catalog (w_db w0) (arg_site a) = docs ->
  docs <> [] ->
  sync_files a docs (arg_date a +:+ "T12:00:00+00:00") pre
             (mapping, Tally 0 0 0) w0
  = (Ok st1, w1) ->
  resolve_document (stem_of (entry_name bad)) docs st1.1 (announced a bad w1)
  = (Ok (r, m2), w2) ->
  Py.truthy r = true ->
  entry_bytes bad = None ->
  exists w',
    run a w = (1, w')
    /\ committed (w_db w') = committed (w_db w1)
    /\ pending (w_db w') = committed (w_db w1)
    /\ w_mapping_file w' = w_mapping_file w2
    /\ w_stdin w' = w_stdin w2
    /\ w_stdout w' = w_stdout w2 ++ [OutError].
Proof.
  intros Hs Hmap Hcat Hdocs Hpre Hres Hr Hbytes.
  destruct st1 as [m1 t1]. simpl in Hres.
  assert (Hbad : sync_file a docs (arg_date a +:+ "T12:00:00+00:00") bad
                   (m1, t1) w1 = (Raise OSError, w2)).
  { exact (sync_file_unreadable a docs _ bad m1 t1 w1 r m2 w2 Hres Hr Hbytes). }
  assert (Hloop : sync_files a docs (arg_date a +:+ "T12:00:00+00:00")
                    (pre ++ bad :: post) (mapping, Tally 0 0 0) w0
                  = (Raise OSError, w2)).
  { rewrite sync_files_app, Hpre. cbn [sync_files]. unfold bind.
    by rewrite Hbad. }
  assert (Ht : main_try a (pre ++ bad :: post) w0 = (Raise OSError, w2)).
  { rewrite main_try_eq, Hmap, Hcat.
    destruct docs as [|d0 docs']; [done|]. by rewrite Hloop. }
  apply resolve_document_frame in Hres as (Hdb & _).
  assert (Hdb1 : w_db w2 = w_db w1) by (by destruct w1).
  eexists. split; [by eapply run_exception|].
  destruct w2 as [? ? ? [] ? ? ?]. world_simpl. simpl in Hdb1.
  by rewrite <- Hdb1.
Qed.

Lemma hash_failure_witness :
  exists w',
    run (H := demo_libs) (demo_args false)
        (sync_world (Some "x") None both_mapped [] [])
    = (1, w')
    /\ length (committed (w_db w')) = 1%nat
    /\ w_mapping_file w' = both_mapped
    /\ last (w_stdout w') = Some OutError.
Proof.
  edestruct (hash_failure_aborts_the_run (H := demo_libs)
               (demo_args false)
               (sync_world (Some "x") None both_mapped [] [])
               [DirEntry "a.pdf" (Some "x")] (DirEntry "b.pdf" None) [])
    as (w' & Hrun & Hc & _ & Hfile & _ & Hout).
  all: try (vm_compute; reflexivity).
  { by vm_compute. }
  exists w'. split; [exact Hrun|].
  split; [by rewrite Hc|]. split; [exact Hfile|].
  rewrite Hout. apply last_snoc.
Defined.

(** C3 (as stated) fails: with a.pdf unreadable and b.pdf readable, both
    mapped, the run does not continue with b.pdf: it stops at a.pdf with
    exit status 1, prints no count, and stores nothing for b.pdf. *)
Lemma hash_failure_is_fatal_counterexample :
  let w := sync_world None (Some "y") both_mapped [] [] in
  ready (catalog (H := demo_libs) (w_db w) "trans-allegheny")
        (<[ "b" := "u2" ]> {[ "a" := "u1" ]}) "b"
        (DirEntry "b.pdf" (Some "y")) = true
  /\ (run (H := demo_libs) (demo_args false) w).1 = 1
  /\ w_stdout (run (H := demo_libs) (demo_args false) w).2
     = [OutFound 2; OutProcessing false "a.pdf"; OutError]
  /\ ~ In (OutProcessing false "b.pdf")
          (w_stdout (run (H := demo_libs) (demo_args false) w).2)
  /\ committed (w_db (run (H := demo_libs) (demo_args false) w).2) = [].
Proof.
  cbv zeta.
  assert (Hout : w_stdout (run (H := demo_libs) (demo_args false)
                             (sync_world None (Some "y") both_mapped [] [])).2
                 = [OutFound 2; OutProcessing false "a.pdf"; OutError])
    by (by vm_compute).
  split; [by vm_compute|]. split; [by vm_compute|]. split; [exact Hout|].
  split; [|by vm_compute].
  rewrite Hout. intros [Hf|[Hf|[Hf|[]]]]; discriminate.
Qed.

(* ===================================================================== *)
(** ** Dry runs *)
(* ===================================================================== *)

Section DryRuns.
Context `{Libs}.

(** The answer of the resolver and what it does to the input and to
    mapping.json depend on the input and on mapping.json alone. *)
Lemma resolve_document_sim stem docs m w1 w2 :
  same_io w1 w2 ->
  agree eq (resolve_document stem docs m w1) (resolve_document stem docs m w2).
Proof.
  intros (Hin & Hfile & Hsites & Hdocs). unfold agree, same_io.
  destruct (fast_path docs m stem) as [d|] eqn:Hfast.
  { rewrite !(resolve_document_fast _ _ _ d) by done. done. }
  rewrite !resolve_document_prompt by done.
  destruct (w_stdin w1) as [|line rest] eqn:Hin1.
  - rewrite !assign_interactively_eof
      by (destruct w1, w2; world_simpl; congruence).
    destruct w1, w2. world_simpl. by subst.
  - rewrite !(assign_interactively_line _ _ _ _ line rest)
      by (destruct w1, w2; world_simpl; congruence).
    cbv zeta. destruct (String.eqb _ "s").
    { destruct w1, w2. world_simpl. by subst. }
    destruct (selection docs line); destruct w1, w2; world_simpl; by subst.
Qed.

(** A file leaves a dry run and a real run in agreement. *)
Lemma sync_file_sim a docs ts pdf m t1 t2 w1 w2 :
  same_io w1 w2 -> tally_rel t1 t2 ->
  agree (fun st1 st2 => st1.1 = st2.1 /\ tally_rel st1.2 st2.2)
        (sync_file (with_dry_run true a) docs ts pdf (m, t1) w1)
        (sync_file (with_dry_run false a) docs ts pdf (m, t2) w2).
Proof.
  intros Hio [Hsk Hins].
  destruct (sync_file_cases (with_dry_run true a) docs ts pdf m t1 w1)
    as (r1 & w1' & Hres1 & ->).
  destruct (sync_file_cases (with_dry_run false a) docs ts pdf m t2 w2)
    as (r2 & w2' & Hres2 & ->).
  assert (Hio' : same_io (announced (with_dry_run true a) pdf w1)
                         (announced (with_dry_run false a) pdf w2)).
  { destruct Hio as (? & ? & ? & ?). by destruct w1, w2. }
  pose proof (resolve_document_sim (stem_of (entry_name pdf)) docs m _ _ Hio')
    as [Hio1 Hr].
  rewrite Hres1, Hres2 in Hio1, Hr. simpl in Hio1, Hr.
  destruct r1 as [[r m1]|e1], r2 as [[r' m2]|e2]; try done.
  injection Hr as -> ->.
  destruct (Py.truthy r').
  2:{ split.
      - destruct Hio1 as (? & ? & ? & ?). by destruct w1', w2'.
      - simpl. unfold tally_rel. simpl. split; [done|]. split; [lia|done]. }
  destruct (entry_bytes pdf) as [bytes|].
  2:{ by split. }
  cbn [arg_dry_run with_dry_run]. cbv zeta.
  destruct (Sql.upsert _ (pending (w_db w2'))) as [rows [cid ins]].
  split.
  - destruct Hio1 as (? & ? & ? & ?).
    destruct w1' as [? ? ? [] ? ? ?], w2' as [? ? ? [] ? ? ?].
    unfold same_io. world_simpl. by simpl in *.
  - simpl. split; [done|]. unfold tally_rel.
    destruct ins; simpl; split; lia.
Qed.

Lemma sync_files_sim a docs ts pdfs m t1 t2 w1 w2 :
  same_io w1 w2 -> tally_rel t1 t2 ->
  agree (fun st1 st2 => st1.1 = st2.1 /\ tally_rel st1.2 st2.2)
        (sync_files (with_dry_run true a) docs ts pdfs (m, t1) w1)
        (sync_files (with_dry_run false a) docs ts pdfs (m, t2) w2).
Proof.
  revert m t1 t2 w1 w2.
  induction pdfs as [|pdf pdfs IH]; intros m t1 t2 w1 w2 Hio Ht;
    cbn [sync_files].
  - by split.
  - unfold bind.
    pose proof (sync_file_sim a docs ts pdf m t1 t2 w1 w2 Hio Ht)
      as [Hio1 Hr].
    destruct (sync_file (with_dry_run true a) docs ts pdf (m, t1) w1)
      as [[[m1 t1']|e1] w1'],
      (sync_file (with_dry_run false a) docs ts pdf (m, t2) w2)
      as [[[m2 t2']|e2] w2']; simpl in Hio1, Hr; try done.
    destruct Hr as [-> Ht']. by apply IH.
Qed.

Lemma main_setup_eq a w :
  main_setup a w
  = match w_database_url w with
    | EmptyString =>
        (Raise (SystemExit 1),
         set_stdout (w_stdout w ++ [OutNoDatabaseUrl]) w)
    | _ =>
        match w_date_dir w with
        | None =>
            (Raise (SystemExit 1),
             set_stdout (w_stdout w ++ [OutFolderNotFound]) w)
        | Some entries =>
            match glob_pdfs entries with
            | [] =>
                (Raise (SystemExit 0),
                 set_stdout (w_stdout w ++ [OutNoPdfs]) w)
            | pdfs => (Ok pdfs, started a pdfs w)
            end
        end
    end.
Proof.
  unfold main_setup, bind, get.
  destruct w as [u dd mf db i o n]. world_simpl.
  destruct u as [|c u]; [done|].
  destruct dd as [entries|]; [|done].
  destruct (glob_pdfs entries) as [|pdf pdfs] eqn:Hglob; [done|].
  unfold started, dropped, print, modify, connect, rollback, ret.
  destruct (arg_dry_run a); world_simpl; by rewrite <- ?app_assoc.
Qed.

(** A dry run and the real run of the same command in the same world end
    with the same exit status, the same mapping.json and the same input
    left unread. *)
Lemma run_sim a w :
  (run (with_dry_run true a) w).1 = (run (with_dry_run false a) w).1
  /\ same_io (run (with_dry_run true a) w).2 (run (with_dry_run false a) w).2.
Proof.
  assert (Hrefl : forall w0, same_io w0 w0) by (by intros w0).
  destruct (run_cases (with_dry_run true a) w)
    as [(e1 & v1 & Hs1 & Hrun1)|(pdfs1 & v1 & r1 & u1 & Hs1 & Ht1 & Hrun1)];
  destruct (run_cases (with_dry_run false a) w)
    as [(e2 & v2 & Hs2 & Hrun2)|(pdfs2 & v2 & r2 & u2 & Hs2 & Ht2 & Hrun2)];
  rewrite main_setup_eq in Hs1, Hs2;
  destruct (w_database_url w) as [|c url];
  try destruct (w_date_dir w) as [entries|];
  try destruct (glob_pdfs entries) as [|pdf pdfs];
  try discriminate;
  try (injection Hs1 as <- <-; injection Hs2 as <- <-;
       rewrite Hrun1, Hrun2; split; [done|by destruct w]).
  injection Hs1 as <- <-. injection Hs2 as <- <-.
  rewrite main_try_eq in Ht1, Ht2.
  assert (Hio0 : same_io (started (with_dry_run true a) (pdf :: pdfs) w)
                         (started (with_dry_run false a) (pdf :: pdfs) w))
    by (by destruct w as [? ? ? [] ? ? ?]).
  destruct Hio0 as (Hin0 & Hfile0 & Hsites0 & Hdocs0).
  rewrite (catalog_ext _ _ _ Hsites0 Hdocs0), Hfile0 in Ht1.
  cbn [arg_site arg_date with_dry_run] in Ht1, Ht2.
  destruct (read_mapping _) as [m|].
  2:{ injection Ht1 as <- <-. injection Ht2 as <- <-.
      rewrite Hrun1, Hrun2. split; [done|].
      by destruct w as [? ? ? [] ? ? ?]. }
  destruct (catalog _ _) as [|d0 docs].
  { injection Ht1 as <- <-. injection Ht2 as <- <-.
    rewrite Hrun1, Hrun2. split; [done|].
    by destruct w as [? ? ? [] ? ? ?]. }
  pose proof (sync_files_sim a (d0 :: docs)
                (arg_date a +:+ "T12:00:00+00:00") (pdf :: pdfs) m
                (Tally 0 0 0) (Tally 0 0 0)
                (started (with_dry_run true a) (pdf :: pdfs) w)
                (started (with_dry_run false a) (pdf :: pdfs) w))
    as [Hio Hres]; [by destruct w as [? ? ? [] ? ? ?]|done|].
  destruct (sync_files (with_dry_run true a) _ _ _ _ _) as [[st1|e1] x1],
    (sync_files (with_dry_run false a) _ _ _ _ _) as [[st2|e2] x2];
    simpl in Hio, Hres; try done.
  - injection Ht1 as <- <-. injection Ht2 as <- <-.
    rewrite Hrun1, Hrun2. split; [done|].
    destruct Hio as (? & ? & ? & ?).
    by destruct x1 as [? ? ? [] ? ? ?], x2 as [? ? ? [] ? ? ?].
  - injection Ht1 as <- <-. injection Ht2 as <- <-. subst e2.
    destruct Hio as (? & ? & ? & ?).
    destruct e1; rewrite Hrun1, Hrun2; (split; [done|]);
      by destruct x1 as [? ? ? [] ? ? ?], x2 as [? ? ? [] ? ? ?].
Qed.

(** Only EOFError (no line left to read) and OSError (unreadable file)
    come out of the loop. *)
Lemma resolve_document_raises stem docs m w e w' :
  resolve_document stem docs m w = (Raise e, w') -> e = EOFError.
Proof.
  destruct (fast_path docs m stem) as [d|] eqn:Hfast.
  { by rewrite (resolve_document_fast _ _ _ d) by done. }
  rewrite resolve_document_prompt by done.
  destruct (w_stdin w) as [|line rest] eqn:Hin.
  - rewrite assign_interactively_eof by (by destruct w). by intros [= <- _].
  - erewrite assign_interactively_line by (destruct w; exact Hin).
    cbv zeta. destruct (String.eqb _ "s"); [done|].
    by destruct (selection docs line).
Qed.

Lemma sync_file_raises a docs ts pdf st w e w' :
  sync_file a docs ts pdf st w = (Raise e, w') -> is_Exception e = true.
Proof.
  destruct st as [m t].
  destruct (sync_file_cases a docs ts pdf m t w) as (r0 & w1 & Hres & ->).
  destruct r0 as [[r m1]|e0].
  2:{ intros [= <- _]. by apply resolve_document_raises in Hres as ->. }
  destruct (Py.truthy r); [|done].
  destruct (entry_bytes pdf); [|by intros [= <- _]].
  destruct (arg_dry_run a); [done|]. cbv zeta.
  by destruct (Sql.upsert _ _) as [rows [cid ins]].
Qed.

Lemma sync_files_raises a docs ts pdfs st w e w' :
  sync_files a docs ts pdfs st w = (Raise e, w') -> is_Exception e = true.
Proof.
  revert st w. induction pdfs as [|pdf pdfs IH]; intros st w;
    cbn [sync_files]; [done|].
  unfold bind.
  destruct (sync_file a docs ts pdf st w) as [[st'|e0] w1] eqn:Hf.
  - apply IH.
  - intros [= <- _]. by eapply sync_file_raises.
Qed.

(** In a dry run a file leaves the database and the identifier supply
    alone, and counts as one would-be insert or one skip. *)
Lemma sync_file_dry a docs ts pdf m t w r w' :
  arg_dry_run a = true ->
  sync_file a docs ts pdf (m, t) w = (r, w') ->
  w_db w' = w_db w /\ w_uuid_draws w' = w_uuid_draws w
  /\ match r with
     | Ok (_, t') =>
         (inserted t' + skipped t' = S (inserted t + skipped t))%nat
     | Raise _ => True
     end.
Proof.
  intros Hdry Hf.
  pose proof (sync_file_db _ _ _ _ _ _ _ _ Hf)
    as (_ & _ & _ & _ & [[Hdb Hn]|[Hno _]]); [|congruence].
  split; [done|]. split; [done|].
  destruct (sync_file_cases a docs ts pdf m t w) as (r0 & w1 & _ & Heq).
  rewrite Heq in Hf. clear Heq.
  destruct r0 as [[r1 m1]|e0]; [|by injection Hf as <- _].
  destruct (Py.truthy r1).
  2:{ injection Hf as <- _. simpl. lia. }
  destruct (entry_bytes pdf); [|by injection Hf as <- _].
  rewrite Hdry in Hf. injection Hf as <- _. simpl. lia.
Qed.

Lemma sync_files_dry a docs ts pdfs m t w r w' :
  arg_dry_run a = true ->
  sync_files a docs ts pdfs (m, t) w = (r, w') ->
  w_db w' = w_db w /\ w_uuid_draws w' = w_uuid_draws w
  /\ match r with
     | Ok (_, t') =>
         (inserted t' + skipped t' = inserted t + skipped t + length pdfs)%nat
     | Raise _ => True
     end.
Proof.
  intros Hdry. revert m t w.
  induction pdfs as [|pdf pdfs IH]; intros m t w; cbn [sync_files length].
  - intros [= <- <-]. split; [done|]. split; [done|]. lia.
  - unfold bind.
    destruct (sync_file a docs ts pdf (m, t) w) as [[[m1 t1]|e0] w1] eqn:Hf;
      apply sync_file_dry in Hf as (Hdb & Hn & Ht); try done.
    + intros (Hdb' & Hn' & Ht')%IH.
      split; [congruence|]. split; [congruence|].
      destruct r as [[m2 t2]|]; [lia|done].
    + by intros [= <- <-].
Qed.

(** A dry run writes nothing to the [captures] table and builds no
    record. *)
Lemma run_dry_db a w :
  arg_dry_run a = true ->
  committed (w_db (run a w).2) = committed (w_db w)
  /\ w_uuid_draws (run a w).2 = w_uuid_draws w.
Proof.
  intros Hdry.
  destruct (run_cases a w)
    as [(e & w0 & Hs & ->)|(pdfs & w0 & r & w1 & Hs & Ht & Hrun)].
  { by apply main_setup_frame in Hs as (? & _ & _ & _ & _ & ? & _). }
  apply main_setup_frame in Hs as (Hc & _ & _ & _ & _ & Hn & _).
  assert (Hw1 : w_db w1 = w_db w0 /\ w_uuid_draws w1 = w_uuid_draws w0).
  { rewrite main_try_eq in Ht.
    destruct (read_mapping _) as [m|]; [|by injection Ht as _ <-].
    destruct (catalog _ _) as [|d0 docs].
    { injection Ht as _ <-. by destruct w0. }
    destruct (sync_files _ _ _ _ _ _) as [[[m1 t1]|e1] x1] eqn:Hsync;
      apply sync_files_dry in Hsync as (? & ? & _); try done;
      by injection Ht as _ <-. }
  destruct Hw1 as [Hdb1 Hn1].
  assert (committed (w_db (run a w).2) = committed (w_db w1)
          /\ w_uuid_draws (run a w).2 = w_uuid_draws w1) as [-> ->].
  { destruct r as [t|[]]; rewrite Hrun; by destruct w1 as [? ? ? [] ? ? ?]. }
  split; congruence.
Qed.

(** A dry run that completes reports one would-be insert for every file
    it did not skip. *)
Lemma run_dry_summary a w entries :
  arg_dry_run a = true ->
  w_date_dir w = Some entries ->
  glob_pdfs entries <> [] ->
  (run a w).1 = 0 ->
  exists i s,
    last (w_stdout (run a w).2) = Some (OutDrySummary i s)
    /\ (i + s)%nat = length (glob_pdfs entries).
Proof.
  intros Hdry Hdir Hpdfs Hcode.
  destruct (run_cases a w)
    as [(e & w0 & Hs & Hrun)|(pdfs & w0 & r & w1 & Hs & Ht & Hrun)].
  { rewrite Hrun in Hcode. rewrite main_setup_eq, Hdir in Hs.
    destruct (w_database_url w); [by injection Hs as <- _|].
    destruct (glob_pdfs entries); [done|discriminate]. }
  rewrite main_setup_eq, Hdir in Hs.
  destruct (w_database_url w); [discriminate|].
  destruct (glob_pdfs entries) as [|pdf rest] eqn:Hglob; [done|].
  injection Hs as <- <-.
  rewrite main_try_eq in Ht.
  destruct (read_mapping _) as [m|].
  2:{ injection Ht as <- <-. by rewrite Hrun in Hcode. }
  destruct (catalog _ _) as [|d0 docs].
  { injection Ht as <- <-. by rewrite Hrun in Hcode. }
  destruct (sync_files _ _ _ _ _ _) as [[[m1 t1]|e1] x1] eqn:Hsync.
  - apply sync_files_dry in Hsync as (_ & _ & Hcount); [|done].
    injection Ht as <- <-. rewrite Hrun. cbn [fst snd] in *.
    exists (inserted t1), (skipped t1). split.
    + destruct x1. world_simpl. rewrite last_snoc. unfold summary.
      by rewrite Hdry.
    + cbn [inserted skipped] in Hcount. lia.
  - apply sync_files_raises in Hsync. injection Ht as <- <-.
    destruct e1; try done; by rewrite Hrun in Hcode.
Qed.

(** A dry run over a folder whose files are all ready completes and
    reports every file as a would-be insert. *)
Lemma run_ready_dry a w entries mapping :
  arg_dry_run a = true ->
  w_database_url w <> EmptyString ->
  w_date_dir w = Some entries ->
  glob_pdfs entries <> [] ->
  read_mapping (w_mapping_file w) = Some mapping ->
  forallb (fun pdf => ready (catalog (w_db w) (arg_site a)) mapping
                        (stem_of (entry_name pdf)) pdf)
          (glob_pdfs entries) = true ->
  (run a w).1 = 0
  /\ last (w_stdout (run a w).2)
     = Some (OutDrySummary (length (glob_pdfs entries)) 0).
Proof.
  intros Hdry Hurl Hdir Hpdfs Hmap Hready.
  set (pdfs := glob_pdfs entries) in *.
  set (docs := catalog (w_db w) (arg_site a)) in *.
  pose proof (main_setup_ok a w entries Hurl Hdir Hpdfs) as Hs. fold pdfs in Hs.
  set (w0 := started a pdfs w) in *.
  assert (Hfile0 : w_mapping_file w0 = w_mapping_file w) by (by destruct w).
  assert (Hdocs0 : catalog (w_db w0) (arg_site a) = docs).
  { apply catalog_ext; by destruct w as [? ? ? [] ? ? ?]. }
  assert (Hdocs : docs <> []).
  { destruct pdfs as [|pdf rest]; [done|]. simpl in Hready.
    apply andb_prop in Hready as [Hr _].
    apply ready_inv in Hr as (d & _ & Hfast & _).
    unfold fast_path in Hfast. destruct (mapping !! _); [|done].
    intros Hnil. rewrite Hnil in Hfast. done. }
  destruct (sync_files_ready_dry a docs (arg_date a +:+ "T12:00:00+00:00")
              pdfs mapping (Tally 0 0 0) w0 Hdry Hready)
    as (w1 & Hsync & _).
  assert (Ht : main_try a pdfs w0
               = (Ok (Tally (0 + length pdfs) 0 0), w1)).
  { rewrite main_try_eq, Hfile0, Hmap, Hdocs0.
    destruct docs as [|d0 docs']; [done|]. by rewrite Hsync. }
  rewrite (run_completes a w pdfs w0 _ w1 Hs Ht). cbn [fst snd].
  split; [done|]. destruct w1. world_simpl. rewrite last_snoc.
  unfold summary. by rewrite Hdry.
Qed.

End DryRuns.

(** C7: a dry run writes nothing to the [captures] table (and draws no
    record identifier), whatever the folder holds and whatever is typed.
    It goes through the files as a real run does: when it completes, its
    summary counts one would-be insert for every file that was not
    skipped, so N for N resolvable files (as when every stem is mapped and
    every file readable); it ends with the exit status of the real run,
    and it leaves mapping.json exactly as the real run leaves it: the
    entries chosen at the prompt are saved. *)
Theorem dry_run_writes_no_capture_rows `{Libs} a w :
  arg_dry_run a = true ->
  committed (w_db (run a w).2) = committed (w_db w)
  /\ w_uuid_draws (run a w).2 = w_uuid_draws w
  /\ (forall entries,
        w_date_dir w = Some entries -> glob_pdfs entries <> [] ->
        (run a w).1 = 0 ->
        exists i s,
          last (w_stdout (run a w).2) = Some (OutDrySummary i s)
          /\ (i + s)%nat = length (glob_pdfs entries))
  /\ (forall entries mapping,
        w_database_url w <> EmptyString ->
        w_date_dir w = Some entries ->
        glob_pdfs entries <> [] ->
        read_mapping (w_mapping_file w) = Some mapping ->
        forallb (fun pdf => ready (catalog (w_db w) (arg_site a)) mapping
                              (stem_of (entry_name pdf)) pdf)
                (glob_pdfs entries) = true ->
        (run a w).1 = 0
        /\ last (w_stdout (run a w).2)
           = Some (OutDrySummary (length (glob_pdfs entries)) 0))
  /\ (run a w).1 = (run (with_dry_run false a) w).1
  /\ w_mapping_file (run a w).2
     = w_mapping_file (run (with_dry_run false a) w).2
  /\ w_stdin (run a w).2 = w_stdin (run (with_dry_run false a) w).2.
Proof.
  intros Hdry.
  destruct (run_dry_db a w Hdry) as [Hc Hn].
  split; [done|]. split; [done|].
  split; [intros entries; by apply run_dry_summary|].
  split; [intros entries mapping; by apply run_ready_dry|].
  assert (Ha : a = with_dry_run true a).
  { destruct a. simpl in Hdry. by subst. }
  destruct (run_sim a w) as (Hcode & Hin & Hfile & _).
  rewrite <- Ha in Hcode, Hin, Hfile. done.
Qed.

Lemma dry_run_witness :
  let w := sync_world (Some "x") (Some "y") None [] ["1"; "0"] in
  committed (w_db (run (H := demo_libs) (demo_args true) w).2) = []
  /\ w_uuid_draws (run (H := demo_libs) (demo_args true) w).2 = 0%nat
  /\ last (w_stdout (run (H := demo_libs) (demo_args true) w).2)
     = Some (OutDrySummary 2 0)
  /\ w_mapping_file w = None
  /\ w_mapping_file (run (H := demo_libs) (demo_args true) w).2
     = Some (mapping_text (<[ "b" := "u1" ]> {[ "a" := "u2" ]}))
  /\ w_mapping_file (run (H := demo_libs) (demo_args true) w).2
     = w_mapping_file (run (H := demo_libs) (demo_args false) w).2.
Proof.
  cbv zeta.
  destruct (dry_run_writes_no_capture_rows (H := demo_libs) (demo_args true)
              (sync_world (Some "x") (Some "y") None [] ["1"; "0"]) eq_refl)
    as (Hc & Hn & _ & _ & _ & Hfile & _).
  split; [exact Hc|]. split; [exact Hn|].
  split; [by vm_compute|]. split; [reflexivity|].
  split; [by vm_compute|]. exact Hfile.
Defined.

(* ===================================================================== *)
(** ** The catalog query *)
(* ===================================================================== *)


Lemma menu_entries_lookup i docs k :
  menu_entries i docs !! k = menu_entry (i + k) <$> docs !! k.
Proof.
  revert i k. induction docs as [|d docs IH]; intros i k; simpl; [done|].
  destruct k as [|k]; simpl.
  - by rewrite Nat.add_0_r.
  - rewrite IH. by replace (S i + k)%nat with (i + S k)%nat by lia.
Qed.

Section Catalog.
Context `{Libs}.
Hypothesis text_leb_total :
  forall x y, text_leb x y = true \/ text_leb y x = true.
Hypothesis text_leb_trans :
  forall x y z, text_leb x y = true -> text_leb y z = true ->
                text_leb x z = true.
Hypothesis text_leb_antisym :
  forall x y, text_leb x y = true -> text_leb y x = true -> x = y.

Lemma text_leb_refl x : text_leb x x = true.
Proof. by destruct (text_leb_total x x). Qed.

(** What ORDER BY official_category NULLS LAST, url says of two rows. *)
Lemma order_leb_spec a b :
  order_leb a b = true <->
  match official_category a, official_category b with
  | Some x, Some y =>
      text_leb x y = true /\ (x = y -> text_leb (url a) (url b) = true)
  | Some _, None => True
  | None, Some _ => False
  | None, None => text_leb (url a) (url b) = true
  end.
Proof.
  unfold order_leb.
  destruct (official_category a) as [x|], (official_category b) as [y|];
    try done.
  destruct (String.eqb_spec x y) as [->|Hne].
  - split; [intros Hu; split; [apply text_leb_refl|done]|]. intros [_ Hu].
    by apply Hu.
  - split; [by intros ?; split|]. by intros [? _].
Qed.

Local Instance order_leb_total : Total (fun a b => order_leb a b).
Proof.
  intros a b. rewrite !Is_true_true. unfold order_leb.
  destruct (official_category a) as [x|], (official_category b) as [y|];
    try (by left); try (by right); [|apply text_leb_total].
  rewrite (String.eqb_sym y x).
  destruct (String.eqb x y); apply text_leb_total.
Qed.

Local Instance order_leb_trans : Transitive (fun a b => order_leb a b).
Proof.
  intros a b c. rewrite !Is_true_true, !order_leb_spec.
  destruct (official_category a) as [x|], (official_category b) as [y|],
    (official_category c) as [z|]; try done.
  - intros [Hxy Hab] [Hyz Hbc]. split; [by eapply text_leb_trans|].
    intros ->. assert (y = z) as -> by (by apply text_leb_antisym).
    eapply text_leb_trans; [by apply Hab|by apply Hbc].
  - apply text_leb_trans.
Qed.


Lemma fetchall_rows db site : fetchall db site ≡ₚ select_documents db site.
Proof. apply merge_sort_Permutation. Qed.


End Catalog.



(* ===================================================================== *)
(** ** File names: the glob, the stem and the stored path *)
(* ===================================================================== *)

Lemma append_cons c s t : String c s +:+ t = String c (s +:+ t).
Proof. reflexivity. Qed.

Lemma append_nil_l t : EmptyString +:+ t = t.
Proof. reflexivity. Qed.

Lemma append_nil_r s : s +:+ EmptyString = s.
Proof.
  induction s as [|c s IH]; [done|]. by rewrite append_cons, IH.
Qed.

Lemma append_assoc s1 s2 s3 : (s1 +:+ s2) +:+ s3 = s1 +:+ s2 +:+ s3.
Proof.
  induction s1 as [|c s1 IH]; [done|]. by rewrite !append_cons, IH.
Qed.

Lemma length_append s1 s2 :
  String.length (s1 +:+ s2) = (String.length s1 + String.length s2)%nat.
Proof.
  induction s1 as [|c s1 IH]; [done|].
  rewrite append_cons. cbn [String.length]. by rewrite IH.
Qed.

Lemma ends_with_spec suffix s :
  ends_with suffix s = true <-> exists pre, s = pre +:+ suffix.
Proof.
  induction s as [|c s IH]; cbn [ends_with].
  - rewrite orb_false_r, String.eqb_eq. split.
    + intros <-. by exists EmptyString.
    + intros [[|c pre] Hpre]; [done | discriminate].
  - rewrite orb_true_iff, String.eqb_eq, IH. split.
    + intros [<- | [pre ->]]; [by exists EmptyString | by exists (String c pre)].
    + intros [[|c' pre] Hpre]; [by left|].
      right. rewrite append_cons in Hpre. injection Hpre as _ ->. by exists pre.
Qed.

Lemma rfind_dot_append s t :
  rfind_dot (s +:+ t)
  = match rfind_dot t with
    | Some i => Some (String.length s + i)%nat
    | None => rfind_dot s
    end.
Proof.
  induction s as [|c s IH].
  - rewrite append_nil_l. by destruct (rfind_dot t).
  - rewrite append_cons. cbn [rfind_dot String.length].
    rewrite IH. by destruct (rfind_dot t).
Qed.

Lemma substring_prefix s t :
  String.substring 0 (String.length s) (s +:+ t) = s.
Proof.
  induction s as [|c s IH].
  - by destruct t.
  - rewrite append_cons. cbn [String.length String.substring]. by rewrite IH.
Qed.

Lemma stem_of_append_pdf s :
  s <> EmptyString -> stem_of (s +:+ ".pdf") = s.
Proof.
  intros Hs. unfold stem_of. rewrite rfind_dot_append.
  change (rfind_dot ".pdf") with (Some 0%nat).
  rewrite length_append, Nat.add_0_r.
  assert (((0 <? String.length s)
           && (String.length s <? String.length s + String.length ".pdf" - 1))%nat
          = true) as ->.
  { destruct s as [|c s]; [done|]. cbn [String.length].
    apply andb_true_intro. split; apply Nat.ltb_lt; lia. }
  apply substring_prefix.
Qed.

Local Instance name_le_trans :
  Transitive (fun a b : dir_entry => String.le (entry_name a) (entry_name b)).
Proof. intros a b c. apply (transitivity (R := String.le)). Qed.

Local Instance name_le_total :
  Total (fun a b : dir_entry => String.le (entry_name a) (entry_name b)).
Proof. intros a b. apply (total String.le). Qed.

Lemma glob_pdfs_elem entries e :
  In e (glob_pdfs entries)
  <-> In e entries /\ exists s, entry_name e = s +:+ ".pdf".
Proof.
  unfold glob_pdfs. rewrite <- !list_elem_of_In, merge_sort_Permutation.
  rewrite list_elem_of_filter, <- ends_with_spec, Is_true_true. tauto.
Qed.

(** X1: [sorted(date_dir.glob("*.pdf"))] (line 153) lists exactly the entries
    of the folder whose names end in ".pdf", none dropped and none twice,
    in ascending order of their names. *)
Theorem glob_pdfs_lists_the_pdf_entries_in_name_order entries :
  (forall e, In e (glob_pdfs entries)
             <-> In e entries /\ exists s, entry_name e = s +:+ ".pdf")
  /\ glob_pdfs entries
     ≡ₚ filter (fun e => ends_with ".pdf" (entry_name e)) entries
  /\ StronglySorted (fun a b => String.le (entry_name a) (entry_name b))
                    (glob_pdfs entries)
  /\ (length (glob_pdfs entries) <= length entries)%nat.
Proof.
  split; [apply glob_pdfs_elem|]. split; [apply merge_sort_Permutation|].
  split; [apply StronglySorted_merge_sort; apply _|].
  unfold glob_pdfs. rewrite merge_sort_Permutation. apply length_filter.
Qed.

(** X2: [pdf.stem] (line 181) of a name made of a non-empty stem and the
    extension ".pdf" is that stem, whatever dots the stem holds; so every
    listed file other than one named ".pdf" is its stem followed by
    ".pdf", and two such files with the same stem, the key of
    mapping.json, have the same name. *)
Theorem stem_of_strips_the_pdf_extension :
  (forall s, s <> EmptyString -> stem_of (s +:+ ".pdf") = s)
  /\ (forall entries e,
        In e (glob_pdfs entries) -> entry_name e <> ".pdf" ->
        stem_of (entry_name e) +:+ ".pdf" = entry_name e)
  /\ (forall entries e e',
        In e (glob_pdfs entries) -> In e' (glob_pdfs entries) ->
        entry_name e <> ".pdf" -> entry_name e' <> ".pdf" ->
        stem_of (entry_name e) = stem_of (entry_name e') ->
        entry_name e = entry_name e').
Proof.
  assert (Hname : forall entries e,
             In e (glob_pdfs entries) -> entry_name e <> ".pdf" ->
             stem_of (entry_name e) +:+ ".pdf" = entry_name e).
  { intros entries e (_ & s & Hs)%glob_pdfs_elem Hne. rewrite Hs.
    rewrite stem_of_append_pdf; [done|]. intros ->. by rewrite Hs in Hne. }
  split; [apply stem_of_append_pdf|]. split; [done|].
  intros entries e e' He He' Hne Hne' Hstem.
  rewrite <- (Hname entries e He Hne), <- (Hname entries e' He' Hne').
  by rewrite Hstem.
Qed.

Example stem_of_dotted_name :
  stem_of "plan.v2.pdf" = "plan.v2" /\ stem_of ".pdf" = ".pdf"
  /\ stem_of "scan.PDF" = "scan".
Proof. by vm_compute. Qed.


Lemma map_str_append f s t :
  Py.map_str f (s +:+ t) = Py.map_str f s +:+ Py.map_str f t.
Proof.
  induction s as [|c s IH]; [done|].
  rewrite append_cons. cbn [Py.map_str]. by rewrite IH.
Qed.

Lemma map_str_length f s : String.length (Py.map_str f s) = String.length s.
Proof. induction s as [|c s IH]; [done|]. cbn [Py.map_str String.length]. by rewrite IH. Qed.

Lemma str_all_map_str (P Q : ascii -> bool) f s :
  (forall c, P c = true -> Q (f c) = true) ->
  str_all P s = true -> str_all Q (Py.map_str f s) = true.
Proof.
  intros Hf. induction s as [|c s IH]; [done|].
  cbn [str_all Py.map_str]. rewrite !andb_true_iff. intros [Hc Hs].
  split; [by apply Hf | by apply IH].
Qed.




Lemma upper_char_hex c :
  is_lower_hex c = true -> is_upper_hex (Py.upper_char c) = true.
Proof. destruct c as [[] [] [] [] [] [] [] []]; vm_compute; congruence. Qed.

(** X4: [sha256] (lines 40-45) reads the file and changes nothing; of a
    readable file it returns the digest with its letters in upper case, of
    the same length and made of 0-9 and A-F only (hashlib prints 0-9 and
    a-f); of an unreadable file it raises OSError. *)
Theorem sha256_returns_an_upper_case_digest `{Libs} pdf w :
  match entry_bytes pdf with
  | Some bytes =>
      exists h,
        sha256 pdf w = (Ok h, w)
        /\ String.length h = String.length (hexdigest bytes)
        /\ (str_all is_lower_hex (hexdigest bytes) = true ->
            str_all is_upper_hex h = true)
        /\ Py.upper h = h
  | None => sha256 pdf w = (Raise OSError, w)
  end.
Proof.
  unfold sha256. destruct (entry_bytes pdf) as [bytes|]; [|done].
  exists (Py.upper (hexdigest bytes)). split; [done|].
  split; [apply map_str_length|]. split.
  - apply str_all_map_str, upper_char_hex.
  - unfold Py.upper. induction (hexdigest bytes) as [|c s IH]; [done|].
    cbn [Py.map_str]. rewrite IH. f_equal.
    destruct c as [[] [] [] [] [] [] [] []]; reflexivity.
Qed.

(* ===================================================================== *)
(** ** The site query *)
(* ===================================================================== *)

Lemma like_percent p s :
  Sql.like (String "%" p) s = true
  <-> exists s1 s2, s = s1 +:+ s2 /\ Sql.like p s2 = true.
Proof.
  induction s as [|c s IH].
  - change (Sql.like (String "%" p) EmptyString)
      with (Sql.like p EmptyString || false).
    rewrite orb_false_r. split.
    + intros Hp. by exists EmptyString, EmptyString.
    + intros ([|c s1] & s2 & Hs & Hp); [|discriminate].
      rewrite append_nil_l in Hs. by subst.
  - change (Sql.like (String "%" p) (String c s))
      with (Sql.like p (String c s) || Sql.like (String "%" p) s).
    rewrite orb_true_iff, IH. split.
    + intros [Hp | (s1 & s2 & -> & Hp)].
      * by exists EmptyString, (String c s).
      * by exists (String c s1), s2.
    + intros ([|c' s1] & s2 & Hs & Hp).
      * rewrite append_nil_l in Hs. subst. by left.
      * rewrite append_cons in Hs. injection Hs as _ ->. right. by exists s1, s2.
Qed.

Lemma like_percent_only s : Sql.like "%" s = true.
Proof. apply like_percent. exists s, EmptyString. by rewrite append_nil_r. Qed.

Lemma like_plain_cons c p s :
  like_plain c = true ->
  Sql.like (String c p) s = true
  <-> exists s', s = String c s' /\ Sql.like p s' = true.
Proof.
  unfold like_plain. rewrite negb_true_iff, !orb_false_iff.
  intros [[H1 H2] H3]. cbn [Sql.like]. rewrite H1, H2, H3.
  destruct s as [|a s]; [split; [done | by intros (? & ? & ?)]|].
  rewrite andb_true_iff, Ascii.eqb_eq. split.
  - intros [-> Hp]. by exists s.
  - intros (s' & Hs & Hp). injection Hs as -> ->. done.
Qed.

Lemma like_plain_append lit p s :
  str_all like_plain lit = true ->
  Sql.like (lit +:+ p) s = true
  <-> exists s', s = lit +:+ s' /\ Sql.like p s' = true.
Proof.
  revert s. induction lit as [|c lit IH]; intros s Hlit.
  - rewrite append_nil_l. split; [by exists s|].
    intros (s' & -> & Hp). by rewrite append_nil_l.
  - cbn [str_all] in Hlit. apply andb_true_iff in Hlit as [Hc Hlit].
    rewrite append_cons, like_plain_cons by done. split.
    + intros (s1 & -> & Hp). apply IH in Hp as (s' & -> & Hp); [|done].
      by exists s'.
    + intros (s' & -> & Hp). rewrite append_cons. eexists. split; [done|].
      apply IH; [done|]. by exists s'.
Qed.

Lemma like_occurs_in lit s :
  str_all like_plain lit = true ->
  Sql.like ("%" +:+ lit +:+ "%") s = true <-> occurs_in lit s.
Proof.
  intros Hlit. change ("%" +:+ lit +:+ "%") with (String "%" (lit +:+ "%")).
  rewrite like_percent. unfold occurs_in. split.
  - intros (s1 & s2 & -> & Hp).
    apply like_plain_append in Hp as (s' & -> & _); [|done]. by exists s1, s'.
  - intros (pre & post & ->). exists pre, (lit +:+ post). split; [done|].
    apply like_plain_append; [done|]. exists post. split; [done|].
    apply like_percent_only.
Qed.

Lemma lower_char_plain c : like_plain c = true -> like_plain (Py.lower_char c) = true.
Proof. destruct c as [[] [] [] [] [] [] [] []]; vm_compute; congruence. Qed.

Lemma ilike_occurs_in lit s :
  str_all like_plain lit = true ->
  Sql.ilike s ("%" +:+ lit +:+ "%") = true
  <-> occurs_in (Py.lower lit) (Py.lower s).
Proof.
  intros Hlit. unfold Sql.ilike, Py.lower. rewrite !map_str_append.
  change (Py.map_str Py.lower_char "%") with "%".
  apply like_occurs_in. revert Hlit. apply str_all_map_str, lower_char_plain.
Qed.

Lemma replace_char_plain s :
  str_all like_plain s = true ->
  str_all like_plain (Py.replace_char "-" " " s) = true.
Proof.
  apply str_all_map_str. intros c Hc.
  by destruct (Ascii.eqb c "-").
Qed.

Lemma site_matches_occurs folder s :
  str_all like_plain folder = true ->
  site_matches folder s = true
  <-> (exists name,
         site_name s = Some name
         /\ occurs_in (Py.lower (Py.replace_char "-" " " folder))
                      (Py.lower name))
      \/ (exists u,
            official_site_url s = Some u
            /\ occurs_in (Py.lower folder) (Py.lower u)).
Proof.
  intros Hplain. unfold site_matches, Sql.ilike_null.
  rewrite orb_true_iff. apply Morphisms_Prop.or_iff_morphism.
  - destruct (site_name s) as [name|].
    + rewrite ilike_occurs_in by by apply replace_char_plain.
      split; [by exists name | by intros (? & [= <-] & ?)].
    + split; [done | by intros (? & ? & ?)].
  - destruct (official_site_url s) as [u|].
    + rewrite ilike_occurs_in by done.
      split; [by exists u | by intros (? & [= <-] & ?)].
    + split; [done | by intros (? & ? & ?)].
Qed.

Lemma select_documents_elem db folder d :
  In d (select_documents db folder)
  <-> In d (documents db)
      /\ exists s, In s (sites db) /\ site_id s = d_site_id d
                   /\ site_matches folder s = true.
Proof.
  unfold select_documents. rewrite in_flat_map. split.
  - intros (d' & Hd' & Hin). apply in_flat_map in Hin as (s & Hs & Hin).
    destruct (String.eqb (site_id s) (d_site_id d') && site_matches folder s)
      eqn:Hm; [|done].
    destruct Hin as [<- | []]. apply andb_true_iff in Hm as [Hid Hm].
    apply String.eqb_eq in Hid. eauto.
  - intros (Hd & s & Hs & Hid & Hm). exists d. split; [done|].
    apply in_flat_map. exists s. split; [done|].
    apply String.eqb_eq in Hid. rewrite Hid, Hm. by left.
Qed.

(** X5: [get_site_documents] (lines 63-81) reads the database and changes
    nothing.  For a folder name free of %, _ and backslash it returns the
    documents of exactly the sites whose name contains the folder name
    with its hyphens turned into spaces, or whose official URL contains
    the folder name, letter case ignored; a site without name and URL
    selects nothing. *)
Theorem get_site_documents_selects_matching_sites `{Libs} folder w :
  str_all like_plain folder = true ->
  exists docs,
    get_site_documents folder w = (Ok docs, w)
    /\ forall doc,
         In doc docs
         <-> exists row site,
               In row (documents (w_db w)) /\ In site (sites (w_db w))
               /\ site_id site = d_site_id row /\ doc = to_doc row
               /\ ((exists name,
                      site_name site = Some name
                      /\ occurs_in (Py.lower (Py.replace_char "-" " " folder))
                                   (Py.lower name))
                   \/ (exists u,
                         official_site_url site = Some u
                         /\ occurs_in (Py.lower folder) (Py.lower u))).
Proof.
  intros Hplain. exists (catalog (w_db w) folder). split; [done|].
  intros doc. unfold catalog. rewrite in_map_iff. split.
  - intros (row & <- & Hrow).
    apply list_elem_of_In in Hrow. rewrite fetchall_rows in Hrow.
    apply list_elem_of_In, select_documents_elem in Hrow
      as (Hd & site & Hs & Hid & Hm).
    apply site_matches_occurs in Hm; [|done]. by exists row, site.
  - intros (row & site & Hd & Hs & Hid & -> & Hm). exists row. split; [done|].
    apply list_elem_of_In. rewrite fetchall_rows.
    apply list_elem_of_In, select_documents_elem. split; [done|].
    exists site. split; [done|]. split; [done|].
    by apply site_matches_occurs.
Qed.

Lemma get_site_documents_selects_matching_sites_witness :
  exists docs,
    get_site_documents (H := demo_libs) "trans-allegheny"
      (sync_world None None None [] [])
    = (Ok docs, sync_world None None None [] [])
    /\ forall doc,
         In doc docs
         <-> exists row site,
               In row (documents (demo_db [])) /\ In site (sites (demo_db []))
               /\ site_id site = d_site_id row /\ doc = to_doc row
               /\ ((exists name,
                      site_name site = Some name
                      /\ occurs_in
                           (Py.lower (Py.replace_char "-" " " "trans-allegheny"))
                           (Py.lower name))
                   \/ (exists u,
                         official_site_url site = Some u
                         /\ occurs_in (Py.lower "trans-allegheny")
                                      (Py.lower u))).
Proof.
  apply (get_site_documents_selects_matching_sites (H := demo_libs)
           "trans-allegheny" (sync_world None None None [] [])).
  reflexivity.
Defined.

(* ===================================================================== *)
(** ** The resolver, outcome by outcome *)
(* ===================================================================== *)

Lemma fast_path_candidate docs m stem d :
  fast_path docs m stem = Some d ->
  In d docs /\ m !! stem = Some (doc_url d).
Proof.
  unfold fast_path. destruct (m !! stem) as [u|]; [|done].
  intros Hd. unfold first_with_url in Hd.
  apply find_some in Hd as [Hin Hu]. apply String.eqb_eq in Hu.
  by rewrite Hu.
Qed.

Lemma selection_candidate docs line d :
  selection docs line = Some d -> In d docs.
Proof.
  unfold selection. destruct (Py.int _) as [idx|]; [|done].
  apply getitem_elem_of.
Qed.

(** Every way a call of the resolver can end, in terms of what it was
    given. *)
Lemma resolve_document_inv stem docs m w r w' :
  resolve_document stem docs m w = (r, w') ->
  match r with
  | Ok (Some id, m') =>
      (exists d, fast_path docs m stem = Some d /\ id = doc_document_id d
                 /\ m' = m /\ w' = w)
      \/ (fast_path docs m stem = None
          /\ exists line rest d,
               w_stdin w = line :: rest /\ w_stdin w' = rest
               /\ selection docs line = Some d /\ id = doc_document_id d
               /\ m' = <[stem := doc_url d]> m
               /\ w_mapping_file w' = Some (mapping_text m'))
  | Ok (None, m') =>
      fast_path docs m stem = None /\ m' = m
      /\ w_mapping_file w' = w_mapping_file w
      /\ exists line rest,
           w_stdin w = line :: rest /\ w_stdin w' = rest
           /\ (Py.lower (Py.strip line) = "s" \/ selection docs line = None)
  | Raise e =>
      e = EOFError /\ fast_path docs m stem = None
      /\ w_stdin w = [] /\ w_stdin w' = []
      /\ w_mapping_file w' = w_mapping_file w
  end.
Proof.
  destruct (fast_path docs m stem) as [d|] eqn:Hfast.
  { rewrite (resolve_document_fast stem docs m d w Hfast).
    intros [= <- <-]. left. by exists d. }
  rewrite (resolve_document_prompt stem docs m w Hfast).
  destruct (w_stdin w) as [|line rest] eqn:Hin.
  - rewrite assign_interactively_eof by (by destruct w).
    intros [= <- <-]. by destruct w.
  - rewrite (assign_interactively_line stem docs m _ line rest)
      by (by destruct w).
    cbv zeta. destruct (String.eqb _ "s") eqn:Hs.
    { intros [= <- <-]. apply String.eqb_eq in Hs.
      split; [done|]. split; [done|]. split; [by destruct w|].
      exists line, rest. split; [done|]. split; [by destruct w|]. by left. }
    destruct (selection docs line) as [d|] eqn:Hsel.
    + intros [= <- <-]. right. split; [done|]. exists line, rest, d.
      split; [done|]. split; [by destruct w|]. split; [done|].
      split; [done|]. split; [done|]. by destruct w.
    + intros [= <- <-]. split; [done|]. split; [done|].
      split; [by destruct w|].
      exists line, rest. split; [done|]. split; [by destruct w|]. by right.
Qed.

(** X6: whenever [resolve_document] (lines 84-119) returns a document
    identifier, it is the identifier of one of the candidates it was
    given, and the dictionary it leaves maps the stem to that candidate's
    locator; the dictionary is then either the one it was given or the
    one mapping.json now holds. *)
Theorem resolve_document_returns_a_mapped_candidate
    stem docs mapping w id mapping' w' :
  resolve_document stem docs mapping w = (Ok (Some id, mapping'), w') ->
  exists d,
    In d docs /\ id = doc_document_id d
    /\ mapping' !! stem = Some (doc_url d)
    /\ (mapping' = mapping /\ w' = w
        \/ mapping !! stem <> Some (doc_url d)
           /\ w_mapping_file w' = Some (mapping_text mapping')).
Proof.
  intros Hres. apply resolve_document_inv in Hres
    as [(d & Hfast & -> & -> & ->)
       |(Hfast & line & rest & d & _ & _ & Hsel & -> & -> & Hfile)].
  - apply fast_path_candidate in Hfast as [Hin Hm]. exists d.
    split; [done|]. split; [done|]. split; [done|]. by left.
  - exists d. split; [by eapply selection_candidate|]. split; [done|].
    split; [apply lookup_insert_eq|]. right. split; [|done].
    intros Hm. unfold fast_path in Hfast. rewrite Hm in Hfast.
    apply first_with_url_None in Hfast.
    apply selection_candidate in Hsel.
    rewrite Forall_forall in Hfast.
    apply (Hfast d); [by apply list_elem_of_In | done].
Qed.

Lemma resolve_document_returns_a_mapped_candidate_witness :
  exists d,
    In d demo_docs /\ "d2" = doc_document_id d
    /\ (<[ "scan" := "u2" ]> (∅ : gmap string string)) !! "scan"
       = Some (doc_url d)
    /\ (<[ "scan" := "u2" ]> (∅ : gmap string string) = ∅
        /\ set_stdout
             (prompt_lines "scan" demo_docs
              ++ [OutMappingSaved; OutMapped "scan" "u2"])
             (set_mapping_file
                (Some (mapping_text (<[ "scan" := "u2" ]> ∅)))
                (demo_world []))
           = demo_world ["1"]
        \/ (∅ : gmap string string) !! "scan" <> Some (doc_url d)
           /\ w_mapping_file
                (set_stdout
                   (prompt_lines "scan" demo_docs
                    ++ [OutMappingSaved; OutMapped "scan" "u2"])
                   (set_mapping_file
                      (Some (mapping_text (<[ "scan" := "u2" ]> ∅)))
                      (demo_world [])))
              = Some (mapping_text (<[ "scan" := "u2" ]> ∅))).
Proof.
  apply (resolve_document_returns_a_mapped_candidate
           "scan" demo_docs ∅ (demo_world ["1"]) "d2").
  reflexivity.
Defined.

(** What a call of the resolver leaves alone. *)
Lemma resolve_document_footprint stem docs m w r w' :
  resolve_document stem docs m w = (r, w') ->
  (exists taken,
     w_stdin w = taken ++ w_stdin w' /\ (length taken <= 1)%nat
     /\ (fast_path docs m stem <> None -> taken = []))
  /\ match r with
     | Ok (res, m') =>
         (forall k, k <> stem -> m' !! k = m !! k)
         /\ (forall k u, m' !! k = Some u ->
               m !! k = Some u \/ exists d, In d docs /\ doc_url d = u)
         /\ (m' = m /\ w_mapping_file w' = w_mapping_file w
             \/ w_mapping_file w' = Some (mapping_text m'))
         /\ (res = None -> m' = m /\ w_mapping_file w' = w_mapping_file w)
     | Raise e => e = EOFError /\ w_mapping_file w' = w_mapping_file w
     end.
Proof.
  intros Hres. apply resolve_document_inv in Hres.
  destruct r as [[[id|] m']|e].
  - destruct Hres as [(d & Hfast & -> & -> & ->)
                     |(Hfast & line & rest & d & Hin & Hin' & Hsel & -> & -> & Hf)].
    + split; [exists []; split; [done|]; split; [simpl; lia | done]|].
      split; [done|]. split; [auto|].
      split; [by left | done].
    + split.
      { exists [line]. rewrite Hin, Hin'. split; [done|]. split; [simpl; lia|].
        by intros []. }
      split; [intros k Hk; by apply lookup_insert_ne|]. split.
      { intros k u. destruct (decide (k = stem)) as [->|Hk].
        - rewrite lookup_insert_eq. intros [= <-]. right. exists d.
          split; [by eapply selection_candidate | done].
        - rewrite lookup_insert_ne by done. auto. }
      split; [by right | done].
  - destruct Hres as (Hfast & -> & Hf & line & rest & Hin & Hin' & _).
    split.
    { exists [line]. rewrite Hin, Hin'. split; [done|]. split; [simpl; lia|].
      by intros []. }
    split; [done|]. split; [auto|]. split; [by left | done].
  - destruct Hres as (-> & Hfast & Hin & Hin' & Hf).
    split; [|done]. exists []. rewrite Hin, Hin'.
    split; [done|]. split; [simpl; lia | done].
Qed.



(* ===================================================================== *)
(** ** One file of the loop, in terms of its effects *)
(* ===================================================================== *)

Section FileEffects.
Context `{Libs}.

(** What a file does to the input and to mapping.json is what its call of
    the resolver does. *)
Lemma sync_file_io a docs ts pdf m t w r w' :
  sync_file a docs ts pdf (m, t) w = (r, w') ->
  exists r0 w1,
    resolve_document (stem_of (entry_name pdf)) docs m (announced a pdf w)
    = (r0, w1)
    /\ w_stdin w' = w_stdin w1
    /\ w_mapping_file w' = w_mapping_file w1
    /\ match r with
       | Ok (m', t') => exists res, r0 = Ok (res, m')
       | Raise e =>
           r0 = Raise e
           \/ exists res m1,
                r0 = Ok (res, m1) /\ e = OSError
                /\ Py.truthy res = true /\ entry_bytes pdf = None
       end.
Proof.
  destruct (sync_file_cases a docs ts pdf m t w) as (r0 & w1 & Hres & ->).
  intros Hr. exists r0, w1. split; [done|].
  destruct r0 as [[r1 m1]|e].
  2:{ injection Hr as <- <-. auto. }
  destruct (Py.truthy r1) eqn:Ht.
  2:{ injection Hr as <- <-. split; [by destruct w1|].
      split; [by destruct w1|]. by exists r1. }
  destruct (entry_bytes pdf) as [bytes|] eqn:Hb.
  2:{ injection Hr as <- <-. split; [done|]. split; [done|].
      right. by exists r1, m1. }
  destruct (arg_dry_run a).
  { injection Hr as <- <-. split; [by destruct w1|].
    split; [by destruct w1|]. by exists r1. }
  cbv zeta in Hr.
  destruct (Sql.upsert _ (pending (w_db w1))) as [rows [cid ins]].
  injection Hr as <- <-. split; [done|]. split; [done|]. by exists r1.
Qed.

(** What a file does to the table, to the identifiers drawn and to the
    counters: nothing but one more skip (or, in a dry run, one more
    would-be insert), or one upsert of a row built by the script, which is
    committed and counted. *)
Lemma sync_file_effect a docs ts pdf m t w r w' :
  sync_file a docs ts pdf (m, t) w = (r, w') ->
  (w_db w' = w_db w /\ w_uuid_draws w' = w_uuid_draws w
   /\ match r with
      | Ok (_, t') =>
          t' = Tally (inserted t) (updated t) (S (skipped t))
          \/ arg_dry_run a = true
             /\ t' = Tally (S (inserted t)) (updated t) (skipped t)
      | Raise _ => True
      end)
  \/ (arg_dry_run a = false
      /\ exists id doc_id hash_val m',
           let new := new_row id doc_id ts (rel_path a pdf) hash_val in
           pending (w_db w') = (Sql.upsert new (pending (w_db w))).1
           /\ committed (w_db w') = pending (w_db w')
           /\ w_uuid_draws w' = S (w_uuid_draws w)
           /\ r = Ok (m', if (Sql.upsert new (pending (w_db w))).2.2
                          then Tally (S (inserted t)) (updated t) (skipped t)
                          else Tally (inserted t) (S (updated t)) (skipped t))).
Proof.
  destruct (sync_file_cases a docs ts pdf m t w) as (r0 & w1 & Hres & ->).
  apply resolve_document_frame in Hres as (Hdb & Hn & _).
  assert (Hdb0 : w_db w1 = w_db w) by (by destruct w).
  assert (Hn0 : w_uuid_draws w1 = w_uuid_draws w) by (by destruct w).
  clear Hdb Hn.
  destruct r0 as [[r1 m1]|e].
  2:{ intros [= <- <-]. by left. }
  destruct (Py.truthy r1).
  2:{ intros [= <- <-]. left. split; [by destruct w1|].
      split; [by destruct w1|]. by left. }
  destruct (entry_bytes pdf) as [bytes|].
  2:{ intros [= <- <-]. by left. }
  destruct (arg_dry_run a).
  { intros [= <- <-]. left. split; [by destruct w1|].
    split; [by destruct w1|]. by right. }
  cbv zeta.
  destruct (Sql.upsert _ (pending (w_db w1))) as [rows [cid ins]] eqn:Hup.
  intros [= <- <-]. right. split; [done|].
  eexists _, _, _, m1. cbv zeta. world_simpl.
  rewrite <- Hdb0, <- Hn0, Hup. done.
Qed.

End FileEffects.

Lemma skip_signal_selects_nothing docs line :
  Py.lower (Py.strip line) = "s" -> selection docs line = None.
Proof. unfold selection. by intros ->. Qed.

(** X8: a file the user declines at the prompt, by the skip signal or by
    an answer that selects no candidate, is counted as skipped and is not
    opened: the loop (lines 184-188) ends the iteration before hashing,
    so this holds for an unreadable file too, in a dry run and in a real
    one, and leaves the table, mapping.json and the identifiers alone. *)
Theorem declined_file_is_skipped_unread `{Libs}
    a docs ts pdf mapping t w line rest :
  fast_path docs mapping (stem_of (entry_name pdf)) = None ->
  w_stdin w = line :: rest ->
  Py.lower (Py.strip line) = "s" \/ selection docs line = None ->
  exists w',
    sync_file a docs ts pdf (mapping, t) w
    = (Ok (mapping, Tally (inserted t) (updated t) (S (skipped t))), w')
    /\ w_db w' = w_db w
    /\ w_uuid_draws w' = w_uuid_draws w
    /\ w_mapping_file w' = w_mapping_file w
    /\ w_stdin w' = rest
    /\ last (w_stdout w') = Some OutSkipped.
Proof.
  intros Hfast Hin Hline.
  assert (Hsel : selection docs line = None).
  { destruct Hline; [by apply skip_signal_selects_nothing | done]. }
  destruct (resolve_document (stem_of (entry_name pdf)) docs mapping
              (announced a pdf w)) as [r0 w1] eqn:Hres.
  assert (Hin0 : w_stdin (announced a pdf w) = line :: rest)
    by (by destruct w).
  destruct (resolve_document_frame _ _ _ _ _ _ Hres) as (Hdb & Hn & _).
  pose proof (resolve_document_inv _ _ _ _ _ _ Hres) as Hinv.
  destruct r0 as [[[id|] m1]|e].
  - destruct Hinv as [(d & Hd & _)|(_ & l & rs & d & Hl & _ & Hd & _)];
      congruence.
  - destruct Hinv as (_ & -> & Hf & l & rs & Hl & Hrs & _).
    exists (set_stdout (w_stdout w1 ++ [OutSkipped]) w1).
    split; [by apply (sync_file_skipped a docs ts pdf mapping t w None)|].
    split; [rewrite <- (f_equal _ Hdb); by destruct w1, w|].
    split; [by destruct w1, w|]. split; [by destruct w1, w|].
    split; [destruct w1, w; simpl in *; congruence|].
    destruct w1. simpl. apply last_snoc.
  - destruct Hinv as (_ & _ & Hnil & _). congruence.
Qed.

Lemma declined_file_is_skipped_unread_witness :
  exists w',
    sync_file (H := demo_libs) (demo_args false) demo_docs "ts"
      (DirEntry "scan.pdf" None) (∅, Tally 0 0 0) (demo_world ["9"])
    = (Ok (∅, Tally 0 0 1), w')
    /\ w_db w' = w_db (demo_world ["9"])
    /\ w_uuid_draws w' = 0%nat
    /\ w_mapping_file w' = None
    /\ w_stdin w' = []
    /\ last (w_stdout w') = Some OutSkipped.
Proof.
  apply (declined_file_is_skipped_unread (H := demo_libs) (demo_args false)
           demo_docs "ts" (DirEntry "scan.pdf" None) ∅ (Tally 0 0 0)
           (demo_world ["9"]) "9" []).
  - reflexivity.
  - reflexivity.
  - right. reflexivity.
Defined.

(* ===================================================================== *)
(** ** A run, case by case *)
(* ===================================================================== *)

Section RunShape.
Context `{Libs}.

(** The exit status and the final world of a run, by the checks of
    [main] in the order the source makes them. *)
Lemma run_eq a w :
  run a w
  = match w_database_url w with
    | EmptyString => (1, set_stdout (w_stdout w ++ [OutNoDatabaseUrl]) w)
    | _ =>
        match w_date_dir w with
        | None => (1, set_stdout (w_stdout w ++ [OutFolderNotFound]) w)
        | Some entries =>
            match glob_pdfs entries with
            | [] => (0, set_stdout (w_stdout w ++ [OutNoPdfs]) w)
            | pdfs =>
                let w0 := started a pdfs w in
                match read_mapping (w_mapping_file w) with
                | None =>
                    (1, set_stdout (w_stdout w0 ++ [OutError]) (dropped w0))
                | Some m =>
                    match catalog (w_db w) (arg_site a) with
                    | [] =>
                        (1, dropped
                              (set_stdout (w_stdout w0 ++ [OutNoDocuments])
                                          w0))
                    | docs =>
                        match sync_files a docs
                                (arg_date a +:+ "T12:00:00+00:00") pdfs
                                (m, Tally 0 0 0) w0 with
                        | (Ok st, w1) =>
                            (0, set_stdout (w_stdout w1 ++ [summary a st.2])
                                           (dropped w1))
                        | (Raise e, w1) =>
                            (1, set_stdout (w_stdout w1 ++ [OutError])
                                           (dropped w1))
                        end
                    end
                end
            end
        end
    end.
Proof.
  pose proof (main_setup_eq a w) as Hs.
  destruct (w_database_url w) as [|c url]; [by apply run_setup_fails in Hs|].
  destruct (w_date_dir w) as [entries|]; [|by apply run_setup_fails in Hs].
  destruct (glob_pdfs entries) as [|pdf pdfs] eqn:Hglob;
    [by apply run_setup_fails in Hs|].
  cbv zeta.
  set (w0 := started a (pdf :: pdfs) w) in *.
  pose proof (main_try_eq a (pdf :: pdfs) w0) as Ht.
  assert (Hf : w_mapping_file w0 = w_mapping_file w) by (by destruct w).
  assert (Hc : catalog (w_db w0) (arg_site a) = catalog (w_db w) (arg_site a)).
  { apply catalog_ext; by destruct w as [? ? ? [] ? ? ?]. }
  rewrite Hf, Hc in Ht.
  destruct (read_mapping (w_mapping_file w)) as [m|].
  2:{ by apply (run_exception a w _ _ _ _ Hs Ht). }
  destruct (catalog (w_db w) (arg_site a)) as [|d docs].
  { by apply (run_exit a w _ _ _ _ Hs Ht). }
  destruct (sync_files _ _ _ _ _ w0) as [[st|e] w1] eqn:Hsync.
  - by apply (run_completes a w _ _ _ _ Hs Ht).
  - apply (run_exception a w _ _ _ _ Hs Ht).
    by apply sync_files_raises in Hsync.
Qed.

End RunShape.

(** X9: a run ends with status 0 or 1, and with 0 exactly when
    DATABASE_URL is set, the date folder exists and either holds no PDF
    or mapping.json loads, the site has documents and the loop reaches
    the end of the file list (lines 138-245). *)
Theorem run_exit_status `{Libs} a w :
  ((run a w).1 = 0 \/ (run a w).1 = 1)
  /\ ((run a w).1 = 0
      <-> w_database_url w <> EmptyString
          /\ exists entries,
               w_date_dir w = Some entries
               /\ (glob_pdfs entries = []
                   \/ exists m st w1,
                        read_mapping (w_mapping_file w) = Some m
                        /\ catalog (w_db w) (arg_site a) <> []
                        /\ sync_files a (catalog (w_db w) (arg_site a))
                             (arg_date a +:+ "T12:00:00+00:00")
                             (glob_pdfs entries) (m, Tally 0 0 0)
                             (started a (glob_pdfs entries) w)
                           = (Ok st, w1))).
Proof.
  rewrite run_eq.
  destruct (w_database_url w) as [|c url].
  { split; [by right|]. split; [done | by intros [? _]]. }
  destruct (w_date_dir w) as [entries|].
  2:{ split; [by right|]. split; [done | by intros (_ & ? & ? & _)]. }
  destruct (glob_pdfs entries) as [|pdf pdfs] eqn:Hglob.
  { split; [by left|]. split; [|done]. intros _. split; [done|].
    exists entries. split; [done | by left]. }
  cbv zeta. destruct (read_mapping (w_mapping_file w)) as [m|].
  2:{ split; [by right|]. split; [done|].
      intros (_ & ? & [= <-] & [? | (? & ? & ? & ? & _)]); congruence. }
  destruct (catalog (w_db w) (arg_site a)) as [|d docs] eqn:Hcat.
  { split; [by right|]. split; [done|].
    intros (_ & ? & [= <-] & [? | (? & ? & ? & ? & ? & _)]); congruence. }
  destruct (sync_files _ _ _ _ _ _) as [[st|e] w1] eqn:Hsync.
  - split; [by left|]. split; [|done]. intros _. split; [done|].
    exists entries. split; [done|]. right. exists m, st, w1.
    by rewrite Hglob.
  - split; [by right|]. split; [done|].
    intros (_ & ? & [= <-] & [? | (? & ? & ? & [= <-] & _ & Hok)]);
      [congruence|].
    rewrite Hglob in Hok. congruence.
Qed.

Lemma glob_pdfs_nil entries :
  glob_pdfs entries = []
  <-> forall e s, In e entries -> entry_name e <> s +:+ ".pdf".
Proof.
  split.
  - intros Hnil e s He Hs.
    assert (Hin : In e (glob_pdfs entries)) by (apply glob_pdfs_elem; eauto).
    by rewrite Hnil in Hin.
  - intros Hno. destruct (glob_pdfs entries) as [|e l] eqn:Hglob; [done|].
    assert (Hin : In e (glob_pdfs entries)) by (rewrite Hglob; by left).
    apply glob_pdfs_elem in Hin as (He & s & Hs). by destruct (Hno e s).
Qed.

(** X10: the checks [main] makes first (lines 140-156) end the run with one
    console line and nothing else done: status 1 when DATABASE_URL is
    unset, whatever the folder holds; status 1 when the date folder is
    missing; status 0 when no entry of the folder ends in ".pdf". *)
Theorem failed_checks_end_the_run_untouched `{Libs} a w :
  (w_database_url w = EmptyString ->
   run a w = (1, set_stdout (w_stdout w ++ [OutNoDatabaseUrl]) w))
  /\ (w_database_url w <> EmptyString -> w_date_dir w = None ->
      run a w = (1, set_stdout (w_stdout w ++ [OutFolderNotFound]) w))
  /\ (forall entries,
        w_database_url w <> EmptyString -> w_date_dir w = Some entries ->
        (forall e s, In e entries -> entry_name e <> s +:+ ".pdf") ->
        run a w = (0, set_stdout (w_stdout w ++ [OutNoPdfs]) w)).
Proof.
  rewrite run_eq. split; [by intros ->|]. split.
  - intros Hurl ->. by destruct (w_database_url w).
  - intros entries Hurl -> Hno%glob_pdfs_nil. rewrite Hno.
    by destruct (w_database_url w).
Qed.



(* ===================================================================== *)
(** ** Invariants of the loop *)
(* ===================================================================== *)



Section LoopProperties.
Context `{Libs}.

(** A property of the loop state and the world that every file keeps
    holds when the loop ends, however it ends. *)
Lemma sync_files_inv a docs ts
    (Q : gmap string string * tally -> world -> Prop) (QR : world -> Prop)
    pdfs st w r w' :
  (forall pdf st w r w',
      In pdf pdfs -> Q st w ->
      sync_file a docs ts pdf st w = (r, w') ->
      match r with Ok st' => Q st' w' | Raise _ => QR w' end) ->
  Q st w ->
  sync_files a docs ts pdfs st w = (r, w') ->
  match r with Ok st' => Q st' w' | Raise _ => QR w' end.
Proof.
  revert st w. induction pdfs as [|pdf pdfs IH]; intros st w Hstep HQ.
  - by intros [= <- <-].
  - cbn [sync_files]. unfold bind.
    destruct (sync_file a docs ts pdf st w) as [[st1|e] w1] eqn:Hf.
    + apply IH.
      * intros pdf' st' w2 r' w2' Hin. apply Hstep. by right.
      * apply (Hstep pdf st w (Ok st1) w1); [by left | done | done].
    + intros [= <- <-].
      apply (Hstep pdf st w (Raise e) w1); [by left | done | done].
Qed.

(** Every file is counted once. *)
Lemma sync_files_count a docs ts pdfs m t w m' t' w' :
  sync_files a docs ts pdfs (m, t) w = (Ok (m', t'), w') ->
  (inserted t' + updated t' + skipped t'
   = inserted t + updated t + skipped t + length pdfs)%nat.
Proof.
  revert m t w. induction pdfs as [|pdf pdfs IH]; intros m t w.
  - intros [= <- <- <-]. simpl. lia.
  - cbn [sync_files length]. unfold bind.
    destruct (sync_file a docs ts pdf (m, t) w) as [[[m1 t1]|e] w1] eqn:Hf;
      [|done].
    intros Hrest%IH. rewrite Hrest.
    apply sync_file_effect in Hf
      as [(_ & _ & [-> | [_ ->]])|(_ & id & d & h & m2 & _ & _ & _ & Hr)].
    + simpl. lia.
    + simpl. lia.
    + injection Hr as _ ->. destruct (Sql.upsert _ _).2.2; simpl; lia.
Qed.

(** In a real run the table grows by the inserts, and one identifier is
    drawn for every insert and every update. *)
Lemma sync_files_accounting a docs ts pdfs m t w m' t' w' :
  arg_dry_run a = false ->
  pending (w_db w) = committed (w_db w) ->
  sync_files a docs ts pdfs (m, t) w = (Ok (m', t'), w') ->
  pending (w_db w') = committed (w_db w')
  /\ (length (committed (w_db w')) + inserted t
      = length (committed (w_db w)) + inserted t')%nat
  /\ (w_uuid_draws w' + inserted t + updated t
      = w_uuid_draws w + inserted t' + updated t')%nat.
Proof.
  intros Hdry Hpc Hsync.
  apply (sync_files_inv a docs ts
           (fun st x =>
              pending (w_db x) = committed (w_db x)
              /\ (length (committed (w_db x)) + inserted t
                  = length (committed (w_db w)) + inserted st.2)%nat
              /\ (w_uuid_draws x + inserted t + updated t
                  = w_uuid_draws w + inserted st.2 + updated st.2)%nat)
           (fun _ => True)) in Hsync; [done| |done].
  clear Hpc. intros pdf [m1 t1] x r x' _ (Hpc & Hlen & Hn) Hf.
  destruct r as [[m2 t2]|e]; [|done].
  apply sync_file_effect in Hf
    as [(Hdb & Hn' & [-> | [Hd ->]])
       |(_ & id & d & h & m3 & Hp & Hc & Hn' & Hr)].
  - rewrite Hdb, Hn'. by cbn [snd inserted updated].
  - congruence.
  - cbv zeta in *. injection Hr as _ ->.
    rewrite Hc, Hp, Hn'. split; [done|].
    rewrite upsert_length, Hpc.
    destruct (Sql.upsert _ _).2.2; cbn [snd inserted updated] in *; lia.
Qed.

End LoopProperties.

(* ===================================================================== *)
(** ** What a run does to the table, the input and mapping.json *)
(* ===================================================================== *)

Section RunProperties.
Context `{Libs}.

Lemma started_pending a pdfs w :
  pending (w_db (started a pdfs w)) = committed (w_db (started a pdfs w)).
Proof. by destruct w as [? ? ? [] ? ? ?]. Qed.

(** A property of the world that printing and dropping the open
    transaction keep, and that the loop keeps from the world in which it
    starts, holds at the end of every run. *)
Lemma run_world_inv a w (P : world -> Prop) :
  P w ->
  (forall x o, P x -> P (set_stdout o x)) ->
  (forall x, P x -> P (dropped x)) ->
  (forall entries m r w1,
      w_date_dir w = Some entries ->
      read_mapping (w_mapping_file w) = Some m ->
      P (started a (glob_pdfs entries) w) ->
      sync_files a (catalog (w_db w) (arg_site a))
        (arg_date a +:+ "T12:00:00+00:00") (glob_pdfs entries)
        (m, Tally 0 0 0) (started a (glob_pdfs entries) w)
      = (r, w1) ->
      P w1) ->
  P (run a w).2.
Proof.
  intros Hw Hout Hdrop Hloop. rewrite run_eq.
  destruct (w_database_url w) as [|c url]; [by apply Hout|].
  destruct (w_date_dir w) as [entries|] eqn:Hdir; [|by apply Hout].
  destruct (glob_pdfs entries) as [|pdf pdfs] eqn:Hglob; [by apply Hout|].
  cbv zeta.
  assert (H0 : P (started a (pdf :: pdfs) w)).
  { unfold started. by apply Hdrop, Hout. }
  destruct (read_mapping (w_mapping_file w)) as [m|] eqn:Hm.
  2:{ by apply Hout, Hdrop. }
  destruct (catalog (w_db w) (arg_site a)) as [|d docs] eqn:Hcat.
  { by apply Hdrop, Hout. }
  specialize (Hloop entries m). rewrite Hglob in Hloop.
  destruct (sync_files _ _ _ _ _ _) as [[st|e] w1] eqn:Hsync;
    apply Hout, Hdrop; by eapply Hloop.
Qed.




(** mapping.json and the dictionary through the loop: entries of other
    stems stay, and every locator is a loaded one or a candidate's. *)
Lemma sync_files_mapping a docs ts pdfs (m0 : gmap string string) file0
    m t w r w' :
  let keeps (m' : gmap string string) :=
    (forall k, ~ In k (stems pdfs) -> m' !! k = m0 !! k)
    /\ (forall k u, m' !! k = Some u ->
          m0 !! k = Some u \/ exists d, In d docs /\ doc_url d = u) in
  let saved (x : world) :=
    w_mapping_file x = file0
    \/ exists m', w_mapping_file x = Some (mapping_text m') /\ keeps m' in
  keeps m -> saved w ->
  sync_files a docs ts pdfs (m, t) w = (r, w') ->
  saved w'.
Proof.
  intros keeps saved Hm Hw Hsync.
  assert (HQ : match r with
               | Ok st' => keeps st'.1 /\ saved w'
               | Raise _ => saved w'
               end).
  { apply (sync_files_inv a docs ts (fun st x => keeps st.1 /\ saved x)
             saved pdfs (m, t) w r w'); [|done|done].
    clear Hsync Hm Hw. intros pdf [m1 t1] x r1 x' Hin [Hm Hx] Hf.
    apply sync_file_io in Hf as (r0 & x1 & Hres & _ & Hfile & Hr).
    apply resolve_document_footprint in Hres as [_ Hres].
    assert (Hx0 : w_mapping_file (announced a pdf x) = w_mapping_file x)
      by (by destruct x).
    assert (Hstep : forall res m2,
              r0 = Ok (res, m2) -> keeps m2 /\ saved x').
    { intros res m2 ->. destruct Hres as (Hk & Hu & Hf & _).
      assert (Hm2 : keeps m2).
      { split.
        - intros k Hnot. rewrite Hk; [by apply Hm|].
          intros ->. apply Hnot.
          by apply (in_map (fun pdf => stem_of (entry_name pdf))).
        - intros k u Hku. apply Hu in Hku as [Hku|Hku]; [|by right].
          by apply Hm in Hku. }
      split; [done|]. unfold saved. rewrite Hfile.
      destruct Hf as [[-> Hf]|Hf].
      - by rewrite Hf, Hx0.
      - right. by exists m2. }
    destruct r1 as [[m2 t2]|e].
    - destruct Hr as [res ->]. by apply (Hstep res).
    - destruct Hr as [-> | (res & m2 & Hr0 & _)].
      + destruct Hres as [_ Hf]. unfold saved. by rewrite Hfile, Hf, Hx0.
      + by apply (Hstep res m2). }
  destruct r; [by destruct HQ | done].
Qed.

End RunProperties.

(** X12: a real run that ends with status 0 over a folder holding PDFs
    ends on the summary line, whose three counters add up to the number
    of files; the table has grown by exactly the number of inserts it
    reports, and one identifier was drawn for every insert and every
    update, the one drawn for an update being discarded (lines 176-245). *)
Theorem real_run_accounts_for_every_file `{Libs} a w entries :
  arg_dry_run a = false ->
  w_date_dir w = Some entries ->
  glob_pdfs entries <> [] ->
  (run a w).1 = 0 ->
  exists i u s,
    last (w_stdout (run a w).2) = Some (OutSummary i u s)
    /\ (i + u + s)%nat = length (glob_pdfs entries)
    /\ length (committed (w_db (run a w).2))
       = (length (committed (w_db w)) + i)%nat
    /\ w_uuid_draws (run a w).2 = (w_uuid_draws w + i + u)%nat.
Proof.
  intros Hdry Hdir Hglob. rewrite run_eq, Hdir.
  destruct (w_database_url w) as [|c url]; [done|].
  destruct (glob_pdfs entries) as [|pdf pdfs] eqn:Hg; [done|]. cbv zeta.
  destruct (read_mapping (w_mapping_file w)) as [m|]; [|done].
  destruct (catalog (w_db w) (arg_site a)) as [|d docs]; [done|].
  destruct (sync_files _ _ _ _ _ _) as [[[m' t']|e] w1] eqn:Hsync; [|done].
  intros _. exists (inserted t'), (updated t'), (skipped t').
  pose proof (sync_files_count _ _ _ _ _ _ _ _ _ _ Hsync) as Hcount.
  pose proof (sync_files_accounting _ _ _ _ _ _ _ _ _ _ Hdry
                (started_pending _ _ _) Hsync) as (_ & Hlen & Hn).
  assert (Hc0 : committed (w_db (started a (pdf :: pdfs) w))
                = committed (w_db w)) by (by destruct w as [? ? ? [] ? ? ?]).
  assert (Hn0 : w_uuid_draws (started a (pdf :: pdfs) w) = w_uuid_draws w)
    by (by destruct w as [? ? ? [] ? ? ?]).
  rewrite Hc0 in Hlen. rewrite Hn0 in Hn.
  cbn [inserted updated skipped] in Hcount, Hlen, Hn.
  split.
  { destruct w1. cbn. unfold summary. rewrite Hdry. apply last_snoc. }
  split; [cbn [length] in *; lia|].
  split; [destruct w1 as [? ? ? [] ? ? ?]; cbn in *; lia|].
  destruct w1 as [? ? ? [] ? ? ?]; cbn in *; lia.
Qed.

Lemma real_run_accounts_for_every_file_witness :
  let w := sync_world (Some "x") (Some "x") None
             [new_row "id9" "d1" "then" "elsewhere" "0AX"] ["0"; "s"] in
  exists i u s,
    last (w_stdout (run (H := demo_libs) (demo_args false) w).2)
    = Some (OutSummary i u s)
    /\ (i + u + s)%nat = 2%nat
    /\ length (committed (w_db (run (H := demo_libs) (demo_args false) w).2))
       = (1 + i)%nat
    /\ w_uuid_draws (run (H := demo_libs) (demo_args false) w).2
       = (0 + i + u)%nat.
Proof.
  apply (real_run_accounts_for_every_file (H := demo_libs) (demo_args false)
           (sync_world (Some "x") (Some "x") None
              [new_row "id9" "d1" "then" "elsewhere" "0AX"] ["0"; "s"])
           [DirEntry "b.pdf" (Some "x"); DirEntry "notes.txt" None;
            DirEntry "a.pdf" (Some "x")]).
  - reflexivity.
  - reflexivity.
  - by vm_compute.
  - by vm_compute.
Defined.



(** X15: at the end of a run mapping.json is either as it was or holds a
    dictionary written by [save_mapping] that agrees with the dictionary
    loaded at the start on every stem that is not the stem of a file of
    the folder, and in which every locator was either loaded or is the
    locator of a document of the site: no entry of another file is lost
    or altered, whichever way the run ends. *)
Theorem run_keeps_the_entries_of_other_stems `{Libs} a w :
  w_mapping_file (run a w).2 = w_mapping_file w
  \/ exists entries m0 m',
       w_date_dir w = Some entries
       /\ read_mapping (w_mapping_file w) = Some m0
       /\ w_mapping_file (run a w).2 = Some (mapping_text m')
       /\ (forall k, ~ In k (stems (glob_pdfs entries)) ->
             m' !! k = m0 !! k)
       /\ (forall k u, m' !! k = Some u ->
             m0 !! k = Some u
             \/ exists d, In d (catalog (w_db w) (arg_site a))
                          /\ doc_url d = u).
Proof.
  apply (run_world_inv a w (fun x =>
    w_mapping_file x = w_mapping_file w
    \/ exists entries m0 m',
         w_date_dir w = Some entries
         /\ read_mapping (w_mapping_file w) = Some m0
         /\ w_mapping_file x = Some (mapping_text m')
         /\ (forall k, ~ In k (stems (glob_pdfs entries)) ->
               m' !! k = m0 !! k)
         /\ (forall k u, m' !! k = Some u ->
               m0 !! k = Some u
               \/ exists d, In d (catalog (w_db w) (arg_site a))
                            /\ doc_url d = u))).
  - by left.
  - intros x o Hx. by destruct x.
  - intros x Hx. by destruct x.
  - intros entries m r w1 Hdir Hm _ Hsync.
    apply sync_files_mapping with (m0 := m) (file0 := w_mapping_file w)
      in Hsync.
    + destruct Hsync as [Hf | (m' & Hf & Hk & Hu)]; [by left|].
      right. by exists entries, m, m'.
    + split; [done | by left].
    + left. by destruct w.
Qed.

(** X16: after a real run over a folder whose files are all mapped and
    readable, on a table that respects the uniqueness constraint, the
    table holds exactly one row for the document and the digest of each
    file: files with the same bytes that are mapped to the same document
    share that one row (the conflict target of line 212). *)
Theorem processed_files_have_exactly_one_row `{Libs} a w entries mapping :
  unique_keys (committed (w_db w)) ->
  arg_dry_run a = false ->
  w_database_url w <> EmptyString ->
  w_date_dir w = Some entries ->
  glob_pdfs entries <> [] ->
  read_mapping (w_mapping_file w) = Some mapping ->
  forallb (fun pdf => ready (catalog (w_db w) (arg_site a)) mapping
                        (stem_of (entry_name pdf)) pdf)
          (glob_pdfs entries) = true ->
  Forall (fun pdf =>
            exists d bytes,
              fast_path (catalog (w_db w) (arg_site a)) mapping
                        (stem_of (entry_name pdf)) = Some d
              /\ entry_bytes pdf = Some bytes
              /\ count_key (doc_document_id d) (Py.upper (hexdigest bytes))
                           (committed (w_db (run a w).2)) = 1%nat)
         (glob_pdfs entries).
Proof.
  intros Hu Hdry Hurl Hdir Hglob Hm Hready.
  destruct (run_ready_real a w entries mapping Hdry Hurl Hdir Hglob Hm Hready)
    as (t & w' & Hrun & _ & _ & _ & _ & Hst & _).
  pose proof (run_unique a w Hu) as Hu'. rewrite Hrun in *.
  cbn [snd] in *.
  eapply Forall_impl; [exact Hst|].
  intros pdf (d & bytes & Hf & Hb & Hc). exists d, bytes.
  split; [done|]. split; [done|].
  specialize (Hu' (doc_document_id d) (Py.upper (hexdigest bytes))).
  lia.
Qed.

Lemma processed_files_have_exactly_one_row_witness :
  let w := sync_world (Some "x") (Some "x")
             (Some (mapping_text (<[ "b" := "u2" ]> {[ "a" := "u1" ]})))
             [] [] in
  Forall (fun pdf =>
            exists d bytes,
              fast_path (catalog (H := demo_libs) (w_db w) "trans-allegheny")
                        (<[ "b" := "u2" ]> {[ "a" := "u1" ]})
                        (stem_of (entry_name pdf)) = Some d
              /\ entry_bytes pdf = Some bytes
              /\ count_key (doc_document_id d)
                           (Py.upper (hexdigest (Libs := demo_libs) bytes))
                           (committed
                              (w_db (run (H := demo_libs) (demo_args false) w).2))
                 = 1%nat)
         (glob_pdfs [DirEntry "b.pdf" (Some "x"); DirEntry "notes.txt" None;
                     DirEntry "a.pdf" (Some "x")]).
Proof.
  apply (processed_files_have_exactly_one_row (H := demo_libs)
           (demo_args false)
           (sync_world (Some "x") (Some "x")
              (Some (mapping_text (<[ "b" := "u2" ]> {[ "a" := "u1" ]})))
              [] [])
           [DirEntry "b.pdf" (Some "x"); DirEntry "notes.txt" None;
            DirEntry "a.pdf" (Some "x")]
           (<[ "b" := "u2" ]> {[ "a" := "u1" ]})).
  - intros d h. exact (Nat.le_0_l 1).
  - reflexivity.
  - discriminate.
  - reflexivity.
  - by vm_compute.
  - by vm_compute.
  - by vm_compute.
Defined.

Section NoInput.
Context `{Libs}.

(** With nothing to read, the loop goes on only over files that
    mapping.json resolves, and changes neither the dictionary nor the
    file. *)
Lemma sync_files_without_input a docs ts pdfs m t w r w' :
  w_stdin w = [] ->
  sync_files a docs ts pdfs (m, t) w = (r, w') ->
  w_stdin w' = [] /\ w_mapping_file w' = w_mapping_file w
  /\ match r with
     | Ok (m', _) =>
         m' = m
         /\ Forall (fun pdf =>
                      fast_path docs m (stem_of (entry_name pdf)) <> None)
                   pdfs
     | Raise _ => True
     end.
Proof.
  revert t w. induction pdfs as [|pdf pdfs IH]; intros t w Hin.
  - intros [= <- <-]. by split; [|split; [|split; [|constructor]]].
  - cbn [sync_files]. unfold bind.
    destruct (sync_file a docs ts pdf (m, t) w) as [r1 w1] eqn:Hf.
    apply sync_file_io in Hf as (r0 & x & Hres & Hin1 & Hfile1 & Hr1).
    assert (Hin0 : w_stdin (announced a pdf w) = []) by (by destruct w).
    assert (Hfile0 : w_mapping_file (announced a pdf w) = w_mapping_file w)
      by (by destruct w).
    pose proof (resolve_document_inv _ _ _ _ _ _ Hres) as Hinv.
    assert (Hx : w_stdin x = [] /\ w_mapping_file x = w_mapping_file w
                 /\ forall res m', r0 = Ok (res, m') ->
                      m' = m
                      /\ fast_path docs m (stem_of (entry_name pdf)) <> None).
    { destruct r0 as [[[id|] m']|e].
      - destruct Hinv as [(d & Hd & _ & -> & ->)
                         |(_ & l & rs & _ & Hl & _)]; [|congruence].
        split; [done|]. split; [done|]. intros res m2 [= <- <-].
        by rewrite Hd.
      - destruct Hinv as (_ & _ & _ & l & rs & Hl & _). congruence.
      - destruct Hinv as (_ & _ & _ & Hnil & Hfile).
        split; [done|]. split; [congruence | done]. }
    destruct Hx as (Hxin & Hxfile & Hok).
    destruct r1 as [[m1 t1]|e].
    + destruct Hr1 as [res ->]. destruct (Hok res m1 eq_refl) as [-> Hfast].
      intros Hrest. apply IH in Hrest as (Hin' & Hfile' & Hr); [|congruence].
      split; [done|]. split; [congruence|].
      destruct r as [[m' t']|e]; [|done]. destruct Hr as [-> Hall].
      split; [done | by constructor].
    + intros [= <- <-]. split; [congruence|]. split; [congruence | done].
Qed.

End NoInput.

(** X17: a run that has nothing to read (its input is at its end) over a
    folder holding a file that mapping.json does not resolve to a
    document of the site ends with status 1: the prompt of line 106
    raises EOFError, which the handler of line 234 turns into the exit,
    unless an earlier failure has ended the run already.  mapping.json
    is left as it was. *)
Theorem run_without_input_fails_on_an_unmapped_file `{Libs}
    a w entries mapping pdf :
  w_database_url w <> EmptyString ->
  w_date_dir w = Some entries ->
  read_mapping (w_mapping_file w) = Some mapping ->
  w_stdin w = [] ->
  In pdf (glob_pdfs entries) ->
  fast_path (catalog (w_db w) (arg_site a)) mapping
            (stem_of (entry_name pdf)) = None ->
  (run a w).1 = 1
  /\ w_mapping_file (run a w).2 = w_mapping_file w
  /\ w_stdin (run a w).2 = [].
Proof.
  intros Hurl Hdir Hm Hin Hpdf Hfast. rewrite run_eq, Hdir, Hm.
  destruct (w_database_url w) as [|c url]; [done|].
  destruct (glob_pdfs entries) as [|p pdfs] eqn:Hglob; [done|]. cbv zeta.
  destruct (catalog (w_db w) (arg_site a)) as [|d docs] eqn:Hcat.
  { split; [done|]. by destruct w as [? ? ? [] ? ? ?]. }
  destruct (sync_files _ _ _ _ _ _) as [r w1] eqn:Hsync.
  apply sync_files_without_input in Hsync as (Hin1 & Hfile1 & Hr);
    [|by destruct w].
  assert (Hfile0 : w_mapping_file (started a (p :: pdfs) w)
                   = w_mapping_file w) by (by destruct w).
  destruct r as [[m' t']|e].
  - destruct Hr as [_ Hall]. rewrite Forall_forall in Hall.
    destruct (Hall pdf); [by apply list_elem_of_In | done].
  - split; [done|]. destruct w1 as [? ? ? [] ? ? ?]. simpl in *.
    split; congruence.
Qed.

Lemma run_without_input_fails_on_an_unmapped_file_witness :
  let w := sync_world (Some "x") (Some "y")
             (Some (mapping_text {[ "a" := "u1" ]})) [] [] in
  (run (H := demo_libs) (demo_args false) w).1 = 1
  /\ w_mapping_file (run (H := demo_libs) (demo_args false) w).2
     = w_mapping_file w
  /\ w_stdin (run (H := demo_libs) (demo_args false) w).2 = [].
Proof.
  apply (run_without_input_fails_on_an_unmapped_file (H := demo_libs)
           (demo_args false)
           (sync_world (Some "x") (Some "y")
              (Some (mapping_text {[ "a" := "u1" ]})) [] [])
           [DirEntry "b.pdf" (Some "y"); DirEntry "notes.txt" None;
            DirEntry "a.pdf" (Some "x")]
           {[ "a" := "u1" ]} (DirEntry "b.pdf" (Some "y"))).
  - discriminate.
  - reflexivity.
  - by vm_compute.
  - reflexivity.
  - vm_compute. by right; left.
  - by vm_compute.
Defined.

(* ===================================================================== *)
(** ** Running the sync again *)
(* ===================================================================== *)

Lemma conflicts_touch u u' r :
  Sql.conflicts u' (touch u r) = Sql.conflicts u' r.
Proof. unfold touch. by destruct (Sql.conflicts u r). Qed.

Lemma conflicts_same_request u u' r :
  same_request u u' -> Sql.conflicts u r = Sql.conflicts u' r.
Proof. intros (Hd & Hh & _). unfold Sql.conflicts. by rewrite Hd, Hh. Qed.

Lemma touch_same_request u u' r : same_request u u' -> touch u r = touch u' r.
Proof.
  intros Hsame. unfold touch.
  rewrite (conflicts_same_request u u' r Hsame).
  destruct Hsame as (_ & _ & Hp & Ht). unfold Sql.do_update.
  by rewrite Hp, Ht.
Qed.

Lemma touches_same_request news news' r :
  Forall2 same_request news news' -> touches news r = touches news' r.
Proof.
  intros Hsame. revert r.
  induction Hsame as [|u u' news news' Hu _ IH]; intros r; [done|].
  cbn [touches fold_left]. rewrite (touch_same_request u u' r Hu). apply IH.
Qed.

Lemma touches_absent news r :
  Forall (fun u => Sql.conflicts u r = false) news -> touches news r = r.
Proof.
  induction 1 as [|u news Hu _ IH]; [done|].
  cbn [touches fold_left]. unfold touch at 2. by rewrite Hu.
Qed.

Lemma do_update_fixed u r r' :
  fixed_columns r = fixed_columns r' -> Sql.do_update u r = Sql.do_update u r'.
Proof. unfold fixed_columns, Sql.do_update. intros [=]. congruence. Qed.

Lemma conflicts_fixed u r r' :
  fixed_columns r = fixed_columns r' -> Sql.conflicts u r = Sql.conflicts u r'.
Proof. unfold fixed_columns, Sql.conflicts. intros [=]. congruence. Qed.

Lemma touches_fixed news r r' :
  fixed_columns r = fixed_columns r' ->
  existsb (fun u => Sql.conflicts u r) news = true ->
  touches news r = touches news r'.
Proof.
  revert r r'. induction news as [|u news IH]; intros r r' Hfix; [done|].
  cbn [existsb touches fold_left]. unfold touch at 2 4.
  rewrite <- (conflicts_fixed u r r' Hfix).
  destruct (Sql.conflicts u r).
  - intros _. by rewrite (do_update_fixed u r r' Hfix).
  - rewrite orb_false_l. by apply IH.
Qed.

Lemma unique_keys_tail r rows : unique_keys (r :: rows) -> unique_keys rows.
Proof.
  intros Hu d h. specialize (Hu d h). unfold count_key in *.
  cbn [List.filter] in Hu. destruct (_ && _); cbn [length] in Hu; lia.
Qed.

Lemma touch_absent u rows :
  List.filter (Sql.conflicts u) rows = [] -> map (touch u) rows = rows.
Proof.
  induction rows as [|r rows IH]; [done|]. cbn [List.filter map].
  unfold touch at 1. destruct (Sql.conflicts u r); [done|].
  intros Hnil. by rewrite IH.
Qed.

(** When the table holds a row for the key, and one only, the upsert
    rewrites that row and leaves the others. *)
Lemma upsert_touch u rows :
  unique_keys rows -> existsb (Sql.conflicts u) rows = true ->
  (Sql.upsert u rows).1 = map (touch u) rows.
Proof.
  induction rows as [|old rows IH]; [done|]. intros Hu.
  cbn [Sql.upsert map existsb]. unfold touch at 1.
  destruct (Sql.conflicts u old) eqn:Hc.
  - intros _. cbn [fst]. f_equal. symmetry. apply touch_absent.
    specialize (Hu (c_document_id u) (content_hash u)).
    rewrite count_key_conflicts in Hu. cbn [List.filter] in Hu.
    rewrite Hc in Hu. cbn [length] in Hu.
    destruct (List.filter _ rows); [done | cbn [length] in Hu; lia].
  - rewrite orb_false_l. intros Hex.
    specialize (IH (unique_keys_tail _ _ Hu) Hex).
    destruct (Sql.upsert u rows) as [rest res]. cbn [fst] in *. by f_equal.
Qed.

Lemma upsert_absent u rows :
  existsb (Sql.conflicts u) rows = false -> (Sql.upsert u rows).1 = rows ++ [u].
Proof.
  induction rows as [|old rows IH]; [done|].
  cbn [Sql.upsert existsb app]. destruct (Sql.conflicts u old); [done|].
  rewrite orb_false_l. intros Hex. specialize (IH Hex).
  destruct (Sql.upsert u rows) as [rest res]. cbn [fst] in *. by f_equal.
Qed.

Lemma conflicts_refl u : Sql.conflicts u u = true.
Proof. unfold Sql.conflicts. by rewrite !String.eqb_refl. Qed.

Lemma do_update_refl u : Sql.do_update u u = u.
Proof. by destruct u. Qed.

(** A row that does not carry the key of the upsert was in the table
    before it. *)
Lemma upsert_elem_other u rows r :
  In r (Sql.upsert u rows).1 -> Sql.conflicts u r = false -> In r rows.
Proof.
  induction rows as [|old rows IH]; cbn [Sql.upsert].
  - intros [<- | []]. by rewrite conflicts_refl.
  - destruct (Sql.conflicts u old) eqn:Hc.
    + intros [<- | Hin] Hr; [|by right].
      change (Sql.conflicts u (Sql.do_update u old))
        with (Sql.conflicts u old) in Hr. congruence.
    + destruct (Sql.upsert u rows) as [rest res]. cbn [fst] in *.
      intros [<- | Hin] Hr; [by left | right; by apply IH].
Qed.

Lemma upserts_elem_other news rows r :
  In r (upserts news rows) ->
  Forall (fun u => Sql.conflicts u r = false) news -> In r rows.
Proof.
  revert rows. induction news as [|u news IH]; intros rows; [done|].
  cbn [upserts fold_left]. intros Hin Hall.
  apply Forall_cons in Hall as [Hu Hall].
  apply (upsert_elem_other u); [|done]. by apply IH.
Qed.

(** A row that carries the key of the upsert has its path and its
    timestamp after it. *)
Lemma upsert_elem_same u rows r :
  unique_keys rows ->
  In r (Sql.upsert u rows).1 -> Sql.conflicts u r = true ->
  Sql.do_update u r = r.
Proof.
  intros Hu Hin Hr. destruct (existsb (Sql.conflicts u) rows) eqn:Hex.
  - rewrite upsert_touch in Hin by done.
    apply in_map_iff in Hin as (r0 & <- & _).
    rewrite conflicts_touch in Hr. unfold touch. by rewrite Hr.
  - rewrite upsert_absent in Hin by done.
    apply in_app_iff in Hin as [Hin | [<- | []]].
    + assert (existsb (Sql.conflicts u) rows = true); [|congruence].
      apply existsb_exists. by exists r.
    + apply do_update_refl.
Qed.

Lemma upserts_unique news rows :
  unique_keys rows -> unique_keys (upserts news rows).
Proof.
  revert rows. induction news as [|u news IH]; intros rows Hu; [done|].
  cbn [upserts fold_left]. by apply IH, upsert_unique.
Qed.

Lemma upserts_keeps_keys d h news rows :
  (count_key d h rows <= count_key d h (upserts news rows))%nat.
Proof.
  revert rows. induction news as [|u news IH]; intros rows; [done|].
  cbn [upserts fold_left]. etrans; [apply (upsert_keeps_keys d h u)|apply IH].
Qed.

Lemma existsb_conflicts_count u rows :
  existsb (Sql.conflicts u) rows = true
  <-> (1 <= count_key (c_document_id u) (content_hash u) rows)%nat.
Proof.
  pose proof (upsert_indicator u rows) as Hind.
  pose proof (upsert_inserted_iff u rows) as Hins.
  destruct (existsb (Sql.conflicts u) rows); cbn [negb] in Hind.
  - split; [|done]. intros _.
    destruct (count_key _ _ rows); [|lia].
    destruct Hins as [_ Hins]. rewrite Hins in Hind; done.
  - split; [done|]. destruct Hins as [Hins _]. specialize (Hins Hind). lia.
Qed.

Lemma upserts_present news rows :
  Forall (fun u => existsb (Sql.conflicts u) (upserts news rows) = true) news.
Proof.
  revert rows. induction news as [|u news IH]; intros rows; [constructor|].
  cbn [upserts fold_left]. constructor; [|apply IH].
  apply existsb_conflicts_count.
  etrans; [apply (upsert_stores_key u rows)|apply upserts_keeps_keys].
Qed.

Lemma existsb_conflicts_touch u u' rows :
  existsb (Sql.conflicts u') (map (touch u) rows)
  = existsb (Sql.conflicts u') rows.
Proof.
  induction rows as [|r rows IH]; [done|]. cbn [map existsb].
  by rewrite conflicts_touch, IH.
Qed.

(** When the table holds a row for every key, and one only, the upserts
    rewrite rows in place. *)
Lemma upserts_touches news rows :
  unique_keys rows ->
  Forall (fun u => existsb (Sql.conflicts u) rows = true) news ->
  upserts news rows = map (touches news) rows.
Proof.
  revert rows. induction news as [|u news IH]; intros rows Hu Hall.
  - cbn [upserts touches fold_left]. by rewrite map_id.
  - apply Forall_cons in Hall as [Hex Hall].
    cbn [upserts fold_left]. rewrite upsert_touch by done.
    fold (upserts news (map (touch u) rows)).
    rewrite IH.
    + rewrite map_map. done.
    + rewrite <- upsert_touch by done. by apply upsert_unique.
    + eapply Forall_impl; [exact Hall|]. intros u' Hu'.
      by rewrite existsb_conflicts_touch.
Qed.

(** Every row of the table the upserts leave is as the same upserts make
    it. *)
Lemma upserts_fixed news rows r :
  unique_keys rows -> In r (upserts news rows) -> touches news r = r.
Proof.
  revert rows. induction news as [|u news IH]; intros rows Hu Hin; [done|].
  cbn [upserts fold_left] in Hin. fold (upserts news (Sql.upsert u rows).1) in Hin.
  pose proof (IH _ (upsert_unique u rows Hu) Hin) as Hr.
  cbn [touches fold_left]. fold (touches news (touch u r)).
  unfold touch. destruct (Sql.conflicts u r) eqn:Hc; [|done].
  destruct (existsb (fun u' => Sql.conflicts u' r) news) eqn:Hex.
  - rewrite (touches_fixed news (Sql.do_update u r) r); done.
  - assert (Hall : Forall (fun u' => Sql.conflicts u' r = false) news).
    { apply Forall_forall. intros u' Hu'.
      destruct (Sql.conflicts u' r) eqn:Hc'; [|done].
      assert (existsb (fun u' => Sql.conflicts u' r) news = true);
        [|congruence].
      apply existsb_exists. exists u'. split; [by apply list_elem_of_In|done]. }
    rewrite (touches_absent news (Sql.do_update u r)) by done.
    apply (upsert_elem_same u rows); [done| |done].
    by apply (upserts_elem_other news).
Qed.

(** Offering the same rows again changes nothing. *)
Lemma upserts_again news news' rows :
  unique_keys rows -> Forall2 same_request news news' ->
  upserts news' (upserts news rows) = upserts news rows.
Proof.
  intros Hu Hsame. rewrite upserts_touches.
  - transitivity (map (fun r => r) (upserts news rows)); [|apply map_id].
    apply map_ext_in. intros r Hin.
    rewrite <- (touches_same_request news news' r Hsame).
    by apply (upserts_fixed news rows).
  - by apply upserts_unique.
  - pose proof (upserts_present news rows) as Hp.
    revert Hp. generalize (upserts news rows). intros table Hp.
    induction Hsame as [|u u' news0 news0' Hu0 Hsame IH]; [constructor|].
    apply Forall_cons in Hp as [Hex Hp]. constructor; [|by apply IH].
    rewrite <- Hex. clear -Hu0. induction table as [|r table IH]; [done|].
    cbn [existsb]. by rewrite IH, (conflicts_same_request u u' r Hu0).
Qed.

Section RunAgain.
Context `{Libs}.

Lemma request_for_same a docs m ts pdfs news news' :
  Forall2 (request_for a docs m ts) pdfs news ->
  Forall2 (request_for a docs m ts) pdfs news' ->
  Forall2 same_request news news'.
Proof.
  intros Hnews. revert news'.
  induction Hnews as [|pdf u pdfs news Hu _ IH]; intros news' Hnews'.
  - apply Forall2_nil_inv_l in Hnews' as ->. constructor.
  - apply Forall2_cons_inv_l in Hnews' as (u' & news0 & Hu' & Hrest & ->).
    constructor; [|by apply IH].
    destruct Hu as (d & b & Hd & Hb & H1 & H2 & H3 & H4).
    destruct Hu' as (d' & b' & Hd' & Hb' & H1' & H2' & H3' & H4').
    unfold same_request. rewrite H1, H2, H3, H4, H1', H2', H3', H4'.
    split; [congruence|]. split; [congruence | done].
Qed.

(** Over files that are mapped and readable, a real run makes of the
    table what the upserts of their rows make of it. *)
Lemma sync_files_ready_upserts a docs ts pdfs m t w :
  arg_dry_run a = false ->
  pending (w_db w) = committed (w_db w) ->
  forallb (fun pdf => ready docs m (stem_of (entry_name pdf)) pdf) pdfs = true ->
  exists news st w',
    sync_files a docs ts pdfs (m, t) w = (Ok st, w')
    /\ Forall2 (request_for a docs m ts) pdfs news
    /\ committed (w_db w') = upserts news (committed (w_db w)).
Proof.
  intros Hdry. revert t w.
  induction pdfs as [|pdf pdfs IH]; intros t w Hpc Hall.
  - exists [], (m, t), w. split; [done|]. split; [constructor | done].
  - cbn [forallb] in Hall. apply andb_prop in Hall as [Hpdf Hall].
    apply ready_inv in Hpdf as (d & bytes & Hfast & Hbytes & Hid).
    set (row := new_row (uuid4 (w_uuid_draws w)) (doc_document_id d) ts
                  (rel_path a pdf) (Py.upper (hexdigest bytes))).
    destruct (Sql.upsert row (pending (w_db w))) as [rows [cid ins]] eqn:Hup.
    cbn [sync_files]. unfold bind.
    rewrite (sync_file_ready_real a docs ts pdf m t w d bytes rows cid ins
               Hfast Hbytes Hid Hdry Hup).
    match goal with
    | |- context [sync_files a docs ts pdfs (m, ?t1) ?w1] =>
        destruct (IH t1 w1 eq_refl Hall) as (news & st & w' & -> & Hnews & Hc)
    end.
    world_simpl. exists (row :: news), st, w'. split; [done|]. split.
    + constructor; [|done]. exists d, bytes. by cbn.
    + rewrite Hc. cbn [upserts fold_left]. by rewrite <- Hpc, Hup.
Qed.

Lemma run_ready_upserts a w entries mapping :
  arg_dry_run a = false ->
  w_database_url w <> EmptyString ->
  w_date_dir w = Some entries ->
  read_mapping (w_mapping_file w) = Some mapping ->
  forallb (fun pdf => ready (catalog (w_db w) (arg_site a)) mapping
                        (stem_of (entry_name pdf)) pdf)
          (glob_pdfs entries) = true ->
  exists news,
    Forall2 (request_for a (catalog (w_db w) (arg_site a)) mapping
               (arg_date a +:+ "T12:00:00+00:00"))
            (glob_pdfs entries) news
    /\ committed (w_db (run a w).2) = upserts news (committed (w_db w)).
Proof.
  intros Hdry Hurl Hdir Hm Hready. rewrite run_eq, Hdir, Hm.
  destruct (w_database_url w) as [|c url]; [done|].
  destruct (glob_pdfs entries) as [|pdf pdfs] eqn:Hglob.
  { exists []. split; [constructor | by destruct w]. }
  cbv zeta.
  destruct (sync_files_ready_upserts a (catalog (w_db w) (arg_site a))
              (arg_date a +:+ "T12:00:00+00:00") (pdf :: pdfs) mapping
              (Tally 0 0 0) (started a (pdf :: pdfs) w) Hdry
              (started_pending _ _ _) Hready)
    as (news & st & w1 & Hsync & Hnews & Hc).
  exists news. split; [done|].
  destruct (catalog (w_db w) (arg_site a)) as [|d docs] eqn:Hcat.
  { cbn [forallb] in Hready. apply andb_prop in Hready as [Hr _].
    apply ready_inv in Hr as (d & _ & Hfast & _).
    unfold fast_path in Hfast. by destruct (mapping !! _). }
  rewrite Hsync.
  assert (Hc0 : committed (w_db (started a (pdf :: pdfs) w))
                = committed (w_db w)) by (by destruct w as [? ? ? [] ? ? ?]).
  rewrite <- Hc0, <- Hc. by destruct w1 as [? ? ? [] ? ? ?].
Qed.

End RunAgain.

(** X18: when the sync is run twice over the same folder, with every stem
    mapped to a candidate and every file readable, on a table that
    respects the uniqueness constraint, the second run leaves the table
    exactly as the first left it, row for row: identifiers, paths and
    timestamps included, the identifiers it draws being discarded. *)
Theorem second_run_leaves_the_table_as_it_is `{Libs} a w entries mapping :
  unique_keys (committed (w_db w)) ->
  arg_dry_run a = false ->
  w_database_url w <> EmptyString ->
  w_date_dir w = Some entries ->
  glob_pdfs entries <> [] ->
  read_mapping (w_mapping_file w) = Some mapping ->
  forallb (fun pdf => ready (catalog (w_db w) (arg_site a)) mapping
                        (stem_of (entry_name pdf)) pdf)
          (glob_pdfs entries) = true ->
  committed (w_db (run a (run a w).2).2) = committed (w_db (run a w).2).
Proof.
  intros Hu Hdry Hurl Hdir Hglob Hm Hready.
  destruct (run_ready_real a w entries mapping Hdry Hurl Hdir Hglob Hm Hready)
    as (t & w1 & Hrun & _ & _ & _ & _ & _ & _ & Hurl1 & Hdir1 & Hfile1
        & Hsites1 & Hdocs1).
  destruct (run_ready_upserts a w entries mapping Hdry Hurl Hdir Hm Hready)
    as (news & Hnews & Hc).
  rewrite Hrun in *. cbn [snd] in *.
  assert (Hcat : catalog (w_db w1) (arg_site a) = catalog (w_db w) (arg_site a))
    by (by apply catalog_ext).
  destruct (run_ready_upserts a w1 entries mapping) as (news' & Hnews' & Hc');
    [done | congruence | congruence | congruence | by rewrite Hcat |].
  rewrite Hcat in Hnews'. rewrite Hc', Hc.
  apply upserts_again; [done|]. by eapply request_for_same.
Qed.

Lemma second_run_leaves_the_table_as_it_is_witness :
  let w := sync_world (Some "x") (Some "y") both_mapped [] [] in
  let a := demo_args false in
  committed (w_db (run (H := demo_libs) a (run (H := demo_libs) a w).2).2)
  = committed (w_db (run (H := demo_libs) a w).2).
Proof.
  apply (second_run_leaves_the_table_as_it_is (H := demo_libs)
           (demo_args false)
           (sync_world (Some "x") (Some "y") both_mapped [] [])
           [DirEntry "b.pdf" (Some "y"); DirEntry "notes.txt" None;
            DirEntry "a.pdf" (Some "x")]
           (<[ "b" := "u2" ]> {[ "a" := "u1" ]})).
  - intros d h. exact (Nat.le_0_l 1).
  - reflexivity.
  - discriminate.
  - reflexivity.
  - by vm_compute.
  - by vm_compute.
  - by vm_compute.
Defined.

(* ===================================================================== *)
(** ** The dictionary a run builds *)
(* ===================================================================== *)

Lemma fast_path_insert_other docs (m : gmap string string) k k' u :
  k <> k' -> fast_path docs (<[k' := u]> m) k = fast_path docs m k.
Proof. intros Hk. unfold fast_path. by rewrite lookup_insert_ne. Qed.

Lemma fast_path_insert_candidate docs (m : gmap string string) k d :
  In d docs -> fast_path docs (<[k := doc_url d]> m) k <> None.
Proof.
  intros Hd. unfold fast_path. rewrite lookup_insert_eq.
  destruct (first_with_url_of_candidate docs d Hd) as [d' ->]. done.
Qed.

(** A stem that mapping.json resolves stays resolved, and a stem for
    which the resolver returns a document is resolved from then on. *)
Lemma resolve_document_resolved stem docs m w res m' w' :
  resolve_document stem docs m w = (Ok (res, m'), w') ->
  (forall k, fast_path docs m k <> None -> fast_path docs m' k <> None)
  /\ (res <> None -> fast_path docs m' stem <> None).
Proof.
  intros Hres. apply resolve_document_inv in Hres. destruct res as [id|].
  - destruct Hres as [(d & Hfast & _ & -> & _)
                     |(_ & line & rest & d & _ & _ & Hsel & _ & -> & _)].
    + split; [done|]. intros _. by rewrite Hfast.
    + apply selection_candidate in Hsel. split.
      * intros k Hk. destruct (decide (k = stem)) as [->|Hne].
        -- by apply fast_path_insert_candidate.
        -- by rewrite fast_path_insert_other.
      * intros _. by apply fast_path_insert_candidate.
  - destruct Hres as (_ & -> & _). by split.
Qed.

Section Dictionary.
Context `{Libs}.

Lemma sync_file_resolved a docs ts pdf m t w m' t' w' :
  sync_file a docs ts pdf (m, t) w = (Ok (m', t'), w') ->
  (forall k, fast_path docs m k <> None -> fast_path docs m' k <> None)
  /\ (skipped t' = skipped t
      /\ fast_path docs m' (stem_of (entry_name pdf)) <> None
      \/ skipped t' = S (skipped t)).
Proof.
  destruct (sync_file_cases a docs ts pdf m t w) as (r0 & w1 & Hres & ->).
  destruct r0 as [[r1 m1]|e]; [|done].
  apply resolve_document_resolved in Hres as [Hkeep Hstem].
  destruct (Py.truthy r1) eqn:Ht.
  2:{ intros [= <- <- <-]. split; [done | by right]. }
  assert (Hr1 : r1 <> None) by (by destruct r1).
  destruct (entry_bytes pdf) as [bytes|]; [|done].
  destruct (arg_dry_run a).
  { intros [= <- <- <-]. split; [done|]. left. split; [done | auto]. }
  cbv zeta. destruct (Sql.upsert _ _) as [rows [cid ins]].
  intros [= <- <- <-]. split; [done|]. left.
  split; [by destruct ins | auto].
Qed.

Lemma sync_files_resolved a docs ts pdfs m t w m' t' w' :
  sync_files a docs ts pdfs (m, t) w = (Ok (m', t'), w') ->
  (skipped t <= skipped t')%nat
  /\ (forall k, fast_path docs m k <> None -> fast_path docs m' k <> None)
  /\ (skipped t' = skipped t ->
      Forall (fun pdf =>
                fast_path docs m' (stem_of (entry_name pdf)) <> None)
             pdfs).
Proof.
  revert m t w. induction pdfs as [|pdf pdfs IH]; intros m t w.
  - intros [= <- <- <-]. split; [lia|]. split; [done | constructor].
  - cbn [sync_files]. unfold bind.
    destruct (sync_file a docs ts pdf (m, t) w) as [[[m1 t1]|e] w1] eqn:Hf;
      [|done].
    apply sync_file_resolved in Hf as [Hkeep Hskip].
    intros (Hle & Hkeep' & Hall)%IH.
    split; [destruct Hskip as [[Hs _]|Hs]; lia|].
    split; [auto|].
    intros Hsame. destruct Hskip as [[Hs Hstem]|Hs]; [|lia].
    constructor; [auto|]. apply Hall. lia.
Qed.

(** The dictionary of the loop is the loaded one with mapping.json
    untouched, or the one mapping.json holds. *)
Lemma sync_files_saved a docs ts pdfs m t w m' t' w' :
  sync_files a docs ts pdfs (m, t) w = (Ok (m', t'), w') ->
  m' = m /\ w_mapping_file w' = w_mapping_file w
  \/ w_mapping_file w' = Some (mapping_text m').
Proof.
  intros Hsync.
  apply (sync_files_inv a docs ts
           (fun st x =>
              st.1 = m /\ w_mapping_file x = w_mapping_file w
              \/ w_mapping_file x = Some (mapping_text st.1))
           (fun _ => True)) in Hsync; [done| |by left].
  clear. intros pdf [m1 t1] x r x' _ Hx Hf.
  destruct r as [[m2 t2]|e]; [|done].
  apply sync_file_io in Hf as (r0 & x1 & Hres & _ & Hfile & res & ->).
  apply resolve_document_footprint in Hres as (_ & _ & _ & Hsaved & _).
  assert (Hx0 : w_mapping_file (announced a pdf x) = w_mapping_file x)
    by (by destruct x).
  cbn [fst] in *. rewrite Hfile.
  destruct Hsaved as [[-> Hsame] | Hsaved]; [|by right].
  by rewrite Hsame, Hx0.
Qed.

End Dictionary.

(** X19: after a run that ends with status 0 and reports no file as
    skipped, the dictionary of the run resolves the stem of every file of
    the folder to a document of the site, and that dictionary is the one
    loaded at the start, with mapping.json untouched, or the one
    mapping.json now holds (lines 113-114): what was assigned at the
    prompts is on disk for the next run. *)
Theorem run_without_skips_maps_every_file `{Libs} a w entries i u :
  w_date_dir w = Some entries ->
  glob_pdfs entries <> [] ->
  (run a w).1 = 0 ->
  last (w_stdout (run a w).2) = Some (summary a (Tally i u 0)) ->
  exists m0 m',
    read_mapping (w_mapping_file w) = Some m0
    /\ (m' = m0 /\ w_mapping_file (run a w).2 = w_mapping_file w
        \/ w_mapping_file (run a w).2 = Some (mapping_text m'))
    /\ Forall (fun pdf =>
                 fast_path (catalog (w_db w) (arg_site a)) m'
                           (stem_of (entry_name pdf)) <> None)
              (glob_pdfs entries).
Proof.
  intros Hdir Hglob. rewrite run_eq, Hdir.
  destruct (w_database_url w) as [|c url]; [done|].
  destruct (glob_pdfs entries) as [|pdf pdfs] eqn:Hg; [done|]. cbv zeta.
  destruct (read_mapping (w_mapping_file w)) as [m|]; [|done].
  destruct (catalog (w_db w) (arg_site a)) as [|d docs]; [done|].
  destruct (sync_files _ _ _ _ _ _) as [[[m' t']|e] w1] eqn:Hsync; [|done].
  intros _ Hlast. exists m, m'. split; [done|].
  assert (Hskip : skipped t' = 0%nat).
  { destruct w1. cbn in Hlast. rewrite last_snoc in Hlast.
    injection Hlast as Hlast. unfold summary in Hlast.
    destruct (arg_dry_run a); by injection Hlast. }
  pose proof (sync_files_saved _ _ _ _ _ _ _ _ _ _ Hsync) as Hsaved.
  apply sync_files_resolved in Hsync as (_ & _ & Hall).
  assert (Hf0 : w_mapping_file (started a (pdf :: pdfs) w) = w_mapping_file w)
    by (by destruct w).
  split; [|by apply Hall].
  rewrite Hf0 in Hsaved. by destruct w1 as [? ? ? [] ? ? ?].
Qed.

Lemma run_without_skips_maps_every_file_witness :
  let w := sync_world (Some "x") (Some "y") None [] ["1"; "0"] in
  exists m0 m',
    read_mapping (H := demo_libs) (w_mapping_file w) = Some m0
    /\ (m' = m0
        /\ w_mapping_file (run (H := demo_libs) (demo_args false) w).2
           = w_mapping_file w
        \/ w_mapping_file (run (H := demo_libs) (demo_args false) w).2
           = Some (mapping_text m'))
    /\ Forall (fun pdf =>
                 fast_path (catalog (H := demo_libs) (w_db w)
                              (arg_site (demo_args false))) m'
                           (stem_of (entry_name pdf)) <> None)
              (glob_pdfs [DirEntry "b.pdf" (Some "y");
                          DirEntry "notes.txt" None;
                          DirEntry "a.pdf" (Some "x")]).
Proof.
  apply (run_without_skips_maps_every_file (H := demo_libs) (demo_args false)
           (sync_world (Some "x") (Some "y") None [] ["1"; "0"])
           [DirEntry "b.pdf" (Some "y"); DirEntry "notes.txt" None;
            DirEntry "a.pdf" (Some "x")] 2 0).
  - reflexivity.
  - by vm_compute.
  - by vm_compute.
  - by vm_compute.
Defined.

(** X20: the number printed beside a candidate in the menu (lines
    100-103) is the number that selects it: when the stem is not resolved
    by mapping.json and the user types the number [i] of a listed
    candidate, with any surrounding white space, the resolver has
    printed that candidate as entry [i], returns its identifier, maps the
    stem to its locator and saves the dictionary. *)
Theorem typed_number_selects_the_listed_candidate
    stem docs mapping w line rest i d :
  fast_path docs mapping stem = None ->
  w_stdin w = line :: rest ->
  Py.int (Py.lower (Py.strip line)) = Some (Z.of_nat i) ->
  docs !! i = Some d ->
  exists w',
    resolve_document stem docs mapping w
    = (Ok (Some (doc_document_id d), <[stem := doc_url d]> mapping), w')
    /\ In (menu_entry i d) (w_stdout w')
    /\ w_mapping_file w' = Some (mapping_text (<[stem := doc_url d]> mapping))
    /\ w_stdin w' = rest.
Proof.
  intros Hfast Hin Hint Hd.
  assert (Hsel : selection docs line = Some d).
  { unfold selection. rewrite Hint, getitem_in_range, Nat2Z.id; [done|].
    apply lookup_lt_Some in Hd. lia. }
  assert (Hs : String.eqb (Py.lower (Py.strip line)) "s" = false).
  { apply String.eqb_neq. intros Heq. by rewrite Heq in Hint. }
  rewrite (resolve_document_prompt stem docs mapping w Hfast).
  rewrite (assign_interactively_line stem docs mapping _ line rest)
    by (by destruct w).
  cbv zeta. rewrite Hs, Hsel. eexists. split; [done|].
  split; [|by destruct w].
  destruct w. world_simpl. unfold prompt_lines.
  rewrite !in_app_iff. left. right. right. left.
  apply list_elem_of_In, (list_elem_of_lookup_2 _ i).
  by rewrite menu_entries_lookup, Hd.
Qed.

Lemma typed_number_selects_the_listed_candidate_witness :
  exists w',
    resolve_document "scan" demo_docs ∅ (demo_world [" 1 "])
    = (Ok (Some "d2", <[ "scan" := "u2" ]> ∅), w')
    /\ In (menu_entry 1 (Doc "d2" "u2" None None)) (w_stdout w')
    /\ w_mapping_file w' = Some (mapping_text (<[ "scan" := "u2" ]> ∅))
    /\ w_stdin w' = [].
Proof.
  apply (typed_number_selects_the_listed_candidate
           "scan" demo_docs ∅ (demo_world [" 1 "]) " 1 " [] 1
           (Doc "d2" "u2" None None)).
  - reflexivity.
  - reflexivity.
  - reflexivity.
  - reflexivity.
Defined.
